(** * PlyWrapper: decoding a Gaussian-splatting PLY element into arrays

    A shallow embedding of [ply_wrapper.py].  The class reads the first
    element of a [plyfile.PlyData] object into six numpy arrays and offers
    three queries on them ([get_data], [matching_dimensions],
    [get_sh_coeffs_standardized_format]).

    The Python exceptions are kept as values of an error monad, the numpy
    arrays as a shape together with the row-major list of their entries, and
    the dictionary returned by [get_data] as a finite map.  The entries of the
    arrays are floating-point numbers in the program; no statement below
    computes with them, so their type is a parameter [scalar] of the
    development, with the conversion [cast] to [float64] that numpy applies
    when a value is stored into an array made by [np.zeros]. *)

From Stdlib Require Import ZArith List String Ascii Lia Permutation Sorted DecimalString.
From stdpp Require Import base option list strings gmap.

Open Scope string_scope.

Set Default Proof Using "Type".

(** ** Python: exceptions, [str.split], [int] *)

Module Py.

Inductive exn : Type :=
| FileNotFoundError (msg : string)
| ValueError (msg : string)
| TypeError (msg : string)
| AttributeError (msg : string)
| IndexError (msg : string)
| AxisError (msg : string)
| OtherError (msg : string).

Inductive result (A : Type) : Type :=
| Ok (a : A)
| Raise (e : exn).

Arguments Ok {A} a.
Arguments Raise {A} e.

Definition bind {A B : Type} (r : result A) (k : A -> result B) : result B :=
  match r with
  | Ok a => k a
  | Raise e => Raise e
  end.

Definition raises {A : Type} (r : result A) : Prop :=
  match r with
  | Ok _ => False
  | Raise _ => True
  end.

(** A loop [for x in l: acc = body(acc, x)] whose body may raise. *)
Fixpoint for_each {A S : Type} (body : S -> A -> result S) (l : list A) (acc : S)
  : result S :=
  match l with
  | [] => Ok acc
  | x :: l' => bind (body acc x) (for_each body l')
  end.

(** A comprehension [[f(x) for x in l]] whose body may raise: the first
    failure, from the left, is the one that propagates. *)
Fixpoint map_each {A B : Type} (f : A -> result B) (l : list A) : result (list B) :=
  match l with
  | [] => Ok []
  | x :: l' => bind (f x) (fun y => bind (map_each f l') (fun ys => Ok (y :: ys)))
  end.

(** [enumerate(l)] *)
Definition enumerate {A : Type} (l : list A) : list (nat * A) :=
  imap (fun i x => (i, x)) l.

(** [s.split(sep)] for a separator of one character. *)
Fixpoint split (sep : ascii) (s : string) : list string :=
  match s with
  | EmptyString => [EmptyString]
  | String c s' =>
      if Ascii.eqb c sep then EmptyString :: split sep s'
      else match split sep s' with
           | [] => [String c EmptyString]
           | h :: t => String c h :: t
           end
  end.

(** [l[-1]] on the list returned by [split], which is never empty. *)
Definition last_item (l : list string) : string := List.last l EmptyString.

(** The ASCII characters that [int] skips around the number: the space,
    the controls 9 to 13 and the separators 28 to 31. *)
Definition is_space (c : ascii) : bool :=
  let n := nat_of_ascii c in
  Nat.eqb n 32 || (Nat.leb 9 n && Nat.leb n 13) || (Nat.leb 28 n && Nat.leb n 31).

Definition is_digit (c : ascii) : bool :=
  let n := nat_of_ascii c in
  Nat.leb 48 n && Nat.leb n 57.

Definition digit_value (c : ascii) : Z := Z.of_nat (nat_of_ascii c - 48).

Fixpoint lstrip (l : list ascii) : list ascii :=
  match l with
  | c :: l' => if is_space c then lstrip l' else l
  | [] => []
  end.

Definition strip (l : list ascii) : list ascii :=
  List.rev (lstrip (List.rev (lstrip l))).

(** Decimal digits, where a single underscore may separate two digits. *)
Fixpoint digits (acc : Z) (after_digit : bool) (l : list ascii) : option Z :=
  match l with
  | [] => if after_digit then Some acc else None
  | c :: l' =>
      if is_digit c then digits (10 * acc + digit_value c) true l'
      else if Ascii.eqb c "_"%char then
             if after_digit then digits acc false l' else None
      else None
  end.

Definition parse_int (s : string) : option Z :=
  match strip (list_ascii_of_string s) with
  | c :: l' =>
      if Ascii.eqb c "-"%char then Z.opp <$> digits 0 false l'
      else if Ascii.eqb c "+"%char then digits 0 false l'
      else digits 0 false (c :: l')
  | [] => None
  end.

(** [int(s)] in base 10 on a string of ASCII characters: surrounding
    white space is dropped, a sign is allowed, and anything else than digits
    raises [ValueError]. *)
Definition int (s : string) : result Z :=
  match parse_int s with
  | Some z => Ok z
  | None => Raise (ValueError ("invalid literal for int() with base 10: '" ++ s ++ "'"))
  end.

(** Stable insertion by key; [sorted] is a stable sort, and the stable
    sorted arrangement of a list is unique. *)
Fixpoint insert_by_key {A : Type} (x : Z * A) (l : list (Z * A)) : list (Z * A) :=
  match l with
  | [] => [x]
  | y :: l' => if Z.leb (fst x) (fst y) then x :: y :: l' else y :: insert_by_key x l'
  end.

Definition sort_by_key {A : Type} (l : list (Z * A)) : list (Z * A) :=
  List.fold_right insert_by_key [] l.

(** [sorted(l, key=key)]: every key is computed first, from the left, then
    the items are arranged by ascending key. *)
Definition sorted {A : Type} (key : A -> result Z) (l : list A) : result (list A) :=
  bind (map_each key l) (fun keys => Ok (List.map snd (sort_by_key (List.combine keys l)))).

End Py.

Export Py.

Notation "x <- r ;; k" := (Py.bind r (fun x => k))
  (at level 100, r at next level, right associativity).

(** ** numpy: arrays as a shape and the row-major list of entries *)

Module np.

Record ndarray (scalar : Type) : Type := mk_ndarray {
  shape : list nat;
  flat : list scalar
}.

Arguments mk_ndarray {scalar} shape flat.
Arguments shape {scalar} n.
Arguments flat {scalar} n.

(** The number of entries of an array of shape [s]. *)
Definition size_of (s : list nat) : nat := List.fold_right Nat.mul 1 s.

(** The offset, inside one block of shape [ds], of the entries selected by
    the integer indices [idx] on its leading axes. *)
Fixpoint ravel (ds idx : list nat) : nat :=
  match idx, ds with
  | i :: idx', d :: ds' => i * size_of ds' + ravel ds' idx'
  | _, _ => 0
  end.

Fixpoint in_bounds (ds idx : list nat) : bool :=
  match idx, ds with
  | [], _ => true
  | i :: idx', d :: ds' => Nat.ltb i d && in_bounds ds' idx'
  | _ :: _, [] => false
  end.

Section Ops.

Context {scalar : Type}.

(** The entry a fresh array holds, and the conversion to the array's
    [float64] on assignment. *)
Variable zero : scalar.
Variable cast : scalar -> scalar.

(** [np.asarray(a)] of what is an array already. *)
Definition asarray (a : ndarray scalar) : ndarray scalar := a.

(** [np.zeros(s)] *)
Definition zeros (s : list nat) : ndarray scalar :=
  mk_ndarray s (replicate (size_of s) zero).

(** [len(a)] and [a.shape[0]] *)
Definition len (a : ndarray scalar) : result nat :=
  match shape a with
  | [] => Raise (TypeError "len() of unsized object")
  | d :: _ => Ok d
  end.

Definition shape0 (a : ndarray scalar) : result nat :=
  match shape a with
  | [] => Raise (IndexError "tuple index out of range")
  | d :: _ => Ok d
  end.

(** The [i]-th block of [b] entries of a row-major list. *)
Definition block (b i : nat) (l : list scalar) : list scalar :=
  take b (drop (i * b) l).

(** [np.stack(arrs, axis=1)]: the arrays must agree in shape and have an
    axis 0; along the new axis 1 the [j]-th slot holds the [j]-th array. *)
Definition stack_axis1 (arrs : list (ndarray scalar)) : result (ndarray scalar) :=
  match arrs with
  | [] => Raise (ValueError "need at least one array to stack")
  | a :: _ =>
      if negb (forallb (fun b => bool_decide (shape b = shape a)) arrs)
      then Raise (ValueError "all input arrays must have the same shape")
      else match shape a with
           | [] => Raise (AxisError "axis 1 is out of bounds for array of dimension 1")
           | d0 :: ds =>
               Ok (mk_ndarray (d0 :: length arrs :: ds)
                     (List.concat
                        (List.map (fun i => List.concat
                           (List.map (fun b => block (size_of ds) i (flat b)) arrs))
                           (seq 0 d0))))
           end
  end.

(** [a[..., np.newaxis]] *)
Definition newaxis_last (a : ndarray scalar) : ndarray scalar :=
  mk_ndarray (shape a ++ [1]) (flat a).

(** [a.squeeze()] removes every axis of length one. *)
Definition squeeze (a : ndarray scalar) : ndarray scalar :=
  mk_ndarray (List.filter (fun d => negb (Nat.eqb d 1)) (shape a)) (flat a).

(** [a[:, i1, ..., it] = v]: a full slice on axis 0 and integer indices on
    the next axes.  The value is stored converted to the array's type.  A
    value of the shape of the target is stored entry by entry and a value of
    one entry is repeated; numpy's other broadcasts do not occur in this
    program and are left out, which is the [ValueError] below. *)
Definition setitem_cols (a : ndarray scalar) (idx : list nat) (v : ndarray scalar)
  : result (ndarray scalar) :=
  match shape a with
  | [] => Raise (IndexError "too many indices for array")
  | d0 :: ds =>
      if Nat.ltb (length ds) (length idx)
      then Raise (IndexError "too many indices for array")
      else if negb (in_bounds ds idx)
      then Raise (IndexError "index is out of bounds")
      else
        let target := d0 :: drop (length idx) ds in
        let bl := size_of (drop (length idx) ds) in
        let off := ravel ds idx in
        vals <- (if bool_decide (shape v = target) then Ok (flat v)
                 else match flat v with
                      | [x] => Ok (replicate (size_of target) x)
                      | _ => Raise (ValueError "could not broadcast input array")
                      end) ;;
        Ok (mk_ndarray (shape a)
              (imap (fun p x =>
                       let r := p mod size_of ds in
                       if Nat.leb off r && Nat.ltb r (off + bl)
                       then match vals !! (p / size_of ds * bl + (r - off)) with
                            | Some y => cast y
                            | None => x
                            end
                       else x)
                    (flat a)))
  end.

(** [np.concatenate(arrs, axis=1)] *)
Definition concatenate_axis1 (arrs : list (ndarray scalar)) : result (ndarray scalar) :=
  match arrs with
  | [] => Raise (ValueError "need at least one array to concatenate")
  | a :: _ =>
      match shape a with
      | [] => Raise (ValueError "zero-dimensional arrays cannot be concatenated")
      | [_] => Raise (AxisError "axis 1 is out of bounds for array of dimension 1")
      | d0 :: _ :: ds =>
          if negb (forallb (fun b => Nat.eqb (length (shape b)) (length (shape a))) arrs)
          then Raise (ValueError "all the input arrays must have same number of dimensions")
          else if negb (forallb (fun b => bool_decide (take 1 (shape b) = [d0])
                                          && bool_decide (drop 2 (shape b) = ds)) arrs)
          then Raise (ValueError "all the input array dimensions except for the concatenation axis must match exactly")
          else
            Ok (mk_ndarray
                  (d0 :: sum_list (List.map (fun b => List.nth 1 (shape b) 0) arrs) :: ds)
                  (List.concat
                     (List.map (fun i => List.concat
                        (List.map (fun b => block (size_of (drop 1 (shape b))) i (flat b)) arrs))
                        (seq 0 d0))))
      end
  end.

(** [for row in a], the sub-arrays along axis 0. *)
Definition iter (a : ndarray scalar) : result (list (ndarray scalar)) :=
  match shape a with
  | [] => Raise (TypeError "iteration over a 0-d array")
  | d0 :: ds =>
      Ok (List.map (fun i => mk_ndarray ds (block (size_of ds) i (flat a))) (seq 0 d0))
  end.

(** [tuple(row)] of a one-dimensional array: its entries. *)
Definition tuple (row : ndarray scalar) : list scalar := flat row.

(** [a.count] on a numpy array.  [numpy.ndarray] has [shape], [size],
    [ndim], [dtype] and its methods, and no attribute [count] (the number of
    rows of an element is [PlyElement.count], and of an array [len(a)]): the
    access raises [AttributeError]. *)
Definition count (a : ndarray scalar) : result nat :=
  Raise (AttributeError "'numpy.ndarray' object has no attribute 'count'").

(** The list of the entries [a[0, j], a[1, j], ...] of a two-dimensional
    array, used to state what a column holds. *)
Definition column (a : ndarray scalar) (j : nat) : list (option scalar) :=
  match shape a with
  | [n; m] => List.map (fun i => flat a !! (i * m + j)) (seq 0 n)
  | _ => []
  end.

(** The rows of a two-dimensional array. *)
Definition rows (a : ndarray scalar) : list (list scalar) :=
  match shape a with
  | [n; m] => List.map (fun i => block m i (flat a)) (seq 0 n)
  | _ => []
  end.

End Ops.

End np.

(** ** plyfile: elements, their properties and their table of rows *)

Module plyfile.

(** A [PlyElement]: its name, the names of its properties in the order of
    their declaration, and its data, a structured array with one record per
    row and one field per property.  The properties are scalar ones. *)
Record PlyElement (scalar : Type) : Type := mk_PlyElement {
  name : string;
  properties : list string;
  data : list (list scalar)
}.

Arguments mk_PlyElement {scalar} name properties data.
Arguments name {scalar} p.
Arguments properties {scalar} p.
Arguments data {scalar} p.

(** A [PlyData]: its elements, which the object keeps in a tuple. *)
Record PlyData (scalar : Type) : Type := mk_PlyData {
  elements : list (PlyElement scalar)
}.

Arguments mk_PlyData {scalar} elements.
Arguments elements {scalar} p.

(** The position of the first property of a given name. *)
Fixpoint index_of (key : string) (names : list string) : option nat :=
  match names with
  | [] => None
  | n :: names' => if String.eqb n key then Some 0 else S <$> index_of key names'
  end.

Section Access.

Context {scalar : Type}.
Variable zero : scalar.

(** The number of rows, [element.count]. *)
Definition count (e : PlyElement scalar) : nat := length (data e).

(** [element[key]] is [element.data[key]], the field [key] of every record,
    a one-dimensional numpy array; a structured array without such a field
    raises [ValueError]. *)
Definition getitem (e : PlyElement scalar) (key : string) : result (np.ndarray scalar) :=
  match index_of key (properties e) with
  | None => Raise (ValueError ("no field of name " ++ key))
  | Some k =>
      Ok (np.mk_ndarray [length (data e)]
            (List.map (fun record => List.nth k record zero) (data e)))
  end.

(** [ply_data.elements[0]], an index into a tuple. *)
Definition elements0 (p : PlyData scalar) : result (PlyElement scalar) :=
  match elements p with
  | [] => Raise (IndexError "tuple index out of range")
  | e :: _ => Ok e
  end.

(** The files: what [PlyData.read] returns or raises at a path, when there
    is a file at that path. *)
Definition filesystem : Type := string -> option (result (PlyData scalar)).

(** [Path(p).exists()] *)
Definition path_exists (fs : filesystem) (p : string) : bool :=
  match fs p with
  | Some _ => true
  | None => false
  end.

(** [PlyData.read(p)] *)
Definition read (fs : filesystem) (p : string) : result (PlyData scalar) :=
  match fs p with
  | Some r => r
  | None => Raise (FileNotFoundError ("No such file or directory: '" ++ p ++ "'"))
  end.

End Access.

End plyfile.

(** ** The class [PlyWrapper] *)

(** Python values that are neither a string, a [Path] nor a [PlyData]. *)
Inductive other_value : Type :=
| PyNone
| PyInt (z : Z)
| PyBool (b : bool)
| PyBytes (b : string).

(** What a caller passes as [data] or [other]: a path ([str] or [Path]), a
    [PlyData] object, or something else. *)
Inductive source (scalar : Type) : Type :=
| SPath (p : string)
| SPlyData (d : plyfile.PlyData scalar)
| SOther (v : other_value).

Arguments SPath {scalar} p.
Arguments SPlyData {scalar} d.
Arguments SOther {scalar} v.

(** The attributes that [__init__] and [capture_data] set on the object. *)
Record PlyWrapper (scalar : Type) : Type := mk_PlyWrapper {
  ply_data : plyfile.PlyData scalar;
  xyz : np.ndarray scalar;
  opacities : np.ndarray scalar;
  direct_current : np.ndarray scalar;
  higher_order_shs : np.ndarray scalar;
  scaling : np.ndarray scalar;
  rotation : np.ndarray scalar
}.

Arguments mk_PlyWrapper {scalar}.
Arguments ply_data {scalar} p.
Arguments xyz {scalar} p.
Arguments opacities {scalar} p.
Arguments direct_current {scalar} p.
Arguments higher_order_shs {scalar} p.
Arguments scaling {scalar} p.
Arguments rotation {scalar} p.

(** What [getattr(self, name)] can return. *)
Inductive value (scalar : Type) : Type :=
| VArray (a : np.ndarray scalar)
| VPlyData (d : plyfile.PlyData scalar)
| VMethod (name : string)
| VInherited (name : string).

Arguments VArray {scalar} a.
Arguments VPlyData {scalar} d.
Arguments VMethod {scalar} name.
Arguments VInherited {scalar} name.

(** The table built by [get_sh_coeffs_standardized_format]: the names of the
    index levels, one index entry per row, and the values. *)
Record DataFrame (scalar : Type) : Type := mk_DataFrame {
  index_names : list string;
  index : list (list scalar);
  values : np.ndarray scalar
}.

Arguments mk_DataFrame {scalar} index_names index values.
Arguments index_names {scalar} d.
Arguments index {scalar} d.
Arguments values {scalar} d.

(** The methods defined in the class body. *)
Definition methods : list string :=
  ["__init__"; "matching_dimensions"; "get_dims"; "capture_data"; "get_data";
   "get_sh_coeffs_standardized_format"].

(** [x.split('_')[-1]] converted by [int], the sort key of lines 66, 82, 88. *)
Definition suffix_key (x : string) : result Z :=
  Py.int (Py.last_item (Py.split "_"%char x)).

Section PlyWrapperClass.

Context {scalar : Type}.
Variable zero : scalar.
Variable cast : scalar -> scalar.

(** The files the process can read. *)
Variable fs : plyfile.filesystem (scalar := scalar).

(** The attribute names an instance has from [object] and from the class
    machinery ([__class__], [__dict__], [__eq__], ...); the list depends on
    the version of the interpreter. *)
Variable inherited : list string.

(** [self.ply_data.elements[0][key]] *)
Definition element0_column (ply : plyfile.PlyData scalar) (key : string)
  : result (np.ndarray scalar) :=
  e <- plyfile.elements0 ply ;;
  plyfile.getitem zero e key.

(** [[p.name for p in self.ply_data.elements[0].properties
      if p.name.startswith(prefix)]] *)
Definition names_starting_with (ply : plyfile.PlyData scalar) (prefix : string)
  : result (list string) :=
  e <- plyfile.elements0 ply ;;
  Ok (List.filter (String.prefix prefix) (plyfile.properties e)).

(** [for idx, attr_name in enumerate(names):
       arr[:, idx] = np.asarray(self.ply_data.elements[0][attr_name])] *)
Definition fill_columns (ply : plyfile.PlyData scalar) (names : list string)
    (arr : np.ndarray scalar) : result (np.ndarray scalar) :=
  Py.for_each
    (fun arr '(idx, attr_name) =>
       col <- element0_column ply attr_name ;;
       np.setitem_cols cast arr [idx] (np.asarray col))
    (Py.enumerate names) arr.

(** Lines 55-57: the positions. *)
Definition capture_xyz (ply : plyfile.PlyData scalar) : result (np.ndarray scalar) :=
  x <- element0_column ply "x" ;;
  y <- element0_column ply "y" ;;
  z <- element0_column ply "z" ;;
  np.stack_axis1 [np.asarray x; np.asarray y; np.asarray z].

(** Line 58: the opacities. *)
Definition capture_opacities (ply : plyfile.PlyData scalar) : result (np.ndarray scalar) :=
  opacity <- element0_column ply "opacity" ;;
  Ok (np.newaxis_last (np.asarray opacity)).

(** Lines 59-63: the three [f_dc] columns, stored in an array of shape
    [(n, 3, 1)] that is squeezed at the end. *)
Definition capture_direct_current (ply : plyfile.PlyData scalar) (xyz : np.ndarray scalar)
  : result (np.ndarray scalar) :=
  n <- np.shape0 xyz ;;
  let direct_current := np.zeros zero [n; 3; 1] in
  f_dc_0 <- element0_column ply "f_dc_0" ;;
  direct_current <- np.setitem_cols cast direct_current [0; 0] (np.asarray f_dc_0) ;;
  f_dc_1 <- element0_column ply "f_dc_1" ;;
  direct_current <- np.setitem_cols cast direct_current [1; 0] (np.asarray f_dc_1) ;;
  f_dc_2 <- element0_column ply "f_dc_2" ;;
  direct_current <- np.setitem_cols cast direct_current [2; 0] (np.asarray f_dc_2) ;;
  Ok (np.squeeze direct_current).

(** Lines 65-70, 81-85 and 87-91, the same code for the prefixes
    [f_rest_], [scale_] and [rot]: the names with the prefix are sorted by
    their suffix, then an array of [n_rows] rows is filled column by
    column.  [n_rows] is [len(self.xyz)] in the first and
    [self.xyz.shape[0]] in the other two, evaluated after the sort. *)
Definition capture_group (ply : plyfile.PlyData scalar) (prefix : string)
    (n_rows : result nat) : result (np.ndarray scalar) :=
  names <- names_starting_with ply prefix ;;
  names <- Py.sorted suffix_key names ;;
  n <- n_rows ;;
  fill_columns ply names (np.zeros zero [n; length names]).

Definition capture_data (ply : plyfile.PlyData scalar) : result (PlyWrapper scalar) :=
  xyz <- capture_xyz ply ;;
  opacities <- capture_opacities ply ;;
  direct_current <- capture_direct_current ply xyz ;;
  higher_order_shs <- capture_group ply "f_rest_" (np.len xyz) ;;
  scales <- capture_group ply "scale_" (np.shape0 xyz) ;;
  rots <- capture_group ply "rot" (np.shape0 xyz) ;;
  Ok {| ply_data := ply;
        xyz := xyz;
        opacities := opacities;
        direct_current := direct_current;
        higher_order_shs := higher_order_shs;
        scaling := scales;
        rotation := rots |}.

(** [PlyWrapper(data)] *)
Definition init (data : source scalar) : result (PlyWrapper scalar) :=
  match data with
  | SPath p =>
      if negb (plyfile.path_exists fs p)
      then Raise (FileNotFoundError ("File not found: " ++ p))
      else ply <- plyfile.read fs p ;; capture_data ply
  | SPlyData d => capture_data d
  | SOther _ => Raise (ValueError "Either ply_path or ply_data must be provided.")
  end.

(** [a == b and rest], where evaluating either side may raise. *)
Definition and_then (a : result bool) (rest : result bool) : result bool :=
  b <- a ;; if b : bool then rest else Ok false.

(** [self.ply_data.elements[0][key].count == other.elements[0][key].count] *)
Definition same_count (self : PlyWrapper scalar) (other : plyfile.PlyData scalar)
    (key : string) : result bool :=
  a <- element0_column (ply_data self) key ;;
  ca <- np.count a ;;
  b <- element0_column other key ;;
  cb <- np.count b ;;
  Ok (Nat.eqb ca cb).

Definition matching_dimensions (self : PlyWrapper scalar) (other : source scalar)
  : result (gmap string bool) :=
  other_ply_data <-
    match other with
    | SPath p => plyfile.read fs p
    | SPlyData d => Ok d
    | SOther _ =>
        Raise (TypeError "The 'other' parameter must be a file path (str or Path) or a PlyData object.")
    end ;;
  m_xyz <- and_then (same_count self other_ply_data "x")
             (and_then (same_count self other_ply_data "y")
                (same_count self other_ply_data "z")) ;;
  m_opacities <- same_count self other_ply_data "opacity" ;;
  m_direct_current <-
    and_then (same_count self other_ply_data "f_dc_0")
      (and_then (same_count self other_ply_data "f_dc_1")
         (same_count self other_ply_data "f_dc_2")) ;;
  Ok (<["direct_current" := m_direct_current]>
        (<["opacities" := m_opacities]> (<["xyz" := m_xyz]> ∅))).

Definition get_dims (self : PlyWrapper scalar) : gmap string (list nat) :=
  <["direct_current" := np.shape (direct_current self)]>
    (<["opacities" := np.shape (opacities self)]>
       (<["xyz" := np.shape (xyz self)]> ∅)).

(** [getattr(self, attr)], [None] when the attribute is missing: the
    instance dictionary first, then the class, then what is inherited. *)
Definition getattr (self : PlyWrapper scalar) (attr : string) : option (value scalar) :=
  if String.eqb attr "ply_data" then Some (VPlyData (ply_data self))
  else if String.eqb attr "xyz" then Some (VArray (xyz self))
  else if String.eqb attr "opacities" then Some (VArray (opacities self))
  else if String.eqb attr "direct_current" then Some (VArray (direct_current self))
  else if String.eqb attr "higher_order_shs" then Some (VArray (higher_order_shs self))
  else if String.eqb attr "scaling" then Some (VArray (scaling self))
  else if String.eqb attr "rotation" then Some (VArray (rotation self))
  else if existsb (String.eqb attr) methods then Some (VMethod attr)
  else if existsb (String.eqb attr) inherited then Some (VInherited attr)
  else None.

Definition hasattr (self : PlyWrapper scalar) (attr : string) : bool :=
  match getattr self attr with
  | Some _ => true
  | None => false
  end.

(** The body of the loop of [get_data]:
    [if hasattr(self, attr): data[attr] = getattr(self, attr)
     else: raise AttributeError(...)] *)
Definition get_data_body (self : PlyWrapper scalar) (data : gmap string (value scalar))
    (attr : string) : result (gmap string (value scalar)) :=
  if hasattr self attr
  then match getattr self attr with
       | Some v => Ok (<[attr := v]> data)
       | None => Raise (AttributeError ("'" ++ attr ++ "' object has no attribute"))
       end
  else Raise (AttributeError ("'" ++ attr ++ "' is not a valid attribute of PlyWrapper.")).

(** [get_data(attrs)]; [attrs] is [None] when the argument is omitted. *)
Definition get_data (self : PlyWrapper scalar) (attrs : option (list string))
  : result (gmap string (value scalar)) :=
  match attrs with
  | None | Some [] =>
      Ok (<["rotation" := VArray (rotation self)]>
            (<["scaling" := VArray (scaling self)]>
               (<["higher_order" := VArray (higher_order_shs self)]>
                  (<["direct_current" := VArray (direct_current self)]>
                     (<["opacities" := VArray (opacities self)]>
                        (<["xyz" := VArray (xyz self)]> ∅))))))
  | Some attrs => Py.for_each (get_data_body self) attrs ∅
  end.

(** [pd.DataFrame(values, index=index)]: one index entry per row. *)
Definition pd_DataFrame (values : np.ndarray scalar) (index : list (list scalar))
  : result (DataFrame scalar) :=
  match np.shape values with
  | [r] | [r; _] =>
      if Nat.eqb (length index) r
      then Ok (mk_DataFrame [] index values)
      else Raise (ValueError "Shape of passed values does not match the index")
  | _ => Raise (ValueError "Must pass 2-d input")
  end.

(** [pd.MultiIndex.from_tuples(index, names=names)] *)
Definition from_tuples (index : list (list scalar)) (names : list string)
  : result (list (list scalar)) :=
  if forallb (fun t => Nat.eqb (length t) (length names)) index
  then Ok index
  else Raise (ValueError "Length of names must match number of levels in MultiIndex.").

Definition get_sh_coeffs_standardized_format (self : PlyWrapper scalar)
  : result (DataFrame scalar) :=
  coords <- np.iter (xyz self) ;;
  let xyz_tuples := List.map np.tuple coords in
  sh_coeffs <- np.concatenate_axis1 [direct_current self; higher_order_shs self] ;;
  df <- pd_DataFrame sh_coeffs xyz_tuples ;;
  idx <- from_tuples (index df) ["x"; "y"; "z"] ;;
  Ok (mk_DataFrame ["x"; "y"; "z"] idx (values df)).

End PlyWrapperClass.

(** ** Notions used in the statements *)

(** The class of an exception, without its message. *)
Definition class_of (e : exn) : string :=
  match e with
  | FileNotFoundError _ => "FileNotFoundError"
  | ValueError _ => "ValueError"
  | TypeError _ => "TypeError"
  | AttributeError _ => "AttributeError"
  | IndexError _ => "IndexError"
  | AxisError _ => "AxisError"
  | OtherError _ => "Exception"
  end.

(** The keys of the dictionary that [get_data] returns without argument. *)
Definition known_fields : list string :=
  ["xyz"; "opacities"; "direct_current"; "higher_order"; "scaling"; "rotation"].

(** The properties that [capture_data] reads by name. *)
Definition required_properties : list string :=
  ["x"; "y"; "z"; "opacity"; "f_dc_0"; "f_dc_1"; "f_dc_2"].

(** The integer suffix of a name whose suffix is one. *)
Definition suffix_value (x : string) : Z :=
  match suffix_key x with
  | Ok k => k
  | Raise _ => 0%Z
  end.

(** The prefixes of the three groups of numbered properties. *)
Definition group_prefixes : list string := ["f_rest_"; "scale_"; "rot"].

(** A valid element: it has the seven properties that are read by name, and
    each of its properties in one of the three groups ends, after its last
    underscore, with an integer. *)
Definition has_property {scalar : Type} (e : plyfile.PlyElement scalar) (k : string) : bool :=
  existsb (String.eqb k) (plyfile.properties e).

Definition in_group (name : string) : bool :=
  existsb (fun prefix => String.prefix prefix name) group_prefixes.

Definition integer_suffix (name : string) : bool :=
  match Py.parse_int (Py.last_item (Py.split "_"%char name)) with
  | Some _ => true
  | None => false
  end.

Definition valid_element {scalar : Type} (e : plyfile.PlyElement scalar) : bool :=
  forallb (has_property e) required_properties
  && forallb (fun name => implb (in_group name) (integer_suffix name))
       (plyfile.properties e).

(** No character of [s] is the separator [sep]. *)
Definition no_separator (sep : ascii) (s : string) : bool :=
  forallb (fun c => negb (Ascii.eqb c sep)) (list_ascii_of_string s).

(** The six arrays of a wrapper. *)
Definition arrays {scalar : Type} (w : PlyWrapper scalar) : list (np.ndarray scalar) :=
  [xyz w; opacities w; direct_current w; higher_order_shs w; scaling w; rotation w].

(** The source [src] gives the parsed file [ply]. *)
Definition loads {scalar : Type} (fs : plyfile.filesystem (scalar := scalar))
    (src : source scalar) (ply : plyfile.PlyData scalar) : Prop :=
  match src with
  | SPath p => fs p = Some (Ok ply)
  | SPlyData d => d = ply
  | SOther _ => False
  end.

(** The entry of row [i] in the column [key] of an element. *)
Definition entry {scalar : Type} (zero : scalar) (e : plyfile.PlyElement scalar)
    (key : string) (i : nat) : option scalar :=
  match plyfile.getitem zero e key with
  | Ok c => np.flat c !! i
  | Raise _ => None
  end.

(** The array [arr] holds the group of prefix [prefix] of the element [e]:
    its columns are the properties of [e] with that prefix, each once,
    arranged so that their integer suffixes ascend, and column [j] holds
    the converted entries of the [j]-th of these properties. *)
Definition holds_group {scalar : Type} (zero : scalar) (cast : scalar -> scalar)
    (e : plyfile.PlyElement scalar) (prefix : string) (arr : np.ndarray scalar) : Prop :=
  exists (names : list string) (keys : list Z),
    Permutation names (List.filter (String.prefix prefix) (plyfile.properties e))
    /\ Py.map_each suffix_key names = Ok keys
    /\ Sorted Z.le keys
    /\ np.shape arr = [plyfile.count e; length names]
    /\ forall (j : nat) (name : string) (col : np.ndarray scalar),
         names !! j = Some name ->
         plyfile.getitem zero e name = Ok col ->
         np.column arr j = List.map (fun v => Some (cast v)) (np.flat col).

(** The array [arr] holds the group of prefix [prefix] stably: column [j]
    holds the converted entries of the [j]-th name of [names], and among the
    names of one and the same integer suffix the order is the order of
    their declaration. *)
Definition holds_group_stably {scalar : Type} (zero : scalar) (cast : scalar -> scalar)
    (e : plyfile.PlyElement scalar) (prefix : string) (arr : np.ndarray scalar) : Prop :=
  exists names : list string,
    np.shape arr = [plyfile.count e; length names]
    /\ (forall (j : nat) (name : string) (col : np.ndarray scalar),
          names !! j = Some name ->
          plyfile.getitem zero e name = Ok col ->
          np.column arr j = List.map (fun v => Some (cast v)) (np.flat col))
    /\ forall k : Z,
         List.filter (fun x => Z.eqb (suffix_value x) k) names
         = List.filter (fun x => Z.eqb (suffix_value x) k)
             (List.filter (String.prefix prefix) (plyfile.properties e)).

(** *** The order of the columns, in the words of the specification

    The definitions that follow state which column holds which property
    without the program's [split], [int] and [sorted]: the suffix of a name
    is read off its characters, and its value is the one the standard
    library gives to a decimal numeral. *)

(** The text after the last underscore of a name, and the whole name when
    it has no underscore. *)
Fixpoint after_last_underscore (s : string) : string :=
  match s with
  | EmptyString => EmptyString
  | String c s' =>
      if no_separator "_"%char s'
      then (if Ascii.eqb c "_"%char then s' else s)
      else after_last_underscore s'
  end.

(** The integer that a text denotes in base 10, when the text is a decimal
    numeral: digits, after an optional sign. *)
Definition base10 (text : string) : option Z :=
  match text with
  | EmptyString => None
  | String c digits =>
      if Ascii.eqb c "+"%char then Z.of_uint <$> NilZero.uint_of_string digits
      else Z.of_int <$> NilZero.int_of_string text
  end.

(** The base-10 integer suffix of a name: the integer written after its
    last underscore, when there is one. *)
Definition base10_suffix (name : string) : option Z :=
  base10 (after_last_underscore name).

(** No character of [s] is white space; the names of the properties of a
    [PlyElement] are such, [plyfile] refuses the others. *)
Definition no_white_space (s : string) : bool :=
  forallb (fun c => negb (Py.is_space c)) (list_ascii_of_string s).

(** The name [x] has the base-10 integer suffix [k]. *)
Definition has_suffix (k : Z) (x : string) : bool :=
  match base10_suffix x with
  | Some k' => Z.eqb k' k
  | None => false
  end.

(** The properties of [e] whose name starts with [prefix], in the order of
    their declaration. *)
Definition declared {scalar : Type} (e : plyfile.PlyElement scalar) (prefix : string)
  : list string :=
  List.filter (String.prefix prefix) (plyfile.properties e).

(** The array [arr] has the rows of [e] and one column per name of
    [names], in the order of [names]: column [j] holds the converted entries
    of the property [names[j]] of [e]. *)
Definition columns_of {scalar : Type} (zero : scalar) (cast : scalar -> scalar)
    (e : plyfile.PlyElement scalar) (names : list string) (arr : np.ndarray scalar) : Prop :=
  np.shape arr = [plyfile.count e; length names]
  /\ forall (j : nat) (name : string),
       names !! j = Some name ->
       exists col : np.ndarray scalar,
         plyfile.getitem zero e name = Ok col
         /\ np.column arr j = List.map (fun v => Some (cast v)) (np.flat col).

(** The base-10 integer suffixes ascend along [names]. *)
Definition ascending_suffixes (names : list string) : Prop :=
  forall (i j : nat) (a b : string) (ka kb : Z),
    i < j -> names !! i = Some a -> names !! j = Some b ->
    base10_suffix a = Some ka -> base10_suffix b = Some kb ->
    (ka <= kb)%Z.

(** The names of one and the same suffix stand in [names] in the order they
    have in [decl]. *)
Definition ties_as_declared (names decl : list string) : Prop :=
  forall k : Z, List.filter (has_suffix k) names = List.filter (has_suffix k) decl.

(** The columns of [arr] are the properties of [e] with the prefix
    [prefix], each once, ordered by ascending base-10 integer suffix, those
    of one and the same suffix in the order of their declaration. *)
Definition ordered_by_suffix {scalar : Type} (zero : scalar) (cast : scalar -> scalar)
    (e : plyfile.PlyElement scalar) (prefix : string) (arr : np.ndarray scalar) : Prop :=
  exists names : list string,
    Permutation names (declared e prefix)
    /\ ascending_suffixes names
    /\ ties_as_declared names (declared e prefix)
    /\ columns_of zero cast e names arr.

(** Every name of [names] has a base-10 integer suffix, and no two names
    have the same. *)
Fixpoint distinct_suffixes (names : list string) : bool :=
  match names with
  | [] => true
  | x :: names' =>
      match base10_suffix x with
      | Some k => negb (existsb (has_suffix k) names') && distinct_suffixes names'
      | None => false
      end
  end.

(** Two elements hold the same columns: the same property names, declared
    in whatever order, as many rows, and under each name the same entries. *)
Definition same_columns {scalar : Type} (zero : scalar)
    (e e' : plyfile.PlyElement scalar) : Prop :=
  Permutation (plyfile.properties e) (plyfile.properties e')
  /\ plyfile.count e = plyfile.count e'
  /\ forall name : string,
       In name (plyfile.properties e) ->
       plyfile.getitem zero e name = plyfile.getitem zero e' name.

(** [a[:, j] = col] on the entries of an array with [m] entries per row. *)
Definition put_column {scalar : Type} (cast : scalar -> scalar) (m j : nat)
    (col : list scalar) (l : list scalar) : list scalar :=
  imap (fun p x =>
          if Nat.eqb (p mod m) j
          then match col !! (p / m) with
               | Some y => cast y
               | None => x
               end
          else x) l.

(** The entries of [xyz], row by row, from its three columns of [n]
    entries. *)
Definition xyz_entries {scalar : Type} (n : nat) (x y z : np.ndarray scalar)
  : list scalar :=
  List.concat (List.map (fun i => (np.block 1 i (np.flat x)
                                   ++ np.block 1 i (np.flat y)
                                   ++ np.block 1 i (np.flat z))%list) (seq 0 n)).

(** The entries of [direct_current], row by row, from its three columns. *)
Definition direct_current_entries {scalar : Type} (zero : scalar)
    (cast : scalar -> scalar) (n : nat) (f0 f1 f2 : np.ndarray scalar) : list scalar :=
  put_column cast 3 2 (np.flat f2)
    (put_column cast 3 1 (np.flat f1)
       (put_column cast 3 0 (np.flat f0) (replicate (n * 3) zero))).

(** ** Sample inputs *)

Module Samples.

(** Attribute names of a plain instance in CPython 3. *)
Definition inherited : list string :=
  ["__class__"; "__delattr__"; "__dict__"; "__dir__"; "__doc__"; "__eq__";
   "__format__"; "__ge__"; "__getattribute__"; "__gt__"; "__hash__";
   "__init_subclass__"; "__le__"; "__lt__"; "__module__"; "__ne__"; "__new__";
   "__reduce__"; "__reduce_ex__"; "__repr__"; "__setattr__"; "__sizeof__";
   "__str__"; "__subclasshook__"; "__weakref__"].

(** Properties declared with the scales and the rotations out of order. *)
Definition props : list string :=
  ["x"; "y"; "z"; "opacity"; "f_dc_0"; "f_dc_1"; "f_dc_2"; "f_rest_1"; "f_rest_0";
   "scale_2"; "scale_0"; "scale_1"; "rot_1"; "rot_0"].

(** Row [k] holds [100 k + c] in its column [c]. *)
Definition record (k : nat) : list Z :=
  List.map (fun c => Z.of_nat (100 * k + c)) (seq 0 (length props)).

Definition vertex (n : nat) : plyfile.PlyElement Z :=
  plyfile.mk_PlyElement "vertex" props (List.map record (seq 1 n)).

(** A second element, as the faces of a mesh would be. *)
Definition face : plyfile.PlyElement Z :=
  plyfile.mk_PlyElement "face" ["x"; "rot_a"] [[7%Z; 8%Z]; [9%Z; 10%Z]].

Definition cloud (n : nat) : plyfile.PlyData Z := plyfile.mk_PlyData [vertex n].

(** One file, holding two points. *)
Definition fs : plyfile.filesystem (scalar := Z) :=
  fun p => if String.eqb p "cloud.ply" then Some (Ok (cloud 2)) else None.

Definition decode (src : source Z) : result (PlyWrapper Z) :=
  init 0%Z (fun v => v) fs src.

(** The wrapper of the two points. *)
Definition two_points : PlyWrapper Z :=
  match decode (SPlyData (cloud 2)) with
  | Ok w => w
  | Raise _ => mk_PlyWrapper (cloud 2) (np.zeros 0%Z []) (np.zeros 0%Z []) (np.zeros 0%Z [])
                 (np.zeros 0%Z []) (np.zeros 0%Z []) (np.zeros 0%Z [])
  end.

(** The wrapper of a single point. *)
Definition one_point : PlyWrapper Z :=
  match decode (SPlyData (cloud 1)) with
  | Ok w => w
  | Raise _ => mk_PlyWrapper (cloud 1) (np.zeros 0%Z []) (np.zeros 0%Z []) (np.zeros 0%Z [])
                 (np.zeros 0%Z []) (np.zeros 0%Z []) (np.zeros 0%Z [])
  end.

(** Three points with [f_rest_0..8], [scale_0..2] and [rot_0..3]. *)
Definition scenario_props : list string :=
  ["x"; "y"; "z"; "opacity"; "f_dc_0"; "f_dc_1"; "f_dc_2";
   "f_rest_0"; "f_rest_1"; "f_rest_2"; "f_rest_3"; "f_rest_4"; "f_rest_5";
   "f_rest_6"; "f_rest_7"; "f_rest_8";
   "scale_0"; "scale_1"; "scale_2"; "rot_0"; "rot_1"; "rot_2"; "rot_3"].

Definition scenario : plyfile.PlyData Z :=
  plyfile.mk_PlyData
    [plyfile.mk_PlyElement "vertex" scenario_props
       (List.map (fun k => List.map (fun c => Z.of_nat (100 * k + c))
                              (seq 0 (length scenario_props))) (seq 1 3))].

(** An element with a property [rotor_0] next to [rot_1]. *)
Definition rotor_vertex : plyfile.PlyElement Z :=
  plyfile.mk_PlyElement "vertex"
    ["x"; "y"; "z"; "opacity"; "f_dc_0"; "f_dc_1"; "f_dc_2"; "rot_1"; "rotor_0"]
    [[1%Z; 2%Z; 3%Z; 4%Z; 5%Z; 6%Z; 7%Z; 8%Z; 9%Z];
     [11%Z; 12%Z; 13%Z; 14%Z; 15%Z; 16%Z; 17%Z; 18%Z; 19%Z]].

Definition rotor : plyfile.PlyData Z := plyfile.mk_PlyData [rotor_vertex].

(** Two points at the same position. *)
Definition twins : plyfile.PlyData Z :=
  plyfile.mk_PlyData
    [plyfile.mk_PlyElement "vertex"
       ["x"; "y"; "z"; "opacity"; "f_dc_0"; "f_dc_1"; "f_dc_2"; "f_rest_0"]
       [[1%Z; 2%Z; 3%Z; 4%Z; 5%Z; 6%Z; 7%Z; 8%Z];
        [1%Z; 2%Z; 3%Z; 14%Z; 15%Z; 16%Z; 17%Z; 18%Z]]].

(** The two points of [cloud 2] with the numbered properties declared in
    their order. *)
Definition props_in_order : list string :=
  ["x"; "y"; "z"; "opacity"; "f_dc_0"; "f_dc_1"; "f_dc_2"; "f_rest_0"; "f_rest_1";
   "scale_0"; "scale_1"; "scale_2"; "rot_0"; "rot_1"].

Definition vertex_in_order : plyfile.PlyElement Z :=
  plyfile.mk_PlyElement "vertex" props_in_order
    (List.map (fun k => List.map (fun c => Z.of_nat (100 * k + c))
                           [0; 1; 2; 3; 4; 5; 6; 8; 7; 10; 11; 9; 13; 12]) (seq 1 2)).

(** The wrapper of [vertex_in_order]. *)
Definition two_points_in_order : PlyWrapper Z :=
  match decode (SPlyData (plyfile.mk_PlyData [vertex_in_order])) with
  | Ok w => w
  | Raise _ => two_points
  end.

(** Two scales of the same integer suffix, [scale_01] declared before
    [scale_1], and a scale [scale_0] declared after them. *)
Definition padded_vertex : plyfile.PlyElement Z :=
  plyfile.mk_PlyElement "vertex"
    ["x"; "y"; "z"; "opacity"; "f_dc_0"; "f_dc_1"; "f_dc_2";
     "scale_01"; "scale_1"; "scale_0"]
    [[1%Z; 2%Z; 3%Z; 4%Z; 5%Z; 6%Z; 7%Z; 8%Z; 9%Z; 10%Z];
     [11%Z; 12%Z; 13%Z; 14%Z; 15%Z; 16%Z; 17%Z; 18%Z; 19%Z; 20%Z]].

Definition padded : plyfile.PlyData Z := plyfile.mk_PlyData [padded_vertex].

Definition padded_wrapper : PlyWrapper Z :=
  match decode (SPlyData padded) with
  | Ok w => w
  | Raise _ => two_points
  end.

(** A parsed file without any element. *)
Definition no_element : plyfile.PlyData Z := plyfile.mk_PlyData [].

(** An element without the property [opacity]. *)
Definition no_opacity : plyfile.PlyData Z :=
  plyfile.mk_PlyData
    [plyfile.mk_PlyElement "vertex" ["x"; "y"; "z"; "f_dc_0"; "f_dc_1"; "f_dc_2"]
       [[1%Z; 2%Z; 3%Z; 4%Z; 5%Z; 6%Z]]].

(** An element with a property [rotation] that has no numeric suffix. *)
Definition named_rotation : plyfile.PlyData Z :=
  plyfile.mk_PlyData
    [plyfile.mk_PlyElement "vertex"
       ["x"; "y"; "z"; "opacity"; "f_dc_0"; "f_dc_1"; "f_dc_2"; "rotation"]
       [[1%Z; 2%Z; 3%Z; 4%Z; 5%Z; 6%Z; 7%Z; 8%Z]]].

(** The columns of [padded_vertex], with [scale_1] declared before
    [scale_01]. *)
Definition padded_swapped_vertex : plyfile.PlyElement Z :=
  plyfile.mk_PlyElement "vertex"
    ["x"; "y"; "z"; "opacity"; "f_dc_0"; "f_dc_1"; "f_dc_2";
     "scale_1"; "scale_01"; "scale_0"]
    [[1%Z; 2%Z; 3%Z; 4%Z; 5%Z; 6%Z; 7%Z; 9%Z; 8%Z; 10%Z];
     [11%Z; 12%Z; 13%Z; 14%Z; 15%Z; 16%Z; 17%Z; 19%Z; 18%Z; 20%Z]].

Definition padded_swapped_wrapper : PlyWrapper Z :=
  match decode (SPlyData (plyfile.mk_PlyData [padded_swapped_vertex])) with
  | Ok w => w
  | Raise _ => two_points
  end.

End Samples.

(** * Facts *)

(** ** The error monad, loops and sorting *)

Lemma bind_Ok {A B : Type} (r : result A) (k : A -> result B) (b : B) :
  Py.bind r k = Ok b -> exists a, r = Ok a /\ k a = Ok b.
Proof. destruct r as [a|e]; simpl; [eauto | discriminate]. Qed.

Lemma bind_raises {A B : Type} (r : result A) (k : A -> result B) :
  Py.raises r -> Py.raises (Py.bind r k).
Proof. destruct r; simpl; tauto. Qed.

Lemma not_raises_Ok {A : Type} (r : result A) :
  ~ Py.raises r <-> exists a, r = Ok a.
Proof.
  destruct r as [a|e]; simpl; split; eauto.
  - intros H. destruct H. exact I.
  - intros [a Ha]. discriminate.
Qed.

Ltac inv_bind H :=
  let a := fresh "a" in
  let Ha := fresh "Ha" in
  apply bind_Ok in H as (a & Ha & H).

Lemma map_each_length {A B : Type} (f : A -> result B) (l : list A) (ys : list B) :
  Py.map_each f l = Ok ys -> length ys = length l.
Proof.
  revert ys. induction l as [|x l IH]; intros ys H; simpl in H.
  - injection H as <-. reflexivity.
  - inv_bind H. inv_bind H. injection H as <-. simpl. f_equal. eauto.
Qed.

Lemma map_each_Forall2 {A B : Type} (f : A -> result B) (l : list A) (ys : list B) :
  Py.map_each f l = Ok ys <-> Forall2 (fun x y => f x = Ok y) l ys.
Proof.
  revert ys. induction l as [|x l IH]; intros ys; simpl; split; intros H.
  - injection H as <-. constructor.
  - inversion H. reflexivity.
  - inv_bind H. inv_bind H. injection H as <-. constructor; [assumption|].
    apply IH. assumption.
  - inversion H as [|? y ? ys' Hx Hl]; subst. rewrite Hx. simpl.
    apply IH in Hl. rewrite Hl. reflexivity.
Qed.

Lemma map_each_raises {A B : Type} (f : A -> result B) (l : list A) :
  Py.raises (Py.map_each f l) <-> Exists (fun x => Py.raises (f x)) l.
Proof.
  induction l as [|x l IH]; simpl.
  - split; [tauto | intros H; inversion H].
  - rewrite Exists_cons. destruct (f x) as [y|e]; simpl.
    + destruct (Py.map_each f l) as [ys|e]; simpl in *; tauto.
    + tauto.
Qed.

Lemma insert_by_key_perm {A : Type} (x : Z * A) (l : list (Z * A)) :
  Permutation (Py.insert_by_key x l) (x :: l).
Proof.
  induction l as [|y l IH]; simpl; [reflexivity|].
  destruct (Z.leb (fst x) (fst y)); [reflexivity|].
  rewrite IH. apply perm_swap.
Qed.

Lemma sort_by_key_perm {A : Type} (l : list (Z * A)) :
  Permutation (Py.sort_by_key l) l.
Proof.
  induction l as [|x l IH]; simpl; [reflexivity|].
  rewrite insert_by_key_perm. constructor. exact IH.
Qed.

Lemma insert_by_key_sorted {A : Type} (x : Z * A) (l : list (Z * A)) :
  Sorted (fun a b => (fst a <= fst b)%Z) l ->
  Sorted (fun a b => (fst a <= fst b)%Z) (Py.insert_by_key x l).
Proof.
  induction 1 as [|y l Hs IH Hhd]; simpl.
  - repeat constructor.
  - destruct (Z.leb (fst x) (fst y)) eqn:Hle.
    + apply Z.leb_le in Hle. repeat constructor; assumption.
    + apply Z.leb_gt in Hle. constructor; [exact IH|].
      destruct l as [|z l]; simpl.
      * constructor. lia.
      * destruct (Z.leb (fst x) (fst z)); constructor; [lia|].
        inversion Hhd. assumption.
Qed.

Lemma sort_by_key_sorted {A : Type} (l : list (Z * A)) :
  Sorted (fun a b => (fst a <= fst b)%Z) (Py.sort_by_key l).
Proof.
  induction l as [|x l IH]; simpl; [constructor|].
  apply insert_by_key_sorted. exact IH.
Qed.

Lemma Sorted_map_fst {A : Type} (l : list (Z * A)) :
  Sorted (fun a b => (fst a <= fst b)%Z) l -> Sorted Z.le (List.map fst l).
Proof.
  induction 1 as [|y l Hs IH Hhd]; simpl; constructor; [exact IH|].
  destruct Hhd; simpl; constructor. assumption.
Qed.

Lemma combine_keys_Forall {A : Type} (key : A -> result Z) (l : list A) (keys : list Z) :
  Forall2 (fun x k => key x = Ok k) l keys ->
  Forall (fun p => key (snd p) = Ok (fst p)) (List.combine keys l)
  /\ List.map snd (List.combine keys l) = l.
Proof.
  induction 1 as [|x k l keys Hx Hl [IH1 IH2]]; simpl.
  - split; [constructor | reflexivity].
  - split; [constructor; assumption | f_equal; assumption].
Qed.

(** [sorted] returns a rearrangement of its argument whose keys ascend. *)
Lemma sorted_Ok {A : Type} (key : A -> result Z) (l l' : list A) :
  Py.sorted key l = Ok l' ->
  Permutation l' l
  /\ exists keys, Py.map_each key l' = Ok keys /\ Sorted Z.le keys.
Proof.
  unfold Py.sorted. intros H. inv_bind H. injection H as <-.
  apply map_each_Forall2, combine_keys_Forall in Ha as [Hall Hsnd].
  split.
  - rewrite <- Hsnd at 2. apply Permutation_map, sort_by_key_perm.
  - exists (List.map fst (Py.sort_by_key (List.combine a l))). split.
    + apply map_each_Forall2.
      assert (Hs : Forall (fun p => key (snd p) = Ok (fst p))
                     (Py.sort_by_key (List.combine a l))).
      { eapply Permutation_Forall; [|exact Hall].
        symmetry. apply sort_by_key_perm. }
      induction Hs; simpl; constructor; assumption.
    + apply Sorted_map_fst, sort_by_key_sorted.
Qed.

Lemma sorted_raises {A : Type} (key : A -> result Z) (l : list A) :
  Py.raises (Py.sorted key l) <-> Exists (fun x => Py.raises (key x)) l.
Proof.
  unfold Py.sorted. rewrite <- map_each_raises.
  destruct (Py.map_each key l); simpl; tauto.
Qed.

(** ** numpy: column assignment, stacking *)

Section ArrayFacts.

Context {scalar : Type}.
Variable zero : scalar.
Variable cast : scalar -> scalar.

Lemma length_put_column (m j : nat) (col l : list scalar) :
  length (put_column cast m j col l) = length l.
Proof. apply length_imap. Qed.

Lemma index_mod (m i j : nat) : j < m -> (i * m + j) mod m = j.
Proof.
  intros Hj. rewrite Nat.add_comm, Nat.Div0.mod_add.
  apply Nat.mod_small. exact Hj.
Qed.

Lemma index_div (m i j : nat) : j < m -> (i * m + j) / m = i.
Proof.
  intros Hj. rewrite Nat.add_comm, Nat.div_add by lia.
  rewrite Nat.div_small by exact Hj. reflexivity.
Qed.

Lemma index_lt (n m i j : nat) : i < n -> j < m -> i * m + j < n * m.
Proof. intros Hi Hj. nia. Qed.

(** Column [j] takes the converted entries of [col]; the other columns keep
    theirs. *)
Lemma lookup_put_column (m j : nat) (col l : list scalar) (i j' : nat) :
  j' < m ->
  put_column cast m j col l !! (i * m + j')
  = if Nat.eqb j' j
    then match col !! i with
         | Some y => (fun _ => cast y) <$> l !! (i * m + j')
         | None => l !! (i * m + j')
         end
    else l !! (i * m + j').
Proof.
  intros Hj. unfold put_column. rewrite list_lookup_imap.
  rewrite index_mod, index_div by exact Hj.
  destruct (Nat.eqb j' j); [|destruct (l !! _); reflexivity].
  destruct (col !! i); destruct (l !! _); reflexivity.
Qed.

Lemma setitem_cols_2d (a v : np.ndarray scalar) (n m j : nat) :
  np.shape a = [n; m] -> j < m -> np.shape v = [n] ->
  np.setitem_cols cast a [j] v
  = Ok (np.mk_ndarray [n; m] (put_column cast m j (np.flat v) (np.flat a))).
Proof.
  intros Ha Hj Hv. unfold np.setitem_cols. rewrite Ha. simpl.
  apply Nat.ltb_lt in Hj as Hj'. rewrite Hj'. simpl.
  rewrite Hv, bool_decide_eq_true_2 by reflexivity. simpl.
  do 2 f_equal. unfold put_column. apply imap_ext. intros p x _. simpl.
  rewrite !Nat.mul_1_r, !Nat.add_0_r.
  destruct (Nat.eqb_spec (p mod m) j) as [He|Hne];
    destruct (Nat.leb_spec j (p mod m));
    destruct (Nat.ltb_spec (p mod m) (j + 1)); simpl; try lia; try reflexivity.
  rewrite He, Nat.sub_diag, Nat.add_0_r. reflexivity.
Qed.

Lemma setitem_cols_3d (a v : np.ndarray scalar) (n m j : nat) :
  np.shape a = [n; m; 1] -> j < m -> np.shape v = [n] ->
  np.setitem_cols cast a [j; 0] v
  = Ok (np.mk_ndarray [n; m; 1] (put_column cast m j (np.flat v) (np.flat a))).
Proof.
  intros Ha Hj Hv. unfold np.setitem_cols. rewrite Ha. simpl.
  apply Nat.ltb_lt in Hj as Hj'. rewrite Hj'. simpl.
  rewrite Hv, bool_decide_eq_true_2 by reflexivity. simpl.
  do 2 f_equal. unfold put_column. apply imap_ext. intros p x _. simpl.
  rewrite !Nat.mul_1_r, !Nat.add_0_r.
  destruct (Nat.eqb_spec (p mod m) j) as [He|Hne];
    destruct (Nat.leb_spec j (p mod m));
    destruct (Nat.ltb_spec (p mod m) (j + 1)); simpl; try lia; try reflexivity.
  rewrite He, Nat.sub_diag, Nat.add_0_r. reflexivity.
Qed.

Lemma setitem_cols_shape (a v a' : np.ndarray scalar) (idx : list nat) :
  np.setitem_cols cast a idx v = Ok a' ->
  np.shape a' = np.shape a /\ length (np.flat a') = length (np.flat a).
Proof.
  unfold np.setitem_cols. destruct (np.shape a) as [|d0 ds]; [discriminate|].
  destruct (Nat.ltb (length ds) (length idx)); [discriminate|].
  destruct (negb (np.in_bounds ds idx)); [discriminate|].
  intros H. inv_bind H. injection H as <-. simpl.
  split; [reflexivity | apply length_imap].
Qed.

Lemma length_zeros (s : list nat) :
  length (np.flat (np.zeros zero s)) = np.size_of s.
Proof. simpl. apply length_replicate. Qed.

Lemma lookups_seq {A : Type} (l : list A) :
  List.map (fun i => l !! i) (seq 0 (length l)) = List.map Some l.
Proof.
  induction l as [|x l IH]; simpl; [reflexivity|].
  f_equal. rewrite <- seq_shift, List.map_map. exact IH.
Qed.

Lemma block_1 (i : nat) (l : list scalar) :
  np.block 1 i l = match l !! i with Some x => [x] | None => [] end.
Proof.
  unfold np.block. rewrite Nat.mul_1_r. revert i.
  induction l as [|x l IH]; intros [|i]; simpl; try reflexivity.
  apply IH.
Qed.

(** Stacking three columns of [n] entries gives [n] rows of three. *)
Lemma stack_axis1_3 (a b c : np.ndarray scalar) (n : nat) :
  np.shape a = [n] -> np.shape b = [n] -> np.shape c = [n] ->
  np.stack_axis1 [a; b; c]
  = Ok (np.mk_ndarray [n; 3]
          (List.concat (List.map (fun i => (np.block 1 i (np.flat a)
                                           ++ np.block 1 i (np.flat b)
                                           ++ np.block 1 i (np.flat c))%list) (seq 0 n)))).
Proof.
  intros Ha Hb Hc. unfold np.stack_axis1. simpl.
  rewrite Ha, Hb, Hc, !bool_decide_eq_true_2 by reflexivity. simpl.
  do 3 f_equal. apply List.map_ext. intros i. rewrite app_nil_r. reflexivity.
Qed.

Lemma stack_axis1_shape (arrs : list (np.ndarray scalar)) (a r : np.ndarray scalar) (n : nat) :
  np.stack_axis1 (a :: arrs) = Ok r -> np.shape a = [n] ->
  np.shape r = [n; S (length arrs)].
Proof.
  unfold np.stack_axis1. intros H Ha.
  destruct (negb _); [discriminate|]. rewrite Ha in H.
  injection H as <-. reflexivity.
Qed.

End ArrayFacts.

(** ** plyfile: reading a column *)

Section ElementFacts.

Context {scalar : Type}.
Variable zero : scalar.

Lemma index_of_None (key : string) (names : list string) :
  plyfile.index_of key names = None <-> ~ In key names.
Proof.
  induction names as [|n names IH]; simpl; [tauto|].
  destruct (String.eqb_spec n key) as [->|Hne].
  - split; [discriminate | intros H; exfalso; apply H; left; reflexivity].
  - destruct (plyfile.index_of key names); simpl.
    + split; [discriminate|]. intros H.
      assert (Hout : ~ In key names) by tauto.
      apply IH in Hout. discriminate.
    + split; [|reflexivity]. intros _ [H|H]; [congruence|].
      exact (proj1 IH eq_refl H).
Qed.

Lemma getitem_cases (e : plyfile.PlyElement scalar) (key : string) :
  (~ In key (plyfile.properties e)
   /\ plyfile.getitem zero e key = Raise (ValueError ("no field of name " ++ key)))
  \/ (In key (plyfile.properties e)
      /\ exists c, plyfile.getitem zero e key = Ok c
                   /\ np.shape c = [plyfile.count e]
                   /\ length (np.flat c) = plyfile.count e).
Proof.
  unfold plyfile.getitem.
  destruct (plyfile.index_of key (plyfile.properties e)) as [k|] eqn:Hk.
  - right. split.
    + destruct (in_dec string_dec key (plyfile.properties e)) as [Hin|Hout]; [exact Hin|].
      apply index_of_None in Hout. congruence.
    + eexists. split; [reflexivity|]. simpl. split; [reflexivity|].
      apply List.length_map.
  - left. split; [apply index_of_None; exact Hk | reflexivity].
Qed.

Lemma getitem_Ok (e : plyfile.PlyElement scalar) (key : string) (c : np.ndarray scalar) :
  plyfile.getitem zero e key = Ok c ->
  In key (plyfile.properties e)
  /\ np.shape c = [plyfile.count e] /\ length (np.flat c) = plyfile.count e.
Proof.
  intros H. destruct (getitem_cases e key) as [[_ Hr]|[Hin (c' & Hc & Hs & Hl)]].
  - congruence.
  - rewrite H in Hc. injection Hc as <-. auto.
Qed.

Lemma getitem_In (e : plyfile.PlyElement scalar) (key : string) :
  In key (plyfile.properties e) -> exists c, plyfile.getitem zero e key = Ok c.
Proof.
  intros Hin. destruct (getitem_cases e key) as [[Hout _]|[_ (c & Hc & _)]];
    [contradiction | eauto].
Qed.

Lemma entry_getitem (e : plyfile.PlyElement scalar) (key : string) (c : np.ndarray scalar)
    (i : nat) :
  plyfile.getitem zero e key = Ok c -> entry zero e key i = np.flat c !! i.
Proof. unfold entry. intros ->. reflexivity. Qed.

End ElementFacts.

(** ** The blocks of [capture_data] *)

Section CaptureFacts.

Context {scalar : Type}.
Variable zero : scalar.
Variable cast : scalar -> scalar.

Variable ply : plyfile.PlyData scalar.
Variable e : plyfile.PlyElement scalar.
Hypothesis first_element : plyfile.elements0 ply = Ok e.

Let n : nat := plyfile.count e.

Lemma element0_column_eq (key : string) :
  element0_column zero ply key = plyfile.getitem zero e key.
Proof using first_element. unfold element0_column. rewrite first_element. reflexivity. Qed.

(** The loop that fills the columns [k], [k+1], ... with the properties
    [names]: it cannot raise when the names are properties of the element,
    and it leaves every other column as it was. *)
Lemma fill_from (names : list string) :
  Forall (fun x => In x (plyfile.properties e)) names ->
  forall (k m : nat) (a : np.ndarray scalar),
    np.shape a = [n; m] -> length (np.flat a) = n * m -> k + length names <= m ->
    exists a',
      Py.for_each
        (fun arr '(idx, attr_name) =>
           col <- element0_column zero ply attr_name ;;
           np.setitem_cols cast arr [idx] (np.asarray col))
        (imap (fun i x => (k + i, x)) names) a = Ok a'
      /\ np.shape a' = [n; m]
      /\ length (np.flat a') = n * m
      /\ forall i j, i < n -> j < m ->
           np.flat a' !! (i * m + j)
           = match (if Nat.leb k j then names !! (j - k) else None) with
             | Some name => cast <$> entry zero e name i
             | None => np.flat a !! (i * m + j)
             end.
Proof using first_element.
  induction 1 as [|name names Hin Hall IH]; intros k m a Hs Hl Hk.
  - exists a. simpl. repeat split; try assumption.
    intros i j _ _. destruct (Nat.leb k j); [|reflexivity].
    rewrite lookup_nil. reflexivity.
  - simpl in Hk. simpl. rewrite element0_column_eq.
    destruct (getitem_In zero e name Hin) as [col Hcol].
    destruct (getitem_Ok zero e name col Hcol) as (_ & Hcs & Hcl).
    rewrite Hcol. simpl. unfold np.asarray.
    rewrite (setitem_cols_2d cast a col n m (k + 0)) by (assumption || lia).
    simpl.
    destruct (IH (S k) m
                (np.mk_ndarray [n; m] (put_column cast m (k + 0) (np.flat col) (np.flat a))))
      as (a' & Hrun & Hs' & Hl' & Hget).
    { reflexivity. }
    { simpl. rewrite length_put_column. exact Hl. }
    { lia. }
    exists a'. split.
    { rewrite <- Hrun. f_equal. apply imap_ext. intros i x _. simpl.
      f_equal. lia. }
    split; [exact Hs'|]. split; [exact Hl'|].
    intros i j Hi Hj. rewrite (Hget i j Hi Hj). cbn [np.flat].
    assert (Hlt : i * m + j < length (np.flat a)) by (rewrite Hl; nia).
    destruct (lookup_lt_is_Some_2 (np.flat a) _ Hlt) as [old Hold].
    assert (Hci : is_Some (np.flat col !! i))
      by (apply lookup_lt_is_Some_2; fold n in Hcl; lia).
    destruct Hci as [y Hy].
    destruct (Nat.leb_spec (S k) j) as [Hge|Hlt'].
    + destruct (Nat.leb_spec k j); [|lia].
      replace (j - k) with (S (j - S k)) by lia.
      change ((name :: names) !! S (j - S k)) with (names !! (j - S k)).
      destruct (names !! (j - S k)); [reflexivity|].
      rewrite lookup_put_column by exact Hj.
      destruct (Nat.eqb_spec j (k + 0)); [lia | reflexivity].
    + rewrite lookup_put_column by exact Hj.
      destruct (Nat.leb_spec k j) as [Hkj|Hkj].
      * replace (j - k) with 0 by lia.
        change ((name :: names) !! 0) with (Some name).
        destruct (Nat.eqb_spec j (k + 0)); [|lia].
        rewrite (entry_getitem zero e name col i Hcol), Hy, Hold. reflexivity.
      * destruct (Nat.eqb_spec j (k + 0)); [lia | reflexivity].
Qed.

(** Filling a fresh array with the columns [names]. *)
Lemma fill_columns_Ok (names : list string) :
  Forall (fun x => In x (plyfile.properties e)) names ->
  exists a',
    fill_columns zero cast ply names (np.zeros zero [n; length names]) = Ok a'
    /\ np.shape a' = [n; length names]
    /\ forall j name col,
         names !! j = Some name ->
         plyfile.getitem zero e name = Ok col ->
         np.column a' j = List.map (fun v => Some (cast v)) (np.flat col).
Proof using first_element.
  intros Hall.
  destruct (fill_from names Hall 0 (length names) (np.zeros zero [n; length names]))
    as (a' & Hrun & Hs & Hl & Hget).
  { reflexivity. }
  { rewrite length_zeros. simpl. lia. }
  { lia. }
  exists a'. split; [exact Hrun|]. split; [exact Hs|].
  intros j name col Hj Hcol. unfold np.column. rewrite Hs.
  destruct (getitem_Ok zero e name col Hcol) as (_ & _ & Hcl). fold n in Hcl.
  apply lookup_lt_Some in Hj as Hjlt.
  transitivity (List.map (fun i => cast <$> np.flat col !! i) (seq 0 n)).
  - apply List.map_ext_in. intros i Hi. apply in_seq in Hi.
    rewrite (Hget i j) by lia. cbn [Nat.leb]. rewrite Nat.sub_0_r, Hj.
    rewrite (entry_getitem zero e name col i Hcol). reflexivity.
  - rewrite <- Hcl.
    rewrite <- (List.map_map (fun i => np.flat col !! i) (fmap cast)).
    rewrite lookups_seq, List.map_map. reflexivity.
Qed.

Lemma filter_prefix_In (prefix : string) (names : list string) :
  Permutation names (List.filter (String.prefix prefix) (plyfile.properties e)) ->
  Forall (fun x => In x (plyfile.properties e)) names.
Proof.
  intros Hp. apply List.Forall_forall. intros x Hx.
  eapply Permutation_in in Hx; [|exact Hp].
  apply filter_In in Hx. exact (proj1 Hx).
Qed.

(** A group that was captured holds the properties of its prefix. *)
Lemma capture_group_Ok (prefix : string) (arr : np.ndarray scalar) :
  capture_group zero cast ply prefix (Ok n) = Ok arr ->
  holds_group zero cast e prefix arr.
Proof using first_element.
  unfold capture_group, names_starting_with. rewrite first_element. simpl.
  intros H. inv_bind H. rename a into names. simpl in H.
  destruct (sorted_Ok _ _ _ Ha) as (Hperm & keys & Hkeys & Hsorted).
  destruct (fill_columns_Ok names (filter_prefix_In prefix names Hperm))
    as (a' & Hrun & Hs & Hcols).
  rewrite Hrun in H. injection H as <-.
  exists names, keys. repeat split; assumption.
Qed.

(** A group is captured when the suffix of every property of its prefix
    is an integer, and raises otherwise. *)
Lemma capture_group_total (prefix : string) :
  Forall (fun x => ~ Py.raises (suffix_key x))
    (List.filter (String.prefix prefix) (plyfile.properties e)) ->
  exists arr, capture_group zero cast ply prefix (Ok n) = Ok arr.
Proof using first_element.
  intros Hall. unfold capture_group, names_starting_with.
  rewrite first_element. simpl.
  destruct (Py.sorted suffix_key _) as [names|err] eqn:Hsort.
  - simpl. destruct (sorted_Ok _ _ _ Hsort) as (Hperm & _).
    destruct (fill_columns_Ok names (filter_prefix_In prefix names Hperm))
      as (a' & Hrun & _).
    eauto.
  - exfalso.
    assert (Hr : Py.raises (Py.sorted suffix_key
                (List.filter (String.prefix prefix) (plyfile.properties e))))
      by (rewrite Hsort; exact I).
    apply sorted_raises, List.Exists_exists in Hr as (x & Hx & Hrx).
    rewrite List.Forall_forall in Hall. exact (Hall x Hx Hrx).
Qed.

Lemma capture_group_raises (prefix name : string) (n_rows : result nat) :
  In name (plyfile.properties e) -> String.prefix prefix name = true ->
  Py.raises (suffix_key name) ->
  Py.raises (capture_group zero cast ply prefix n_rows).
Proof using first_element.
  intros Hin Hpre Hr. unfold capture_group, names_starting_with.
  rewrite first_element. simpl. apply bind_raises, sorted_raises, List.Exists_exists.
  exists name. split; [|exact Hr]. apply filter_In. auto.
Qed.

End CaptureFacts.

(** ** [capture_data] as a whole *)

Lemma bind_raises_cont {A B : Type} (r : result A) (k : A -> result B) :
  (forall a, r = Ok a -> Py.raises (k a)) -> Py.raises (Py.bind r k).
Proof. destruct r as [a|err]; simpl; [intros H; apply H; reflexivity | tauto]. Qed.

Section DecodeFacts.

Context {scalar : Type}.
Variable zero : scalar.
Variable cast : scalar -> scalar.

Variable ply : plyfile.PlyData scalar.
Variable e : plyfile.PlyElement scalar.
Hypothesis first_element : plyfile.elements0 ply = Ok e.

Let n : nat := plyfile.count e.

Lemma capture_xyz_cases :
  (exists k, In k ["x"; "y"; "z"] /\ ~ In k (plyfile.properties e)
             /\ capture_xyz zero ply = Raise (ValueError ("no field of name " ++ k)))
  \/ (exists x y z,
        plyfile.getitem zero e "x" = Ok x
        /\ plyfile.getitem zero e "y" = Ok y
        /\ plyfile.getitem zero e "z" = Ok z
        /\ capture_xyz zero ply = Ok (np.mk_ndarray [n; 3] (xyz_entries n x y z))).
Proof using first_element.
  unfold capture_xyz. rewrite !(element0_column_eq zero ply e first_element).
  destruct (getitem_cases zero e "x") as [[Hout Hr]|[_ (x & Hx & Sx & _)]].
  { left. exists "x". rewrite Hr. cbn [Py.bind].
    split; [simpl; auto 10|split; [exact Hout|reflexivity]]. }
  destruct (getitem_cases zero e "y") as [[Hout Hr]|[_ (y & Hy & Sy & _)]].
  { left. exists "y". rewrite Hx, Hr. cbn [Py.bind].
    split; [simpl; auto 10|split; [exact Hout|reflexivity]]. }
  destruct (getitem_cases zero e "z") as [[Hout Hr]|[_ (z & Hz & Sz & _)]].
  { left. exists "z". rewrite Hx, Hy, Hr. cbn [Py.bind].
    split; [simpl; auto 10|split; [exact Hout|reflexivity]]. }
  right. exists x, y, z. rewrite Hx, Hy, Hz. cbn [Py.bind]. unfold np.asarray.
  rewrite (stack_axis1_3 x y z n) by assumption. auto.
Qed.

Lemma capture_opacities_cases :
  (~ In "opacity" (plyfile.properties e)
   /\ capture_opacities zero ply = Raise (ValueError "no field of name opacity"))
  \/ (exists c,
        plyfile.getitem zero e "opacity" = Ok c
        /\ capture_opacities zero ply = Ok (np.mk_ndarray [n; 1] (np.flat c))).
Proof using first_element.
  unfold capture_opacities. rewrite !(element0_column_eq zero ply e first_element).
  destruct (getitem_cases zero e "opacity") as [[Hout Hr]|[_ (c & Hc & Sc & _)]].
  - left. rewrite Hr. cbn [Py.bind]. split; [exact Hout|reflexivity].
  - right. exists c. rewrite Hc. simpl. unfold np.newaxis_last, np.asarray.
    rewrite Sc. auto.
Qed.

Lemma capture_direct_current_cases (a : np.ndarray scalar) :
  np.shape a = [n; 3] ->
  (exists k, In k ["f_dc_0"; "f_dc_1"; "f_dc_2"] /\ ~ In k (plyfile.properties e)
             /\ capture_direct_current zero cast ply a = Raise (ValueError ("no field of name " ++ k)))
  \/ (exists f0 f1 f2,
        plyfile.getitem zero e "f_dc_0" = Ok f0
        /\ plyfile.getitem zero e "f_dc_1" = Ok f1
        /\ plyfile.getitem zero e "f_dc_2" = Ok f2
        /\ capture_direct_current zero cast ply a
           = Ok (np.squeeze (np.mk_ndarray [n; 3; 1]
                              (direct_current_entries zero cast n f0 f1 f2)))).
Proof using first_element.
  intros Ha. unfold capture_direct_current, np.shape0. rewrite Ha.
  cbn [Py.bind]. rewrite !(element0_column_eq zero ply e first_element).
  unfold np.asarray.
  destruct (getitem_cases zero e "f_dc_0") as [[Hout Hr]|[_ (f0 & H0 & S0 & _)]].
  { left. exists "f_dc_0". rewrite Hr. cbn [Py.bind].
    split; [simpl; auto 10|split; [exact Hout|reflexivity]]. }
  rewrite H0. cbn [Py.bind].
  rewrite (setitem_cols_3d cast _ f0 n 3 0) by (reflexivity || assumption || lia).
  cbn [Py.bind].
  destruct (getitem_cases zero e "f_dc_1") as [[Hout Hr]|[_ (f1 & H1 & S1 & _)]].
  { left. exists "f_dc_1". rewrite Hr. cbn [Py.bind].
    split; [simpl; auto 10|split; [exact Hout|reflexivity]]. }
  rewrite H1. cbn [Py.bind].
  rewrite (setitem_cols_3d cast _ f1 n 3 1) by (reflexivity || assumption || lia).
  cbn [Py.bind].
  destruct (getitem_cases zero e "f_dc_2") as [[Hout Hr]|[_ (f2 & H2 & S2 & _)]].
  { left. exists "f_dc_2". rewrite Hr. cbn [Py.bind].
    split; [simpl; auto 10|split; [exact Hout|reflexivity]]. }
  rewrite H2. cbn [Py.bind].
  rewrite (setitem_cols_3d cast _ f2 n 3 2) by (reflexivity || assumption || lia).
  cbn [Py.bind].
  right. exists f0, f1, f2. do 3 (split; [reflexivity || assumption|]).
  unfold direct_current_entries. cbn [np.flat np.zeros np.size_of List.fold_right].
  rewrite !Nat.mul_1_r. reflexivity.
Qed.

End DecodeFacts.

Lemma In_required_xyz (k : string) :
  In k ["x"; "y"; "z"] -> In k required_properties.
Proof. unfold required_properties. simpl. tauto. Qed.

Lemma In_required_f_dc (k : string) :
  In k ["f_dc_0"; "f_dc_1"; "f_dc_2"] -> In k required_properties.
Proof. unfold required_properties. simpl. tauto. Qed.

Section DecodeResult.

Context {scalar : Type}.
Variable zero : scalar.
Variable cast : scalar -> scalar.

Variable ply : plyfile.PlyData scalar.
Variable e : plyfile.PlyElement scalar.
Hypothesis first_element : plyfile.elements0 ply = Ok e.

Let n : nat := plyfile.count e.

(** What a successful [capture_data] has stored. *)
Lemma capture_data_Ok (w : PlyWrapper scalar) :
  capture_data zero cast ply = Ok w ->
  exists x y z op f0 f1 f2,
    plyfile.getitem zero e "x" = Ok x
    /\ plyfile.getitem zero e "y" = Ok y
    /\ plyfile.getitem zero e "z" = Ok z
    /\ plyfile.getitem zero e "opacity" = Ok op
    /\ plyfile.getitem zero e "f_dc_0" = Ok f0
    /\ plyfile.getitem zero e "f_dc_1" = Ok f1
    /\ plyfile.getitem zero e "f_dc_2" = Ok f2
    /\ ply_data w = ply
    /\ xyz w = np.mk_ndarray [n; 3] (xyz_entries n x y z)
    /\ opacities w = np.mk_ndarray [n; 1] (np.flat op)
    /\ direct_current w
       = np.squeeze (np.mk_ndarray [n; 3; 1] (direct_current_entries zero cast n f0 f1 f2))
    /\ holds_group zero cast e "f_rest_" (higher_order_shs w)
    /\ holds_group zero cast e "scale_" (scaling w)
    /\ holds_group zero cast e "rot" (rotation w).
Proof using first_element.
  unfold capture_data. intros H.
  destruct (capture_xyz_cases zero ply e first_element)
    as [(k & _ & _ & Hr)|(x & y & z & Hx & Hy & Hz & Hxyz)];
    rewrite ?Hr, ?Hxyz in H; [discriminate|]. cbn [Py.bind] in H.
  destruct (capture_opacities_cases zero ply e first_element)
    as [(_ & Hr)|(op & Hop & Hops)];
    rewrite ?Hr, ?Hops in H; [discriminate|]. cbn [Py.bind] in H.
  destruct (capture_direct_current_cases zero cast ply e first_element
              (np.mk_ndarray [plyfile.count e; 3] (xyz_entries (plyfile.count e) x y z))
              eq_refl)
    as [(k & _ & _ & Hr)|(f0 & f1 & f2 & H0 & H1 & H2 & Hdc)];
    rewrite ?Hr, ?Hdc in H; [discriminate|]. cbn [Py.bind] in H.
  unfold np.len, np.shape0 in H. cbn [np.shape] in H.
  inv_bind H. rename a into hos, Ha into Hhos.
  inv_bind H. rename a into scales, Ha into Hscales.
  inv_bind H. rename a into rots, Ha into Hrots.
  injection H as <-. cbn.
  exists x, y, z, op, f0, f1, f2.
  repeat (split; [assumption || reflexivity|]).
  split; [|split]; eapply capture_group_Ok; eassumption.
Qed.

(** [capture_data] raises the [ValueError] of the field access when a
    property that it reads by name is missing. *)
Lemma capture_data_missing :
  (exists k, In k required_properties /\ ~ In k (plyfile.properties e)) ->
  exists k, In k required_properties /\ ~ In k (plyfile.properties e)
            /\ capture_data zero cast ply = Raise (ValueError ("no field of name " ++ k)).
Proof using first_element.
  intros (bad & Hbad & Hout). unfold capture_data.
  destruct (capture_xyz_cases zero ply e first_element)
    as [(k & Hk & Hko & Hr)|(x & y & z & Hx & Hy & Hz & Hxyz)].
  { exists k. rewrite Hr. auto using In_required_xyz. }
  rewrite Hxyz. cbn [Py.bind].
  destruct (capture_opacities_cases zero ply e first_element)
    as [(Hko & Hr)|(op & Hop & Hops)].
  { exists "opacity". rewrite Hr. repeat split; [|assumption].
    unfold required_properties. simpl. auto 10. }
  rewrite Hops. cbn [Py.bind].
  destruct (capture_direct_current_cases zero cast ply e first_element
              (np.mk_ndarray [plyfile.count e; 3] (xyz_entries (plyfile.count e) x y z))
              eq_refl)
    as [(k & Hk & Hko & Hr)|(f0 & f1 & f2 & H0 & H1 & H2 & Hdc)].
  { exists k. rewrite Hr. auto using In_required_f_dc. }
  exfalso. apply Hout.
  unfold required_properties in Hbad. simpl in Hbad.
  repeat (destruct Hbad as [<-|Hbad];
          [eapply (getitem_Ok zero); eassumption|]).
  contradiction.
Qed.

(** [capture_data] returns when the seven properties are there and the
    numbered properties have integer suffixes. *)
Lemma capture_data_total :
  Forall (fun k => In k (plyfile.properties e)) required_properties ->
  Forall (fun prefix =>
            Forall (fun name => ~ Py.raises (suffix_key name))
              (List.filter (String.prefix prefix) (plyfile.properties e)))
    group_prefixes ->
  exists w, capture_data zero cast ply = Ok w.
Proof using first_element.
  intros Hreq Hgroups.
  destruct (capture_data zero cast ply) as [w|err] eqn:Hrun; [eauto|exfalso].
  unfold capture_data in Hrun.
  rewrite List.Forall_forall in Hreq.
  destruct (capture_xyz_cases zero ply e first_element)
    as [(k & Hk & Hko & Hr)|(x & y & z & Hx & Hy & Hz & Hxyz)].
  { apply Hko, Hreq, In_required_xyz, Hk. }
  rewrite Hxyz in Hrun. cbn [Py.bind] in Hrun.
  destruct (capture_opacities_cases zero ply e first_element)
    as [(Hko & Hr)|(op & Hop & Hops)].
  { apply Hko, Hreq. unfold required_properties. simpl. auto 10. }
  rewrite Hops in Hrun. cbn [Py.bind] in Hrun.
  destruct (capture_direct_current_cases zero cast ply e first_element
              (np.mk_ndarray [plyfile.count e; 3] (xyz_entries (plyfile.count e) x y z))
              eq_refl)
    as [(k & Hk & Hko & Hr)|(f0 & f1 & f2 & H0 & H1 & H2 & Hdc)].
  { apply Hko, Hreq, In_required_f_dc, Hk. }
  rewrite Hdc in Hrun. cbn [Py.bind] in Hrun.
  unfold np.len, np.shape0 in Hrun. cbn [np.shape] in Hrun.
  unfold group_prefixes in Hgroups.
  inversion Hgroups as [|? ? Hf Hg1]; subst.
  inversion Hg1 as [|? ? Hs Hg2]; subst.
  inversion Hg2 as [|? ? Hrot _]; subst.
  destruct (capture_group_total zero cast ply e first_element _ Hf) as [a1 E1].
  destruct (capture_group_total zero cast ply e first_element _ Hs) as [a2 E2].
  destruct (capture_group_total zero cast ply e first_element _ Hrot) as [a3 E3].
  rewrite E1 in Hrun. cbn [Py.bind] in Hrun.
  rewrite E2 in Hrun. cbn [Py.bind] in Hrun.
  rewrite E3 in Hrun. cbn [Py.bind] in Hrun.
  discriminate.
Qed.

(** [capture_data] raises when a numbered property has a suffix that [int]
    rejects. *)
Lemma capture_data_bad_suffix (prefix name : string) :
  In prefix group_prefixes ->
  In name (plyfile.properties e) -> String.prefix prefix name = true ->
  Py.raises (suffix_key name) ->
  Py.raises (capture_data zero cast ply).
Proof using first_element.
  intros Hp Hin Hpre Hbad. unfold capture_data.
  apply bind_raises_cont. intros a _.
  apply bind_raises_cont. intros o _.
  apply bind_raises_cont. intros d _.
  unfold group_prefixes in Hp. simpl in Hp.
  destruct Hp as [<-|[<-|[<-|[]]]].
  - apply bind_raises. eapply capture_group_raises; eassumption.
  - apply bind_raises_cont. intros h _.
    apply bind_raises. eapply capture_group_raises; eassumption.
  - apply bind_raises_cont. intros h _.
    apply bind_raises_cont. intros s _.
    apply bind_raises. eapply capture_group_raises; eassumption.
Qed.

End DecodeResult.

Lemma capture_data_first_element {scalar : Type} (zero : scalar) (cast : scalar -> scalar)
    (ply : plyfile.PlyData scalar) (w : PlyWrapper scalar) :
  capture_data zero cast ply = Ok w ->
  exists e, plyfile.elements0 ply = Ok e.
Proof.
  destruct (plyfile.elements0 ply) as [e|err] eqn:He; [eauto|].
  unfold capture_data, capture_xyz, element0_column. rewrite He. discriminate.
Qed.

(** ** The valid elements are those that decode *)

Lemma integer_suffix_raises (name : string) :
  integer_suffix name = false <-> Py.raises (suffix_key name).
Proof.
  unfold integer_suffix, suffix_key, Py.int.
  destruct (Py.parse_int _); simpl; split; (discriminate || tauto || auto).
Qed.

Section ValidElement.

Context {scalar : Type}.
Variable zero : scalar.
Variable cast : scalar -> scalar.

Variable ply : plyfile.PlyData scalar.
Variable e : plyfile.PlyElement scalar.
Hypothesis first_element : plyfile.elements0 ply = Ok e.

Lemma has_property_In (k : string) :
  has_property e k = true <-> In k (plyfile.properties e).
Proof.
  unfold has_property. rewrite existsb_exists. split.
  - intros (x & Hx & Heq). apply String.eqb_eq in Heq. subst. exact Hx.
  - intros Hk. exists k. split; [exact Hk | apply String.eqb_refl].
Qed.

Lemma valid_element_total :
  valid_element e = true -> exists w, capture_data zero cast ply = Ok w.
Proof using first_element.
  unfold valid_element. intros Hv. apply andb_prop in Hv as [Hreq Hsuf].
  rewrite forallb_forall in Hreq, Hsuf.
  apply (capture_data_total zero cast ply e first_element).
  - apply List.Forall_forall. intros k Hk. apply has_property_In, Hreq, Hk.
  - apply List.Forall_forall. intros prefix Hp.
    apply List.Forall_forall. intros name Hname.
    apply filter_In in Hname as [Hin Hpre].
    specialize (Hsuf name Hin).
    assert (Hg : in_group name = true).
    { unfold in_group. apply existsb_exists. eauto. }
    rewrite Hg in Hsuf. simpl in Hsuf.
    intros Hr. apply integer_suffix_raises in Hr. congruence.
Qed.

Lemma decoded_is_valid (w : PlyWrapper scalar) :
  capture_data zero cast ply = Ok w -> valid_element e = true.
Proof using first_element.
  intros Hrun. unfold valid_element. apply andb_true_intro. split.
  - destruct (capture_data_Ok zero cast ply e first_element w Hrun)
      as (x & y & z & op & f0 & f1 & f2 & Hx & Hy & Hz & Hop & H0 & H1 & H2 & _).
    unfold required_properties. cbn [forallb].
    rewrite !(proj2 (has_property_In _)); [reflexivity|..];
      eapply (getitem_Ok zero); eassumption.
  - apply forallb_forall. intros name Hin.
    destruct (in_group name) eqn:Hg; [|reflexivity]. simpl.
    destruct (integer_suffix name) eqn:Hs; [reflexivity|exfalso].
    unfold in_group in Hg. apply existsb_exists in Hg as (prefix & Hp & Hpre).
    apply integer_suffix_raises in Hs.
    pose proof (capture_data_bad_suffix zero cast ply e first_element
                  prefix name Hp Hin Hpre Hs) as Hr.
    rewrite Hrun in Hr. exact Hr.
Qed.

End ValidElement.

(** * The operations of the decoder *)

Section Decoder.

Context {scalar : Type}.
Variable zero : scalar.
Variable cast : scalar -> scalar.
Variable fs : plyfile.filesystem (scalar := scalar).
Variable inherited : list string.

Lemma capture_data_ply_data (ply : plyfile.PlyData scalar) (w : PlyWrapper scalar) :
  capture_data zero cast ply = Ok w -> ply_data w = ply.
Proof.
  intros H. destruct (capture_data_first_element zero cast ply w H) as [e He].
  destruct (capture_data_Ok zero cast ply e He w H)
    as (x & y & z & op & f0 & f1 & f2 & _ & _ & _ & _ & _ & _ & _ & Hp & _).
  exact Hp.
Qed.

Lemma init_loads (src : source scalar) (ply : plyfile.PlyData scalar) :
  loads fs src ply -> init zero cast fs src = capture_data zero cast ply.
Proof.
  destruct src as [p|d|v]; simpl.
  - intros Hp. unfold plyfile.path_exists, plyfile.read. rewrite Hp. reflexivity.
  - intros ->. reflexivity.
  - intros [].
Qed.

Lemma init_Ok (src : source scalar) (w : PlyWrapper scalar) :
  init zero cast fs src = Ok w ->
  loads fs src (ply_data w) /\ capture_data zero cast (ply_data w) = Ok w.
Proof.
  destruct src as [p|d|v]; simpl.
  - unfold plyfile.path_exists, plyfile.read.
    destruct (fs p) as [[ply|err]|] eqn:Hp; simpl; try discriminate.
    intros H. rewrite (capture_data_ply_data ply w H). auto.
  - intros H. rewrite (capture_data_ply_data d w H). auto.
  - discriminate.
Qed.

(** The shapes of the six arrays of a decoded element of [n] rows. *)
Lemma decoded_shapes (src : source scalar) (w : PlyWrapper scalar)
    (e : plyfile.PlyElement scalar) :
  init zero cast fs src = Ok w ->
  plyfile.elements0 (ply_data w) = Ok e ->
  np.shape (xyz w) = [plyfile.count e; 3]
  /\ np.shape (opacities w) = [plyfile.count e; 1]
  /\ np.shape (direct_current w)
     = List.filter (fun d => negb (Nat.eqb d 1)) [plyfile.count e; 3; 1]
  /\ (exists m, np.shape (higher_order_shs w) = [plyfile.count e; m])
  /\ (exists s, np.shape (scaling w) = [plyfile.count e; s])
  /\ (exists r, np.shape (rotation w) = [plyfile.count e; r]).
Proof.
  intros Hinit He. apply init_Ok in Hinit as [_ Hrun].
  destruct (capture_data_Ok zero cast _ e He w Hrun)
    as (x & y & z & op & f0 & f1 & f2 & _ & _ & _ & _ & _ & _ & _ & _
        & -> & -> & -> & Hf & Hs & Hr).
  destruct Hf as (fn & ? & _ & _ & _ & Hfs & _).
  destruct Hs as (sn & ? & _ & _ & _ & Hss & _).
  destruct Hr as (rn & ? & _ & _ & _ & Hrs & _).
  simpl. repeat split; eauto.
Qed.

(** With any number of rows other than one, every array has the rows of
    the element. *)
Lemma leading_dimensions (src : source scalar) (w : PlyWrapper scalar)
    (e : plyfile.PlyElement scalar) :
  init zero cast fs src = Ok w ->
  plyfile.elements0 (ply_data w) = Ok e ->
  plyfile.count e <> 1 ->
  Forall (fun a => np.len a = Ok (plyfile.count e)) (arrays w).
Proof.
  intros Hinit He Hn.
  destruct (decoded_shapes src w e Hinit He)
    as (Hx & Ho & Hd & [m Hh] & [s Hs] & [r Hr]).
  simpl in Hd. destruct (Nat.eqb_spec (plyfile.count e) 1); [contradiction|].
  simpl in Hd. unfold arrays, np.len.
  repeat constructor; rewrite ?Hx, ?Ho, ?Hd, ?Hh, ?Hs, ?Hr; reflexivity.
Qed.

Lemma matching_dimensions_count (w : PlyWrapper scalar) (other : plyfile.PlyData scalar)
    (key : string) (c : np.ndarray scalar) :
  element0_column zero (ply_data w) key = Ok c ->
  same_count zero w other key
  = Raise (AttributeError "'numpy.ndarray' object has no attribute 'count'").
Proof. unfold same_count. intros ->. reflexivity. Qed.

Lemma existsb_eqb_false (x : string) (l : list string) :
  ~ In x l -> existsb (String.eqb x) l = false.
Proof.
  intros Hout. destruct (existsb (String.eqb x) l) eqn:Hex; [|reflexivity].
  apply existsb_exists in Hex as (y & Hy & Heq).
  apply String.eqb_eq in Heq. subst. contradiction.
Qed.

Lemma get_data_body_Some (w : PlyWrapper scalar) (data : gmap string (value scalar))
    (attr : string) (v : value scalar) :
  getattr inherited w attr = Some v ->
  get_data_body inherited w data attr = Ok (<[attr := v]> data).
Proof. unfold get_data_body, hasattr. intros ->. reflexivity. Qed.

Lemma get_data_body_None (w : PlyWrapper scalar) (data : gmap string (value scalar))
    (attr : string) :
  hasattr inherited w attr = false ->
  get_data_body inherited w data attr
  = Raise (AttributeError ("'" ++ attr ++ "' is not a valid attribute of PlyWrapper.")).
Proof. unfold get_data_body. intros ->. reflexivity. Qed.

Lemma hasattr_true (w : PlyWrapper scalar) (attr : string) :
  hasattr inherited w attr = true -> exists v, getattr inherited w attr = Some v.
Proof. unfold hasattr. destruct (getattr inherited w attr); [eauto | discriminate]. Qed.

Lemma get_data_nonempty (w : PlyWrapper scalar) (names : list string) :
  names <> [] ->
  get_data inherited w (Some names) = Py.for_each (get_data_body inherited w) names ∅.
Proof. destruct names; [congruence | reflexivity]. Qed.

Lemma get_data_loop_Ok (w : PlyWrapper scalar) (names : list string) :
  forall acc m,
    Py.for_each (get_data_body inherited w) names acc = Ok m ->
    Forall (fun x => hasattr inherited w x = true) names
    /\ forall k, (In k names -> m !! k = getattr inherited w k)
                 /\ (~ In k names -> m !! k = acc !! k).
Proof.
  induction names as [|x names IH]; intros acc m H; cbn [Py.for_each] in H.
  - injection H as <-. split; [constructor|]. intros k.
    split; [intros [] | reflexivity].
  - inv_bind H.
    destruct (hasattr inherited w x) eqn:Hx;
      [|rewrite (get_data_body_None w acc x Hx) in Ha; discriminate].
    destruct (hasattr_true w x Hx) as [v Hv].
    rewrite (get_data_body_Some w acc x v Hv) in Ha.
    injection Ha as <-. destruct (IH _ _ H) as [Hall Hm]. split.
    + constructor; assumption.
    + intros k. destruct (Hm k) as [Hin Hout]. simpl. split.
      * intros [<-|Hk].
        -- destruct (in_dec string_dec x names) as [Hi|Hn]; [rewrite Hin; auto|].
           rewrite Hout by exact Hn. rewrite lookup_insert_eq. auto.
        -- auto.
      * intros Hk. rewrite Hout by (intros Hi; apply Hk; right; exact Hi).
        rewrite lookup_insert_ne by (intros ->; apply Hk; left; reflexivity).
        reflexivity.
Qed.

Lemma get_data_loop_total (w : PlyWrapper scalar) (names : list string) :
  Forall (fun x => hasattr inherited w x = true) names ->
  forall acc, exists m, Py.for_each (get_data_body inherited w) names acc = Ok m.
Proof.
  induction 1 as [|x names Hx Hall IH]; intros acc; cbn [Py.for_each]; [eauto|].
  destruct (hasattr_true w x Hx) as [v Hv].
  rewrite (get_data_body_Some w acc x v Hv). cbn [Py.bind]. apply IH.
Qed.

Lemma get_data_loop_raises (w : PlyWrapper scalar) (pre post : list string) (bad : string) :
  Forall (fun x => hasattr inherited w x = true) pre ->
  hasattr inherited w bad = false ->
  forall acc,
    Py.for_each (get_data_body inherited w) (pre ++ bad :: post) acc
    = Raise (AttributeError ("'" ++ bad ++ "' is not a valid attribute of PlyWrapper.")).
Proof.
  intros Hpre Hbad.
  induction Hpre as [|x pre Hx Hall IH]; intros acc; cbn [Py.for_each app].
  - rewrite (get_data_body_None w acc bad Hbad). reflexivity.
  - destruct (hasattr_true w x Hx) as [v Hv].
    rewrite (get_data_body_Some w acc x v Hv). cbn [Py.bind]. apply IH.
Qed.

(** A list with a rejected name splits at the first one. *)
Lemma first_rejected (w : PlyWrapper scalar) (names : list string) :
  Exists (fun x => hasattr inherited w x = false) names ->
  exists pre bad post,
    names = (pre ++ bad :: post)%list
    /\ Forall (fun x => hasattr inherited w x = true) pre
    /\ hasattr inherited w bad = false.
Proof.
  induction names as [|x names IH]; intros H; [inversion H|].
  destruct (hasattr inherited w x) eqn:Hx.
  - inversion H as [? ? Hx'|? ? Hrest]; subst; [congruence|].
    destruct (IH Hrest) as (pre & bad & post & -> & Hpre & Hbad).
    exists (x :: pre), bad, post. repeat split; [constructor|]; assumption.
  - exists [], x, names. repeat split; [constructor | assumption].
Qed.

Lemma accepted_or_rejected (w : PlyWrapper scalar) (names : list string) :
  Forall (fun x => hasattr inherited w x = true) names
  \/ Exists (fun x => hasattr inherited w x = false) names.
Proof.
  induction names as [|x names [IH|IH]].
  - left. constructor.
  - destruct (hasattr inherited w x) eqn:Hx.
    + left. constructor; assumption.
    + right. constructor. exact Hx.
  - right. constructor 2. exact IH.
Qed.

End Decoder.

(** ** The table of [get_sh_coeffs_standardized_format] *)

Section BlockFacts.

Context {scalar : Type}.

Lemma length_block (b i : nat) (l : list scalar) :
  (i + 1) * b <= length l -> length (np.block b i l) = b.
Proof.
  intros H. unfold np.block. rewrite length_take, length_drop. nia.
Qed.

Lemma length_concat_uniform (b : nat) (chunks : list (list scalar)) :
  Forall (fun c => length c = b) chunks ->
  length (List.concat chunks) = length chunks * b.
Proof.
  induction 1 as [|c chunks Hc Hall IH]; simpl; [reflexivity|].
  rewrite length_app, IH, Hc. reflexivity.
Qed.

(** The blocks of a concatenation of chunks of equal length are the chunks. *)
Lemma block_concat (b : nat) (chunks : list (list scalar)) :
  Forall (fun c => length c = b) chunks ->
  forall i c, chunks !! i = Some c -> np.block b i (List.concat chunks) = c.
Proof.
  unfold np.block.
  induction 1 as [|c0 chunks Hc Hall IH]; intros i c Hi; [discriminate|].
  destruct i as [|i]; simpl in Hi.
  - injection Hi as <-. simpl. apply take_app_length'. symmetry. exact Hc.
  - cbn [List.concat]. replace (S i * b) with (b + i * b) by lia.
    rewrite drop_app_add' by (symmetry; exact Hc). apply IH. exact Hi.
Qed.

Lemma lookup_map_seq {B : Type} (f : nat -> B) (n i : nat) :
  i < n -> List.map f (seq 0 n) !! i = Some (f i).
Proof.
  intros Hi. change (List.map f (seq 0 n)) with (f <$> seq 0 n).
  rewrite list_lookup_fmap, lookup_seq_lt by exact Hi. reflexivity.
Qed.

Lemma Forall_map_seq {B : Type} (P : B -> Prop) (f : nat -> B) (n : nat) :
  (forall i, i < n -> P (f i)) -> Forall P (List.map f (seq 0 n)).
Proof.
  intros H. apply List.Forall_forall. intros y Hy.
  apply in_map_iff in Hy as (i & <- & Hi). apply in_seq in Hi. apply H. lia.
Qed.

Lemma size_of_squeeze (s : list nat) :
  np.size_of (List.filter (fun d => negb (Nat.eqb d 1)) s) = np.size_of s.
Proof.
  induction s as [|d s IH]; simpl; [reflexivity|].
  destruct (Nat.eqb_spec d 1) as [->|Hd]; simpl; rewrite IH; lia.
Qed.

(** Row [i] of [xyz] is the triple of the three columns at [i]. *)
Lemma xyz_row (n : nat) (x y z : np.ndarray scalar) (i : nat) (a b c : scalar) :
  np.flat x !! i = Some a -> np.flat y !! i = Some b -> np.flat z !! i = Some c ->
  length (np.flat x) = n -> length (np.flat y) = n -> length (np.flat z) = n ->
  np.block 3 i (xyz_entries n x y z) = [a; b; c].
Proof.
  intros Ha Hb Hc Lx Ly Lz. unfold xyz_entries.
  assert (Hi : i < n) by (apply lookup_lt_Some in Ha; lia).
  erewrite block_concat; [| |apply lookup_map_seq; exact Hi].
  - rewrite !block_1, Ha, Hb, Hc. reflexivity.
  - apply Forall_map_seq. intros j Hj. rewrite !block_1.
    destruct (lookup_lt_is_Some_2 (np.flat x) j) as [? ->]; [lia|].
    destruct (lookup_lt_is_Some_2 (np.flat y) j) as [? ->]; [lia|].
    destruct (lookup_lt_is_Some_2 (np.flat z) j) as [? ->]; [lia|].
    reflexivity.
Qed.

Lemma length_xyz_entries (n : nat) (x y z : np.ndarray scalar) :
  length (np.flat x) = n -> length (np.flat y) = n -> length (np.flat z) = n ->
  length (xyz_entries n x y z) = n * 3.
Proof.
  intros Lx Ly Lz. unfold xyz_entries.
  rewrite (length_concat_uniform 3).
  - rewrite List.length_map, length_seq. reflexivity.
  - apply Forall_map_seq. intros j Hj. rewrite !block_1.
    destruct (lookup_lt_is_Some_2 (np.flat x) j) as [? ->]; [lia|].
    destruct (lookup_lt_is_Some_2 (np.flat y) j) as [? ->]; [lia|].
    destruct (lookup_lt_is_Some_2 (np.flat z) j) as [? ->]; [lia|].
    reflexivity.
Qed.

End BlockFacts.

Section GroupSizes.

Context {scalar : Type}.
Variable zero : scalar.
Variable cast : scalar -> scalar.

(** The loop of [fill_columns] keeps the shape and the number of entries. *)
Lemma fill_columns_shape (ply : plyfile.PlyData scalar) (names : list string)
    (a a' : np.ndarray scalar) :
  fill_columns zero cast ply names a = Ok a' ->
  np.shape a' = np.shape a /\ length (np.flat a') = length (np.flat a).
Proof.
  unfold fill_columns. generalize (Py.enumerate names). intros l. revert a.
  induction l as [|[idx name] l IH]; intros a H; cbn [Py.for_each] in H.
  - injection H as <-. auto.
  - inv_bind H. inv_bind Ha. apply setitem_cols_shape in Ha as [Hs Hl].
    destruct (IH _ H) as [Hs' Hl']. split; congruence.
Qed.

Lemma capture_group_size (ply : plyfile.PlyData scalar) (prefix : string)
    (n_rows : result nat) (arr : np.ndarray scalar) :
  capture_group zero cast ply prefix n_rows = Ok arr ->
  exists n m, n_rows = Ok n /\ np.shape arr = [n; m] /\ length (np.flat arr) = n * m.
Proof.
  unfold capture_group. intros H. inv_bind H. inv_bind H. inv_bind H.
  apply fill_columns_shape in H as [Hs Hl].
  exists a1, (length a0). split; [assumption|]. split; [exact Hs|].
  rewrite Hl, length_zeros. simpl. lia.
Qed.

End GroupSizes.

Section TableFacts.

Context {scalar : Type}.
Variable zero : scalar.
Variable cast : scalar -> scalar.
Variable fs : plyfile.filesystem (scalar := scalar).

Lemma concatenate_axis1_2 (a b : np.ndarray scalar) (n p q : nat) :
  np.shape a = [n; p] -> np.shape b = [n; q] ->
  np.concatenate_axis1 [a; b]
  = Ok (np.mk_ndarray [n; p + q]
          (List.concat (List.map (fun i => (np.block p i (np.flat a)
                                           ++ np.block q i (np.flat b))%list)
                          (seq 0 n)))).
Proof.
  intros Ha Hb. unfold np.concatenate_axis1. rewrite Ha. cbn [forallb].
  rewrite Ha, Hb. cbn [length take drop].
  rewrite !Nat.eqb_refl, !bool_decide_eq_true_2 by reflexivity. cbn [andb negb].
  do 2 f_equal.
  - cbn. rewrite Ha, Hb. cbn. do 2 f_equal. lia.
  - f_equal. apply List.map_ext. intros i. cbn [List.map List.concat].
    rewrite Ha, Hb. cbn [drop np.size_of List.fold_right].
    rewrite !Nat.mul_1_r, app_nil_r. reflexivity.
Qed.

Lemma block_3 (l : list scalar) (i : nat) (a b c : scalar) :
  l !! (i * 3) = Some a -> l !! (i * 3 + 1) = Some b -> l !! (i * 3 + 2) = Some c ->
  np.block 3 i l = [a; b; c].
Proof.
  intros Ha Hb Hc. unfold np.block.
  pose proof (lookup_drop l (i * 3) 0) as H0. rewrite Nat.add_0_r, Ha in H0.
  pose proof (lookup_drop l (i * 3) 1) as H1. rewrite Hb in H1.
  pose proof (lookup_drop l (i * 3) 2) as H2. rewrite Hc in H2.
  destruct (drop (i * 3) l) as [|a' [|b' [|c' r]]]; try discriminate.
  cbn in H0, H1, H2. injection H0 as ->. injection H1 as ->. injection H2 as ->.
  reflexivity.
Qed.

(** Row [i] of the entries of [direct_current] holds the three converted
    coefficients of row [i]. *)
Lemma direct_current_row (n : nat) (f0 f1 f2 : np.ndarray scalar) (i : nat) (a b c : scalar) :
  i < n ->
  np.flat f0 !! i = Some a -> np.flat f1 !! i = Some b -> np.flat f2 !! i = Some c ->
  np.block 3 i (direct_current_entries zero cast n f0 f1 f2) = [cast a; cast b; cast c].
Proof.
  intros Hi Ha Hb Hc. unfold direct_current_entries.
  assert (Hz : forall j, j < 3 -> replicate (n * 3) zero !! (i * 3 + j) = Some zero).
  { intros j Hj. apply lookup_replicate_2. nia. }
  apply block_3.
  - replace (i * 3) with (i * 3 + 0) by lia.
    rewrite !lookup_put_column by lia. cbn [Nat.eqb].
    rewrite Ha, Hz by lia. reflexivity.
  - rewrite !lookup_put_column by lia. cbn [Nat.eqb].
    rewrite Hb, Hz by lia. reflexivity.
  - rewrite !lookup_put_column by lia. cbn [Nat.eqb].
    rewrite Hc, Hz by lia. reflexivity.
Qed.

Lemma capture_data_group_sizes (ply : plyfile.PlyData scalar) (w : PlyWrapper scalar) :
  capture_data zero cast ply = Ok w ->
  Forall (fun a => exists n m, np.shape a = [n; m] /\ length (np.flat a) = n * m)
    [higher_order_shs w; scaling w; rotation w].
Proof.
  unfold capture_data. intros H. do 6 inv_bind H. injection H as <-. cbn.
  apply capture_group_size in Ha2 as (n2 & m2 & _ & H2).
  apply capture_group_size in Ha3 as (n3 & m3 & _ & H3).
  apply capture_group_size in Ha4 as (n4 & m4 & _ & H4).
  repeat constructor; eauto.
Qed.

(** X4: with any number of rows other than one, the table has one row per
    point, in the order of the points: its key is the triple of the
    position, its values are the row of [direct_current], which holds the
    three converted [f_dc] coefficients, followed by the row of
    [higher_order_shs]. *)
Lemma table_of_points (src : source scalar) (w : PlyWrapper scalar)
    (e : plyfile.PlyElement scalar) :
  init zero cast fs src = Ok w ->
  plyfile.elements0 (ply_data w) = Ok e ->
  plyfile.count e <> 1 ->
  exists df m,
    get_sh_coeffs_standardized_format w = Ok df
    /\ index_names df = ["x"; "y"; "z"]
    /\ length (index df) = plyfile.count e
    /\ np.shape (higher_order_shs w) = [plyfile.count e; m]
    /\ np.shape (values df) = [plyfile.count e; 3 + m]
    /\ length (np.rows (values df)) = plyfile.count e
    /\ forall i, i < plyfile.count e ->
         (forall a b c,
            entry zero e "x" i = Some a -> entry zero e "y" i = Some b ->
            entry zero e "z" i = Some c ->
            index df !! i = Some [a; b; c])
         /\ (forall a b c,
               entry zero e "f_dc_0" i = Some a -> entry zero e "f_dc_1" i = Some b ->
               entry zero e "f_dc_2" i = Some c ->
               np.block 3 i (np.flat (direct_current w)) = [cast a; cast b; cast c])
         /\ np.rows (values df) !! i
            = Some (np.block 3 i (np.flat (direct_current w))
                    ++ np.block m i (np.flat (higher_order_shs w)))%list.
Proof.
  intros Hinit He Hn. apply init_Ok in Hinit as [_ Hrun].
  pose proof (capture_data_group_sizes _ w Hrun) as Hsizes.
  apply Forall_cons_1 in Hsizes as [(n' & m & Hhs & Hhl) _].
  destruct (capture_data_Ok zero cast _ e He w Hrun)
    as (x & y & z & op & f0 & f1 & f2 & Hx & Hy & Hz & _ & H0 & H1 & H2 & _
        & Hxyz & _ & Hdc & Hf & _ & _).
  destruct Hf as (fn & ? & _ & _ & _ & Hfs & _).
  rewrite Hhs in Hfs. injection Hfs as -> Hm. clear Hm.
  set (n := plyfile.count e) in *.
  destruct (getitem_Ok zero e _ x Hx) as (_ & _ & Lx).
  destruct (getitem_Ok zero e _ y Hy) as (_ & _ & Ly).
  destruct (getitem_Ok zero e _ z Hz) as (_ & _ & Lz).
  destruct (getitem_Ok zero e _ f0 H0) as (_ & _ & L0).
  destruct (getitem_Ok zero e _ f1 H1) as (_ & _ & L1).
  destruct (getitem_Ok zero e _ f2 H2) as (_ & _ & L2).
  fold n in Lx, Ly, Lz, L0, L1, L2.
  assert (Hds : np.shape (direct_current w) = [n; 3]).
  { rewrite Hdc. cbn. destruct (Nat.eqb_spec n 1); [contradiction | reflexivity]. }
  assert (Hdl : length (np.flat (direct_current w)) = n * 3).
  { rewrite Hdc. cbn [np.squeeze np.flat]. unfold direct_current_entries.
    rewrite !length_put_column, length_replicate. reflexivity. }
  unfold get_sh_coeffs_standardized_format.
  rewrite (concatenate_axis1_2 _ _ n 3 m Hds Hhs).
  rewrite Hxyz. unfold np.iter. cbn [np.shape np.flat Py.bind].
  unfold pd_DataFrame. cbn [np.shape].
  rewrite !List.length_map, length_seq, Nat.eqb_refl. cbn [Py.bind index values].
  assert (Htuples : forallb (fun t : list scalar => Nat.eqb (length t) (length ["x"; "y"; "z"]))
                      (List.map np.tuple
                         (List.map (fun i => np.mk_ndarray [3]
                                               (np.block (np.size_of [3]) i (xyz_entries n x y z)))
                            (seq 0 n))) = true).
  { apply forallb_forall. intros t Ht.
    apply in_map_iff in Ht as (r & <- & Hr).
    apply in_map_iff in Hr as (i & <- & Hi). apply in_seq in Hi.
    unfold np.tuple. cbn [np.flat].
    change (np.size_of [3]) with 3. change (length ["x"; "y"; "z"]) with 3.
    apply Nat.eqb_eq, length_block.
    rewrite length_xyz_entries by assumption. nia. }
  unfold from_tuples. rewrite Htuples. cbn [Py.bind].
  eexists. exists m. split; [reflexivity|]. cbn [index_names index values np.shape].
  split; [reflexivity|]. split; [rewrite !List.length_map, length_seq; reflexivity|].
  split; [exact Hhs|]. split; [reflexivity|].
  split; [unfold np.rows; cbn [np.shape]; rewrite List.length_map, length_seq; reflexivity|].
  intros i Hi. split; [|split].
  - intros a b c Ha Hb Hc.
    rewrite (entry_getitem zero e _ x i Hx) in Ha.
    rewrite (entry_getitem zero e _ y i Hy) in Hb.
    rewrite (entry_getitem zero e _ z i Hz) in Hc.
    rewrite List.map_map.
    etransitivity; [apply lookup_map_seq; exact Hi|]. cbv beta.
    unfold np.tuple. cbn [np.flat]. change (np.size_of [3]) with 3.
    f_equal. apply (xyz_row n x y z i a b c); assumption.
  - intros a b c Ha Hb Hc.
    rewrite (entry_getitem zero e _ f0 i H0) in Ha.
    rewrite (entry_getitem zero e _ f1 i H1) in Hb.
    rewrite (entry_getitem zero e _ f2 i H2) in Hc.
    rewrite Hdc. cbn [np.squeeze np.flat].
    apply direct_current_row; assumption.
  - unfold np.rows. cbn [np.shape np.flat].
    etransitivity; [apply lookup_map_seq; exact Hi|]. cbv beta. f_equal.
    apply block_concat.
    + apply Forall_map_seq. intros j Hj.
      rewrite length_app, !length_block; [reflexivity| |]; nia.
    + exact (lookup_map_seq
               (fun j => (np.block 3 j (np.flat (direct_current w))
                          ++ np.block m j (np.flat (higher_order_shs w)))%list) n i Hi).
Qed.

End TableFacts.

(** ** The order of the declarations *)

Lemma strictly_sorted_perm_eq {A : Type} (f : A -> Z) (l l' : list A) :
  Permutation l l' ->
  StronglySorted (fun a b => (f a < f b)%Z) l ->
  StronglySorted (fun a b => (f a < f b)%Z) l' ->
  l = l'.
Proof.
  revert l'. induction l as [|a l IH]; intros l' Hp Hs Hs'.
  - apply Permutation_nil in Hp. congruence.
  - destruct l' as [|b l'];
      [apply Permutation_sym, Permutation_nil in Hp; discriminate|].
    inversion Hs as [|? ? Hsl Ha]; subst. inversion Hs' as [|? ? Hsl' Hb]; subst.
    assert (Hab : a = b).
    { assert (Hina : In a (b :: l'))
        by (eapply Permutation_in; [exact Hp | left; reflexivity]).
      assert (Hinb : In b (a :: l))
        by (eapply Permutation_in; [symmetry; exact Hp | left; reflexivity]).
      destruct Hina as [->|Hina]; [reflexivity|].
      destruct Hinb as [->|Hinb]; [reflexivity|].
      rewrite List.Forall_forall in Ha, Hb.
      specialize (Ha b Hinb). specialize (Hb a Hina). lia. }
    subst b. f_equal. apply IH; [|assumption|assumption].
    eapply Permutation_cons_inv. exact Hp.
Qed.

Lemma sorted_distinct_strict {A : Type} (f : A -> Z) (l : list A) :
  Sorted Z.le (List.map f l) -> List.NoDup (List.map f l) ->
  StronglySorted (fun a b => (f a < f b)%Z) l.
Proof.
  intros Hs Hnd. apply Sorted_StronglySorted in Hs; [|intros x y z; apply Z.le_trans].
  induction l as [|a l IH]; [constructor|].
  simpl in Hs, Hnd. inversion Hs as [|? ? Hsl Ha]; subst.
  inversion Hnd as [|? ? Hout Hndl]; subst.
  constructor; [apply IH; assumption|].
  apply List.Forall_forall. intros b Hb.
  rewrite List.Forall_forall in Ha.
  assert (Hle : (f a <= f b)%Z) by (apply Ha, in_map, Hb).
  assert (Hne : f a <> f b).
  { intros Heq. apply Hout. rewrite Heq. apply in_map, Hb. }
  lia.
Qed.

Lemma map_each_suffix_value (names : list string) (keys : list Z) :
  Py.map_each suffix_key names = Ok keys -> keys = List.map suffix_value names.
Proof.
  intros H. apply map_each_Forall2 in H.
  induction H as [|x k l ks Hx Hl IH]; simpl; [reflexivity|].
  unfold suffix_value at 1. rewrite Hx, IH. reflexivity.
Qed.

Lemma filter_Permutation {A : Type} (f : A -> bool) (l l' : list A) :
  Permutation l l' -> Permutation (List.filter f l) (List.filter f l').
Proof.
  induction 1 as [|x l l' Hp IH|x y l|l l' l'' Hp1 IH1 Hp2 IH2]; simpl.
  - constructor.
  - destruct (f x); [constructor|]; exact IH.
  - destruct (f x), (f y); try reflexivity. apply perm_swap.
  - etransitivity; eassumption.
Qed.

(** Two elements with the same columns, declared in different orders, give
    the same columns in a group whose suffixes are pairwise distinct. *)
Lemma declaration_order_irrelevant {scalar : Type} (zero : scalar) (cast : scalar -> scalar)
    (e e' : plyfile.PlyElement scalar) (prefix : string) (arr arr' : np.ndarray scalar) :
  Permutation (plyfile.properties e) (plyfile.properties e') ->
  plyfile.count e = plyfile.count e' ->
  (forall name, In name (plyfile.properties e) ->
                plyfile.getitem zero e name = plyfile.getitem zero e' name) ->
  List.NoDup (List.map suffix_value
                (List.filter (String.prefix prefix) (plyfile.properties e))) ->
  holds_group zero cast e prefix arr ->
  holds_group zero cast e' prefix arr' ->
  np.shape arr = np.shape arr'
  /\ forall j m, np.shape arr = [plyfile.count e; m] -> j < m ->
       np.column arr j = np.column arr' j.
Proof.
  intros Hperm Hcount Hcols Hnd
    (names & keys & Hp & Hk & Hs & Hshape & Hcol)
    (names' & keys' & Hp' & Hk' & Hs' & Hshape' & Hcol').
  assert (Hnames : Permutation names names').
  { rewrite Hp, Hp'. apply filter_Permutation, Hperm. }
  apply map_each_suffix_value in Hk, Hk'. subst keys keys'.
  assert (Hnd1 : List.NoDup (List.map suffix_value names)).
  { eapply Permutation_NoDup; [|exact Hnd].
    apply Permutation_map. symmetry. exact Hp. }
  assert (Hnd2 : List.NoDup (List.map suffix_value names')).
  { eapply Permutation_NoDup; [|exact Hnd1]. apply Permutation_map, Hnames. }
  assert (Heq : names = names').
  { apply (strictly_sorted_perm_eq suffix_value); [exact Hnames| |];
      apply sorted_distinct_strict; assumption. }
  subst names'. split; [rewrite Hshape, Hshape', Hcount; reflexivity|].
  intros j m Hm Hj. rewrite Hshape in Hm. injection Hm as <-.
  destruct (lookup_lt_is_Some_2 names j Hj) as [name Hname].
  assert (Hin : In name (plyfile.properties e)).
  { assert (Hn : In name names) by (apply list_elem_of_In, list_elem_of_lookup; eauto).
    eapply Permutation_in in Hn; [|exact Hp]. apply filter_In in Hn. exact (proj1 Hn). }
  destruct (getitem_In zero e name Hin) as [col Hc].
  rewrite (Hcol j name col Hname Hc).
  rewrite (Hcols name Hin) in Hc. rewrite (Hcol' j name col Hname Hc). reflexivity.
Qed.

(** ** Stability of the sort, and the errors of a run *)

Lemma insert_by_key_filter {A : Type} (k : Z) (x : Z * A) (l : list (Z * A)) :
  List.filter (fun p => Z.eqb (fst p) k) (Py.insert_by_key x l)
  = List.filter (fun p => Z.eqb (fst p) k) (x :: l).
Proof.
  induction l as [|y l IH]; [reflexivity|].
  cbn [Py.insert_by_key]. destruct (Z.leb (fst x) (fst y)) eqn:Hle; [reflexivity|].
  apply Z.leb_gt in Hle. cbn [List.filter]. rewrite IH. cbn [List.filter].
  destruct (Z.eqb_spec (fst y) k), (Z.eqb_spec (fst x) k); try reflexivity. lia.
Qed.

(** The items of one key come out of the sort in the order they went in. *)
Lemma sort_by_key_stable {A : Type} (k : Z) (l : list (Z * A)) :
  List.filter (fun p => Z.eqb (fst p) k) (Py.sort_by_key l)
  = List.filter (fun p => Z.eqb (fst p) k) l.
Proof.
  induction l as [|x l IH]; [reflexivity|].
  cbn [Py.sort_by_key List.fold_right]. rewrite insert_by_key_filter.
  cbn [List.filter]. fold (Py.sort_by_key l). rewrite IH. reflexivity.
Qed.

Lemma filter_map_snd {A : Type} (value : A -> Z) (k : Z) (ps : list (Z * A)) :
  Forall (fun p => value (snd p) = fst p) ps ->
  List.filter (fun x => Z.eqb (value x) k) (List.map snd ps)
  = List.map snd (List.filter (fun p => Z.eqb (fst p) k) ps).
Proof.
  induction 1 as [|p ps Hp Hall IH]; [reflexivity|].
  cbn [List.map List.filter]. rewrite Hp, IH.
  destruct (Z.eqb (fst p) k); reflexivity.
Qed.

Lemma sorted_stable {A : Type} (key : A -> result Z) (value : A -> Z) (l l' : list A) :
  (forall x k, key x = Ok k -> value x = k) ->
  Py.sorted key l = Ok l' ->
  forall k, List.filter (fun x => Z.eqb (value x) k) l'
            = List.filter (fun x => Z.eqb (value x) k) l.
Proof.
  intros Hval. unfold Py.sorted. intros H. inv_bind H. injection H as <-. intros k.
  apply map_each_Forall2, combine_keys_Forall in Ha as [Hall Hsnd].
  assert (Hall' : Forall (fun p => value (snd p) = fst p) (List.combine a l)).
  { eapply List.Forall_impl; [|exact Hall]. intros p Hp. apply Hval, Hp. }
  assert (Hsorted : Forall (fun p => value (snd p) = fst p)
                      (Py.sort_by_key (List.combine a l))).
  { eapply Permutation_Forall; [|exact Hall']. symmetry. apply sort_by_key_perm. }
  rewrite (filter_map_snd value k _ Hsorted), sort_by_key_stable.
  rewrite <- (filter_map_snd value k _ Hall'), Hsnd. reflexivity.
Qed.

Lemma suffix_key_value (x : string) (k : Z) : suffix_key x = Ok k -> suffix_value x = k.
Proof. unfold suffix_value. intros ->. reflexivity. Qed.

Lemma suffix_key_raise (x : string) (err : exn) :
  suffix_key x = Raise err -> exists msg, err = ValueError msg.
Proof.
  unfold suffix_key, Py.int. destruct (Py.parse_int _); [discriminate|].
  intros H. injection H as <-. eauto.
Qed.

Lemma map_each_Raise {A B : Type} (f : A -> result B) (l : list A) (err : exn) :
  Py.map_each f l = Raise err -> exists x, In x l /\ f x = Raise err.
Proof.
  induction l as [|x l IH]; [discriminate|]. cbn [Py.map_each].
  destruct (f x) as [y|err'] eqn:Hx; cbn [Py.bind].
  - destruct (Py.map_each f l) as [ys|err'] eqn:Hl; cbn [Py.bind]; [discriminate|].
    intros H. injection H as ->.
    destruct (IH eq_refl) as (x' & Hin & Hx'). exists x'. split; [right|]; assumption.
  - intros H. injection H as ->. exists x. split; [left; reflexivity | exact Hx].
Qed.

Section RunFacts.

Context {scalar : Type}.
Variable zero : scalar.
Variable cast : scalar -> scalar.

(** The three groups of a run that returned. *)
Lemma capture_data_groups (ply : plyfile.PlyData scalar) (e : plyfile.PlyElement scalar)
    (w : PlyWrapper scalar) :
  plyfile.elements0 ply = Ok e ->
  capture_data zero cast ply = Ok w ->
  capture_group zero cast ply "f_rest_" (Ok (plyfile.count e)) = Ok (higher_order_shs w)
  /\ capture_group zero cast ply "scale_" (Ok (plyfile.count e)) = Ok (scaling w)
  /\ capture_group zero cast ply "rot" (Ok (plyfile.count e)) = Ok (rotation w).
Proof.
  intros He H. unfold capture_data in H.
  destruct (capture_xyz_cases zero ply e He)
    as [(k & _ & _ & Hr)|(x & y & z & Hx & Hy & Hz & Hxyz)];
    rewrite ?Hr, ?Hxyz in H; [discriminate|]. cbn [Py.bind] in H.
  inv_bind H. inv_bind H.
  unfold np.len, np.shape0 in H. cbn [np.shape] in H.
  inv_bind H. inv_bind H. inv_bind H. injection H as <-. cbn.
  auto.
Qed.

(** A group that was captured holds the sorted names of its prefix. *)
Lemma capture_group_names (ply : plyfile.PlyData scalar) (e : plyfile.PlyElement scalar)
    (prefix : string) (arr : np.ndarray scalar) :
  plyfile.elements0 ply = Ok e ->
  capture_group zero cast ply prefix (Ok (plyfile.count e)) = Ok arr ->
  exists names,
    Py.sorted suffix_key (List.filter (String.prefix prefix) (plyfile.properties e))
    = Ok names
    /\ np.shape arr = [plyfile.count e; length names]
    /\ forall j name col,
         names !! j = Some name ->
         plyfile.getitem zero e name = Ok col ->
         np.column arr j = List.map (fun v => Some (cast v)) (np.flat col).
Proof.
  intros He. unfold capture_group, names_starting_with. rewrite He. cbn [Py.bind].
  intros H. inv_bind H. rename a into names. cbn [Py.bind] in H.
  destruct (sorted_Ok _ _ _ Ha) as (Hperm & _).
  destruct (fill_columns_Ok zero cast ply e He names
              (filter_prefix_In e prefix names Hperm))
    as (a' & Hrun & Hs & Hcols).
  rewrite Hrun in H. injection H as <-.
  exists names. auto.
Qed.

(** A group raises only the [ValueError] of [int] on the suffix of one of
    its names. *)
Lemma capture_group_Raise (ply : plyfile.PlyData scalar) (e : plyfile.PlyElement scalar)
    (prefix : string) (err : exn) :
  plyfile.elements0 ply = Ok e ->
  capture_group zero cast ply prefix (Ok (plyfile.count e)) = Raise err ->
  exists name,
    In name (plyfile.properties e) /\ String.prefix prefix name = true
    /\ suffix_key name = Raise err.
Proof.
  intros He. unfold capture_group, names_starting_with. rewrite He. cbn [Py.bind].
  destruct (Py.sorted suffix_key _) as [names|err'] eqn:Hsort; cbn [Py.bind].
  - destruct (sorted_Ok _ _ _ Hsort) as (Hperm & _).
    destruct (fill_columns_Ok zero cast ply e He names
                (filter_prefix_In e prefix names Hperm))
      as (a' & Hrun & _).
    rewrite Hrun. discriminate.
  - intros H. injection H as ->. unfold Py.sorted in Hsort.
    destruct (Py.map_each suffix_key _) as [keys|err'] eqn:Hkeys;
      cbn [Py.bind] in Hsort; [discriminate|].
    injection Hsort as ->.
    apply map_each_Raise in Hkeys as (name & Hin & Hname).
    apply filter_In in Hin as [Hin Hpre]. eauto.
Qed.

(** What a run raises, when there is a first element: the [ValueError] of a
    missing field, or the [ValueError] of [int] on a suffix. *)
Lemma capture_data_Raise (ply : plyfile.PlyData scalar) (e : plyfile.PlyElement scalar)
    (err : exn) :
  plyfile.elements0 ply = Ok e ->
  capture_data zero cast ply = Raise err ->
  (exists k, In k required_properties /\ ~ In k (plyfile.properties e)
             /\ err = ValueError ("no field of name " ++ k))
  \/ (exists name, In name (plyfile.properties e) /\ in_group name = true
                   /\ suffix_key name = Raise err).
Proof.
  intros He H. unfold capture_data in H.
  destruct (capture_xyz_cases zero ply e He)
    as [(k & Hk & Hko & Hr)|(x & y & z & Hx & Hy & Hz & Hxyz)].
  { rewrite Hr in H. injection H as <-. left. exists k.
    auto using In_required_xyz. }
  rewrite Hxyz in H. cbn [Py.bind] in H.
  destruct (capture_opacities_cases zero ply e He) as [(Hko & Hr)|(op & Hop & Hops)].
  { rewrite Hr in H. injection H as <-. left. exists "opacity".
    split; [unfold required_properties; simpl; auto 10|]. auto. }
  rewrite Hops in H. cbn [Py.bind] in H.
  destruct (capture_direct_current_cases zero cast ply e He
              (np.mk_ndarray [plyfile.count e; 3] (xyz_entries (plyfile.count e) x y z))
              eq_refl)
    as [(k & Hk & Hko & Hr)|(f0 & f1 & f2 & H0 & H1 & H2 & Hdc)].
  { rewrite Hr in H. injection H as <-. left. exists k.
    auto using In_required_f_dc. }
  rewrite Hdc in H. cbn [Py.bind] in H.
  unfold np.len, np.shape0 in H. cbn [np.shape] in H.
  right.
  assert (Hgroup : forall prefix, In prefix group_prefixes ->
            capture_group zero cast ply prefix (Ok (plyfile.count e)) = Raise err ->
            exists name, In name (plyfile.properties e) /\ in_group name = true
                         /\ suffix_key name = Raise err).
  { intros prefix Hp Hg.
    destruct (capture_group_Raise ply e prefix err He Hg) as (name & Hin & Hpre & Hs).
    exists name. split; [exact Hin|]. split; [|exact Hs].
    unfold in_group. apply existsb_exists. eauto. }
  destruct (capture_group zero cast ply "f_rest_" _) as [a1|e1] eqn:E1;
    cbn [Py.bind] in H;
    [|injection H as ->; apply (Hgroup "f_rest_"); [simpl; auto | exact E1]].
  destruct (capture_group zero cast ply "scale_" _) as [a2|e2] eqn:E2;
    cbn [Py.bind] in H;
    [|injection H as ->; apply (Hgroup "scale_"); [simpl; auto | exact E2]].
  destruct (capture_group zero cast ply "rot" _) as [a3|e3] eqn:E3;
    cbn [Py.bind] in H;
    [discriminate|injection H as ->; apply (Hgroup "rot"); [simpl; auto | exact E3]].
Qed.

(** Two arrays of the same two-dimensional shape with the same columns are
    the same array. *)
Lemma ndarray_ext_columns (a a' : np.ndarray scalar) (n m : nat) :
  np.shape a = [n; m] -> np.shape a' = [n; m] ->
  length (np.flat a) = n * m -> length (np.flat a') = n * m ->
  (forall j, j < m -> np.column a j = np.column a' j) ->
  a = a'.
Proof.
  destruct a as [sa fa], a' as [sa' fa']. cbn [np.shape np.flat].
  intros -> -> Hl Hl' Hcols. f_equal. apply list_eq. intros p.
  destruct (Nat.lt_ge_cases p (n * m)) as [Hp|Hp].
  - assert (Hm : 0 < m) by nia.
    assert (Hj : p mod m < m) by (apply Nat.mod_upper_bound; lia).
    assert (Hi : p / m < n) by (apply Nat.Div0.div_lt_upper_bound; nia).
    specialize (Hcols (p mod m) Hj). unfold np.column in Hcols.
    cbn [np.shape np.flat] in Hcols.
    assert (Hat : List.map (fun i => fa !! (i * m + p mod m)) (seq 0 n) !! (p / m)
                  = List.map (fun i => fa' !! (i * m + p mod m)) (seq 0 n) !! (p / m))
      by (rewrite Hcols; reflexivity).
    rewrite (lookup_map_seq (fun i => fa !! (i * m + p mod m)) n (p / m) Hi) in Hat.
    rewrite (lookup_map_seq (fun i => fa' !! (i * m + p mod m)) n (p / m) Hi) in Hat.
    injection Hat as Hat.
    replace (p / m * m + p mod m) with p in Hat
      by (rewrite (Nat.div_mod_eq p m) at 1; lia).
    exact Hat.
  - rewrite !lookup_ge_None_2 by lia. reflexivity.
Qed.

End RunFacts.

(** ** The text after the last underscore *)

Lemma split_nonempty (sep : ascii) (s : string) : Py.split sep s <> [].
Proof.
  destruct s as [|c s]; cbn [Py.split]; [discriminate|].
  destruct (Ascii.eqb c sep); [discriminate|].
  destruct (Py.split sep s); discriminate.
Qed.

(** [(a + sep + b).split(sep) == a.split(sep) + b.split(sep)] *)
Lemma split_app (sep : ascii) (a b : string) :
  Py.split sep (a ++ String sep b) = (Py.split sep a ++ Py.split sep b)%list.
Proof.
  induction a as [|c a IH]; simpl.
  - rewrite Ascii.eqb_refl. reflexivity.
  - rewrite IH. destruct (Ascii.eqb c sep); [reflexivity|].
    pose proof (split_nonempty sep a) as Hne.
    destruct (Py.split sep a) as [|h t]; [congruence | reflexivity].
Qed.

Lemma split_no_separator (sep : ascii) (b : string) :
  no_separator sep b = true -> Py.split sep b = [b].
Proof.
  unfold no_separator. induction b as [|c b IH]; [reflexivity|].
  cbn [list_ascii_of_string forallb Py.split]. intros H.
  apply andb_prop in H as [Hc Hb]. apply negb_true_iff in Hc. rewrite Hc.
  rewrite (IH Hb). reflexivity.
Qed.

(** ** Only the first element is read *)

Lemma for_each_ext {A S : Type} (f g : S -> A -> result S) (l : list A) :
  (forall s x, f s x = g s x) -> forall acc, Py.for_each f l acc = Py.for_each g l acc.
Proof.
  intros Hfg. induction l as [|x l IH]; intros acc; simpl; [reflexivity|].
  rewrite Hfg. destruct (g acc x); simpl; [apply IH | reflexivity].
Qed.

Section FirstElementOnly.

Context {scalar : Type}.
Variable zero : scalar.
Variable cast : scalar -> scalar.

Variables p p' : plyfile.PlyData scalar.
Hypothesis same_first : plyfile.elements0 p = plyfile.elements0 p'.

Lemma element0_column_ext (key : string) :
  element0_column zero p key = element0_column zero p' key.
Proof using same_first. unfold element0_column. rewrite same_first. reflexivity. Qed.

Lemma fill_columns_ext (names : list string) (a : np.ndarray scalar) :
  fill_columns zero cast p names a = fill_columns zero cast p' names a.
Proof using same_first.
  unfold fill_columns. apply for_each_ext. intros arr [idx attr_name].
  rewrite element0_column_ext. reflexivity.
Qed.

Lemma names_starting_with_ext (prefix : string) :
  names_starting_with p prefix = names_starting_with p' prefix.
Proof using same_first. unfold names_starting_with. rewrite same_first. reflexivity. Qed.

Lemma capture_group_ext (prefix : string) (n_rows : result nat) :
  capture_group zero cast p prefix n_rows = capture_group zero cast p' prefix n_rows.
Proof using same_first.
  unfold capture_group. rewrite names_starting_with_ext.
  destruct (names_starting_with p' prefix); simpl; [|reflexivity].
  destruct (Py.sorted suffix_key _); simpl; [|reflexivity].
  destruct n_rows; simpl; [|reflexivity].
  apply fill_columns_ext.
Qed.

Lemma capture_xyz_ext : capture_xyz zero p = capture_xyz zero p'.
Proof using same_first. unfold capture_xyz. rewrite !element0_column_ext. reflexivity. Qed.

Lemma capture_opacities_ext : capture_opacities zero p = capture_opacities zero p'.
Proof using same_first.
  unfold capture_opacities. rewrite !element0_column_ext. reflexivity.
Qed.

Lemma capture_direct_current_ext (a : np.ndarray scalar) :
  capture_direct_current zero cast p a = capture_direct_current zero cast p' a.
Proof using same_first.
  unfold capture_direct_current. rewrite !element0_column_ext. reflexivity.
Qed.

(** The run on [p'] is the run on [p], up to the attribute [ply_data]. *)
Lemma capture_data_ext :
  capture_data zero cast p'
  = (w <- capture_data zero cast p ;;
     Ok (mk_PlyWrapper p' (xyz w) (opacities w) (direct_current w)
           (higher_order_shs w) (scaling w) (rotation w))).
Proof using same_first.
  unfold capture_data.
  rewrite <- capture_xyz_ext, <- capture_opacities_ext.
  destruct (capture_xyz zero p) as [a|]; cbn [Py.bind]; [|reflexivity].
  destruct (capture_opacities zero p) as [o|]; cbn [Py.bind]; [|reflexivity].
  rewrite <- capture_direct_current_ext, <- !capture_group_ext.
  destruct (capture_direct_current zero cast p a) as [d|]; cbn [Py.bind]; [|reflexivity].
  destruct (capture_group zero cast p "f_rest_" _) as [h|]; cbn [Py.bind]; [|reflexivity].
  destruct (capture_group zero cast p "scale_" _) as [sc|]; cbn [Py.bind]; [|reflexivity].
  destruct (capture_group zero cast p "rot" _) as [r|]; cbn [Py.bind]; reflexivity.
Qed.

Lemma same_count_ext (w w' : PlyWrapper scalar) (other : plyfile.PlyData scalar)
    (key : string) :
  ply_data w = p -> ply_data w' = p' ->
  same_count zero w other key = same_count zero w' other key.
Proof using same_first.
  intros Hw Hw'. unfold same_count. rewrite Hw, Hw', element0_column_ext. reflexivity.
Qed.

Lemma same_count_other_ext (self : PlyWrapper scalar) (key : string) :
  same_count zero self p key = same_count zero self p' key.
Proof using same_first.
  unfold same_count. rewrite element0_column_ext. reflexivity.
Qed.

End FirstElementOnly.

(** ** The suffix of a name, as the specification reads it *)

Lemma after_last_underscore_whole (s : string) :
  no_separator "_"%char s = true -> after_last_underscore s = s.
Proof.
  destruct s as [|c s]; [reflexivity|]. unfold no_separator.
  cbn [list_ascii_of_string forallb after_last_underscore]. intros H.
  apply andb_prop in H as [Hc Hs]. apply negb_true_iff in Hc.
  unfold no_separator. rewrite Hs, Hc. reflexivity.
Qed.

Lemma split_separator (sep : ascii) (s : string) :
  no_separator sep s = false -> exists h k t, Py.split sep s = h :: k :: t.
Proof.
  unfold no_separator. induction s as [|c s IH]; [discriminate|].
  cbn [list_ascii_of_string forallb Py.split]. intros H.
  destruct (Ascii.eqb c sep) eqn:Hc.
  - pose proof (split_nonempty sep s) as Hne.
    destruct (Py.split sep s) as [|k t]; [congruence|]. eauto.
  - simpl in H. destruct (IH H) as (h & k & t & ->). eauto.
Qed.

(** The last item of [x.split('_')] is the text after the last underscore. *)
Lemma last_split_underscore (s : string) :
  Py.last_item (Py.split "_"%char s) = after_last_underscore s.
Proof.
  unfold Py.last_item. induction s as [|c s IH]; [reflexivity|].
  cbn [Py.split after_last_underscore].
  destruct (no_separator "_"%char s) eqn:Hs.
  - rewrite (split_no_separator _ s Hs).
    destruct (Ascii.eqb c "_"%char); reflexivity.
  - destruct (split_separator _ s Hs) as (h & k & t & Hsplit).
    rewrite Hsplit in IH |- *. rewrite <- IH.
    destruct (Ascii.eqb c "_"%char); reflexivity.
Qed.

Lemma digit_char (c : ascii) (d d' : Decimal.uint) :
  uint_of_char c (Some d) = Some d' ->
  Py.is_digit c = true /\ Py.is_space c = false
  /\ Ascii.eqb c "-"%char = false /\ Ascii.eqb c "+"%char = false.
Proof.
  intros H. apply uint_of_char_spec in H.
  repeat (destruct H as [[-> _]|H]; [repeat split|]).
  destruct H as [-> _]. repeat split.
Qed.

Lemma lstrip_not_space (c : ascii) (l : list ascii) :
  Py.is_space c = false -> Py.lstrip (c :: l) = c :: l.
Proof. intros H. cbn [Py.lstrip]. rewrite H. reflexivity. Qed.

Lemma strip_not_space (l : list ascii) :
  Forall (fun c => Py.is_space c = false) l -> Py.strip l = l.
Proof.
  intros H. unfold Py.strip.
  assert (Hl : forall l', Forall (fun c => Py.is_space c = false) l' -> Py.lstrip l' = l').
  { intros l' Hl'. destruct Hl' as [|c l' Hc _]; [reflexivity|].
    apply lstrip_not_space, Hc. }
  rewrite (Hl l H), Hl, rev_involutive; [reflexivity|].
  apply List.Forall_rev, H.
Qed.

Lemma numeral_chars (s : string) (d : Decimal.uint) :
  NilEmpty.uint_of_string s = Some d ->
  Forall (fun c => Py.is_space c = false) (list_ascii_of_string s).
Proof.
  revert d. induction s as [|c s IH]; intros d H; [constructor|].
  cbn [NilEmpty.uint_of_string] in H.
  destruct (NilEmpty.uint_of_string s) as [d0|] eqn:Hs; [|discriminate].
  cbn [list_ascii_of_string]. constructor; [|eapply IH; reflexivity].
  eapply digit_char, H.
Qed.

(** The digits of a numeral, read by [int], give the number that the
    standard library reads. *)
Lemma digits_of_uint_acc (s : string) (d : Decimal.uint) (acc : positive) (after : bool) :
  NilEmpty.uint_of_string s = Some d ->
  s <> EmptyString \/ after = true ->
  Py.digits (Z.pos acc) after (list_ascii_of_string s) = Some (Z.pos (Pos.of_uint_acc d acc)).
Proof.
  revert d acc after. induction s as [|c s IH]; intros d acc after H Hne.
  - injection H as <-. destruct Hne as [Hne| ->]; [congruence | reflexivity].
  - cbn [NilEmpty.uint_of_string] in H.
    destruct (NilEmpty.uint_of_string s) as [d0|] eqn:Hs; [|discriminate].
    cbn [list_ascii_of_string Py.digits].
    apply uint_of_char_spec in H.
    repeat (destruct H as [[-> ->]|H];
            [cbn [Py.is_digit nat_of_ascii]; simpl Py.is_digit;
             cbn [Pos.of_uint_acc];
             rewrite <- (IH d0 _ true eq_refl (or_intror eq_refl));
             f_equal; unfold Py.digit_value; simpl; lia|]).
    destruct H as [-> ->].
    simpl Py.is_digit. cbn [Pos.of_uint_acc].
    rewrite <- (IH d0 _ true eq_refl (or_intror eq_refl)).
    f_equal; unfold Py.digit_value; simpl; lia.
Qed.

Lemma digits_of_uint (s : string) (d : Decimal.uint) (after : bool) :
  NilEmpty.uint_of_string s = Some d ->
  s <> EmptyString \/ after = true ->
  Py.digits 0 after (list_ascii_of_string s) = Some (Z.of_uint d).
Proof.
  revert d after. induction s as [|c s IH]; intros d after H Hne.
  - injection H as <-. destruct Hne as [Hne| ->]; [congruence | reflexivity].
  - cbn [NilEmpty.uint_of_string] in H.
    destruct (NilEmpty.uint_of_string s) as [d0|] eqn:Hs; [|discriminate].
    cbn [list_ascii_of_string Py.digits].
    apply uint_of_char_spec in H.
    destruct H as [[-> ->]|H].
    { simpl Py.is_digit. cbv iota.
      exact (IH d0 true eq_refl (or_intror eq_refl)). }
    repeat (destruct H as [[-> ->]|H];
            [simpl Py.is_digit; cbv iota;
             exact (digits_of_uint_acc s d0 _ true Hs (or_intror eq_refl))|]).
    destruct H as [-> ->]. simpl Py.is_digit. cbv iota.
    exact (digits_of_uint_acc s d0 _ true Hs (or_intror eq_refl)).
Qed.

(** A decimal numeral is accepted by [int], with the value that the
    standard library gives it. *)
Lemma parse_int_numeral (text : string) (k : Z) :
  base10 text = Some k -> Py.parse_int text = Some k.
Proof.
  destruct text as [|c s]; [discriminate|]. cbn [base10].
  unfold Py.parse_int. destruct (Ascii.eqb c "+"%char) eqn:Hplus.
  - apply Ascii.eqb_eq in Hplus. subst c.
    destruct s as [|c' s]; [discriminate|]. cbn [NilZero.uint_of_string].
    destruct (NilEmpty.uint_of_string (String c' s)) as [u|] eqn:Hu; [|discriminate].
    intros H. injection H as <-.
    rewrite strip_not_space.
    + cbn [list_ascii_of_string]. simpl (Ascii.eqb "+" "-"). simpl (Ascii.eqb "+" "+").
      change (c' :: list_ascii_of_string s) with (list_ascii_of_string (String c' s)).
      apply (digits_of_uint _ u false Hu). left. discriminate.
    + cbn [list_ascii_of_string]. constructor; [reflexivity|].
      exact (numeral_chars _ u Hu).
  - cbn [NilZero.int_of_string]. destruct (Ascii.eqb c "-"%char) eqn:Hc.
    + apply Ascii.eqb_eq in Hc. subst c.
      destruct s as [|c' s]; [discriminate|]. cbn [NilZero.uint_of_string].
      destruct (NilEmpty.uint_of_string (String c' s)) as [u|] eqn:Hu; [|discriminate].
      intros H. injection H as <-.
      rewrite strip_not_space.
      * cbn [list_ascii_of_string]. simpl (Ascii.eqb "-" "-").
        change (c' :: list_ascii_of_string s) with (list_ascii_of_string (String c' s)).
        rewrite (digits_of_uint _ u false Hu) by (left; discriminate). reflexivity.
      * cbn [list_ascii_of_string]. constructor; [reflexivity|].
        exact (numeral_chars _ u Hu).
    + cbn [NilZero.uint_of_string].
      destruct (NilEmpty.uint_of_string (String c s)) as [u|] eqn:Hu; [|discriminate].
      intros H. injection H as <-.
      rewrite strip_not_space by exact (numeral_chars _ u Hu).
      cbn [list_ascii_of_string]. rewrite Hc, Hplus.
      change (c :: list_ascii_of_string s) with (list_ascii_of_string (String c s)).
      apply (digits_of_uint _ u false Hu). left. discriminate.
Qed.

(** The sort key of the program is the base-10 integer suffix, on the
    names that have one. *)
Lemma base10_suffix_key (name : string) (k : Z) :
  base10_suffix name = Some k -> suffix_key name = Ok k.
Proof.
  unfold base10_suffix, suffix_key, Py.int. rewrite last_split_underscore.
  intros H. rewrite (parse_int_numeral _ k H). reflexivity.
Qed.

Lemma base10_suffix_value (name : string) (k : Z) :
  base10_suffix name = Some k -> suffix_value name = k.
Proof. intros H. apply suffix_key_value, base10_suffix_key, H. Qed.

Lemma has_suffix_value (k : Z) (x : string) :
  has_suffix k x = true -> Z.eqb (suffix_value x) k = true.
Proof.
  unfold has_suffix. destruct (base10_suffix x) as [k'|] eqn:Hx; [|discriminate].
  rewrite (base10_suffix_value x k' Hx). trivial.
Qed.

Lemma after_last_underscore_plain (s : string) :
  no_separator "_"%char (after_last_underscore s) = true.
Proof.
  induction s as [|c s IH]; [reflexivity|]. cbn [after_last_underscore].
  destruct (no_separator "_"%char s) eqn:Hs; [|exact IH].
  destruct (Ascii.eqb c "_"%char) eqn:Hc; [exact Hs|].
  unfold no_separator in *. cbn [list_ascii_of_string forallb]. rewrite Hc, Hs. reflexivity.
Qed.

Lemma after_last_underscore_chars (P : ascii -> bool) (s : string) :
  forallb P (list_ascii_of_string s) = true ->
  forallb P (list_ascii_of_string (after_last_underscore s)) = true.
Proof.
  induction s as [|c s IH]; [trivial|]. cbn [after_last_underscore].
  intros H. pose proof H as H'. cbn [list_ascii_of_string forallb] in H'.
  apply andb_prop in H' as [_ Hs].
  destruct (no_separator "_"%char s); [|exact (IH Hs)].
  destruct (Ascii.eqb c "_"%char); assumption.
Qed.

Lemma digit_numeral (c : ascii) (d : Decimal.uint) :
  Py.is_digit c = true -> exists d', uint_of_char c (Some d) = Some d'.
Proof.
  destruct c as [[|] [|] [|] [|] [|] [|] [|] [|]]; intros H;
    try (vm_compute in H; discriminate H); cbn; eauto.
Qed.

(** What [int] accepts as digits, without underscore, is a numeral. *)
Lemma digits_numeral (s : string) (acc : Z) (after : bool) (k : Z) :
  no_separator "_"%char s = true ->
  Py.digits acc after (list_ascii_of_string s) = Some k ->
  (exists u, NilEmpty.uint_of_string s = Some u) /\ (s <> EmptyString \/ after = true).
Proof.
  unfold no_separator. revert acc after. induction s as [|c s IH]; intros acc after Hs H.
  - cbn in H. destruct after; [|discriminate]. split; [cbn; eauto | auto].
  - cbn [list_ascii_of_string forallb Py.digits] in Hs, H.
    apply andb_prop in Hs as [Hc Hs]. apply negb_true_iff in Hc.
    destruct (Py.is_digit c) eqn:Hd; [|rewrite Hc in H; discriminate].
    destruct (IH _ _ Hs H) as [[u Hu] _].
    split; [|left; discriminate]. cbn [NilEmpty.uint_of_string]. rewrite Hu.
    apply digit_numeral, Hd.
Qed.

Lemma no_white_space_strip (s : string) :
  no_white_space s = true -> Py.strip (list_ascii_of_string s) = list_ascii_of_string s.
Proof.
  unfold no_white_space. intros H. apply strip_not_space.
  apply List.Forall_forall. intros c Hc. rewrite forallb_forall in H.
  apply negb_true_iff, H, Hc.
Qed.

(** A text without white space and without underscore that [int] accepts
    is a decimal numeral. *)
Lemma parse_int_base10 (text : string) (k : Z) :
  no_white_space text = true -> no_separator "_"%char text = true ->
  Py.parse_int text = Some k -> base10 text = Some k.
Proof.
  intros Hw Hu H. pose proof H as Hk. unfold Py.parse_int in H.
  rewrite (no_white_space_strip text Hw) in H.
  destruct text as [|c s]; [discriminate|]. cbn [list_ascii_of_string] in H.
  assert (Hs : no_separator "_"%char s = true).
  { unfold no_separator in *. cbn [list_ascii_of_string forallb] in Hu.
    apply andb_prop in Hu. tauto. }
  assert (Hsome : exists k', base10 (String c s) = Some k').
  { cbn [base10 NilZero.int_of_string].
    destruct (Ascii.eqb c "-"%char) eqn:Hminus.
    - apply Ascii.eqb_eq in Hminus. subst c. simpl (Ascii.eqb "-" "+").
      destruct (Py.digits 0 false (list_ascii_of_string s)) as [z|] eqn:Hz; [|discriminate].
      destruct (digits_numeral s _ _ z Hs Hz) as [[u Hu'] [Hne|Hf]]; [|discriminate].
      destruct s as [|c' s]; [congruence|]. cbn [NilZero.uint_of_string].
      rewrite Hu'. cbn. eauto.
    - destruct (Ascii.eqb c "+"%char) eqn:Hplus.
      + destruct (digits_numeral s _ _ k Hs H) as [[u Hu'] [Hne|Hf]]; [|discriminate].
        destruct s as [|c' s]; [congruence|]. cbn [NilZero.uint_of_string].
        rewrite Hu'. cbn. eauto.
      + change (c :: list_ascii_of_string s) with (list_ascii_of_string (String c s)) in H.
        destruct (digits_numeral (String c s) _ _ k Hu H) as [[u Hu'] _].
        cbn [NilZero.uint_of_string]. rewrite Hu'. cbn. eauto. }
  destruct Hsome as [k' Hk']. rewrite Hk'.
  apply parse_int_numeral in Hk'. congruence.
Qed.

(** In a valid element every property of a group, when its name has no
    white space, has a base-10 integer suffix. *)
Lemma valid_element_base10 {scalar : Type} (e : plyfile.PlyElement scalar)
    (prefix name : string) :
  valid_element e = true ->
  In prefix group_prefixes -> In name (declared e prefix) ->
  no_white_space name = true ->
  exists k, base10_suffix name = Some k.
Proof.
  unfold valid_element. intros Hv Hp Hin Hw.
  apply andb_prop in Hv as [_ Hsuf]. rewrite forallb_forall in Hsuf.
  apply filter_In in Hin as [Hin Hpre]. specialize (Hsuf name Hin).
  assert (Hg : in_group name = true).
  { unfold in_group. apply existsb_exists. eauto. }
  rewrite Hg in Hsuf. cbn [implb] in Hsuf. unfold integer_suffix in Hsuf.
  rewrite last_split_underscore in Hsuf.
  destruct (Py.parse_int (after_last_underscore name)) as [k|] eqn:Hk; [|discriminate].
  exists k. apply parse_int_base10; [|apply after_last_underscore_plain | exact Hk].
  apply after_last_underscore_chars, Hw.
Qed.

(** ** The order of the columns of a group *)

Lemma filter_narrow {A : Type} (f g : A -> bool) (l : list A) :
  (forall x, f x = true -> g x = true) ->
  List.filter f (List.filter g l) = List.filter f l.
Proof.
  intros Hfg. induction l as [|x l IH]; [reflexivity|]. cbn [List.filter].
  destruct (g x) eqn:Hg; cbn [List.filter]; rewrite IH; [reflexivity|].
  destruct (f x) eqn:Hf; [|reflexivity]. rewrite (Hfg x Hf) in Hg. discriminate.
Qed.

Lemma StronglySorted_lookup {A : Type} (R : A -> A -> Prop) (l : list A)
    (i j : nat) (a b : A) :
  StronglySorted R l -> i < j -> l !! i = Some a -> l !! j = Some b -> R a b.
Proof.
  intros Hs. revert i j. induction Hs as [|x l Hs IH Hx]; intros i j Hij Hi Hj.
  - discriminate.
  - destruct j as [|j]; [lia|]. cbn in Hj. destruct i as [|i]; cbn in Hi.
    + injection Hi as <-. rewrite List.Forall_forall in Hx.
      apply Hx, list_elem_of_In, list_elem_of_lookup. eauto.
    + apply (IH i j); [lia | assumption | assumption].
Qed.

(** What [sorted] returns on the names of a group: their base-10 integer
    suffixes ascend, and the names of one suffix keep their order. *)
Lemma sorted_by_suffix (decl names : list string) :
  Py.sorted suffix_key decl = Ok names ->
  Permutation names decl
  /\ ascending_suffixes names
  /\ ties_as_declared names decl.
Proof.
  intros Hsort. destruct (sorted_Ok _ _ _ Hsort) as (Hperm & keys & Hkeys & Hasc).
  split; [exact Hperm|]. split.
  - intros i j a b ka kb Hij Hi Hj Ha Hb.
    apply map_each_suffix_value in Hkeys. subst keys.
    apply Sorted_StronglySorted in Hasc; [|intros x y z; apply Z.le_trans].
    rewrite <- (base10_suffix_value a ka Ha), <- (base10_suffix_value b kb Hb).
    apply (StronglySorted_lookup Z.le (List.map suffix_value names) i j);
      [exact Hasc | exact Hij | |];
      rewrite list_lookup_fmap; [rewrite Hi | rewrite Hj]; reflexivity.
  - intros k.
    rewrite <- (filter_narrow (has_suffix k) (fun x => Z.eqb (suffix_value x) k) names)
      by apply has_suffix_value.
    rewrite <- (filter_narrow (has_suffix k) (fun x => Z.eqb (suffix_value x) k) decl)
      by apply has_suffix_value.
    f_equal. apply (sorted_stable suffix_key suffix_value);
      [exact suffix_key_value | exact Hsort].
Qed.

Section OrderFacts.

Context {scalar : Type}.
Variable zero : scalar.
Variable cast : scalar -> scalar.

(** A group that was captured has its columns ordered by suffix. *)
Lemma capture_group_ordered (ply : plyfile.PlyData scalar) (e : plyfile.PlyElement scalar)
    (prefix : string) (arr : np.ndarray scalar) :
  plyfile.elements0 ply = Ok e ->
  capture_group zero cast ply prefix (Ok (plyfile.count e)) = Ok arr ->
  ordered_by_suffix zero cast e prefix arr.
Proof.
  intros He Hg.
  destruct (capture_group_names zero cast ply e prefix arr He Hg)
    as (names & Hsort & Hshape & Hcols).
  destruct (sorted_by_suffix _ _ Hsort) as (Hperm & Hasc & Hties).
  exists names. split; [exact Hperm|]. split; [exact Hasc|]. split; [exact Hties|].
  split; [exact Hshape|]. intros j name Hj.
  assert (Hin : In name (plyfile.properties e)).
  { assert (Hn : In name names) by (apply list_elem_of_In, list_elem_of_lookup; eauto).
    eapply Permutation_in in Hn; [|exact Hperm]. apply filter_In in Hn. exact (proj1 Hn). }
  destruct (getitem_In zero e name Hin) as [col Hc].
  exists col. split; [exact Hc|]. exact (Hcols j name col Hj Hc).
Qed.

End OrderFacts.

(** ** Elements that hold the same columns *)

Lemma distinct_suffixes_all (names : list string) :
  distinct_suffixes names = true ->
  Forall (fun x => exists k, base10_suffix x = Some k) names.
Proof.
  induction names as [|x names IH]; [constructor|]. cbn [distinct_suffixes].
  destruct (base10_suffix x) as [k|] eqn:Hx; [|discriminate].
  intros H. apply andb_prop in H as [_ H]. constructor; eauto.
Qed.

Lemma distinct_suffixes_NoDup (names : list string) :
  distinct_suffixes names = true -> List.NoDup (List.map suffix_value names).
Proof.
  induction names as [|x names IH]; [constructor|]. cbn [distinct_suffixes List.map].
  destruct (base10_suffix x) as [k|] eqn:Hx; [|discriminate].
  intros H. apply andb_prop in H as [Hout Hrest]. apply negb_true_iff in Hout.
  constructor; [|exact (IH Hrest)].
  rewrite (base10_suffix_value x k Hx). intros Hin.
  apply in_map_iff in Hin as (y & Hy & Hin).
  pose proof (distinct_suffixes_all names Hrest) as Hall.
  rewrite List.Forall_forall in Hall. destruct (Hall y Hin) as [k' Hk'].
  rewrite (base10_suffix_value y k' Hk') in Hy. subst k'.
  assert (Hex : existsb (has_suffix k) names = true).
  { apply existsb_exists. exists y. split; [exact Hin|].
    unfold has_suffix. rewrite Hk'. apply Z.eqb_refl. }
  congruence.
Qed.

Lemma valid_element_same_properties {scalar : Type} (e e' : plyfile.PlyElement scalar) :
  Permutation (plyfile.properties e) (plyfile.properties e') ->
  valid_element e = true -> valid_element e' = true.
Proof.
  intros Hperm. unfold valid_element, has_property. intros H.
  apply andb_prop in H as [Hreq Hsuf]. rewrite forallb_forall in Hreq, Hsuf.
  apply andb_true_intro. split; apply forallb_forall.
  - intros k Hk. specialize (Hreq k Hk).
    apply existsb_exists in Hreq as (x & Hx & Heq).
    apply existsb_exists. exists x. split; [|exact Heq].
    eapply Permutation_in; eassumption.
  - intros name Hname. apply Hsuf.
    eapply Permutation_in; [symmetry; exact Hperm | exact Hname].
Qed.

Section SameColumns.

Context {scalar : Type}.
Variable zero : scalar.
Variable cast : scalar -> scalar.

(** Two runs on elements that hold the same columns give the same array in
    a group whose suffixes are pairwise distinct. *)
Lemma group_array_determined (ply ply' : plyfile.PlyData scalar)
    (e e' : plyfile.PlyElement scalar) (prefix : string) (arr arr' : np.ndarray scalar) :
  plyfile.elements0 ply = Ok e ->
  plyfile.elements0 ply' = Ok e' ->
  same_columns zero e e' ->
  distinct_suffixes (declared e prefix) = true ->
  capture_group zero cast ply prefix (Ok (plyfile.count e)) = Ok arr ->
  capture_group zero cast ply' prefix (Ok (plyfile.count e')) = Ok arr' ->
  arr' = arr.
Proof.
  intros He He' (Hperm & Hcount & Hcols) Hd Hg Hg'.
  pose proof (capture_group_Ok zero cast ply e He prefix arr Hg) as Hh.
  pose proof (capture_group_Ok zero cast ply' e' He' prefix arr' Hg') as Hh'.
  destruct (declaration_order_irrelevant zero cast e e' prefix arr arr'
              Hperm Hcount Hcols (distinct_suffixes_NoDup _ Hd) Hh Hh')
    as [Hshape Hcolumns].
  destruct (capture_group_size zero cast ply prefix _ arr Hg) as (n & m & Hn & Hs & Hl).
  destruct (capture_group_size zero cast ply' prefix _ arr' Hg') as (n' & m' & Hn' & Hs' & Hl').
  injection Hn as <-. injection Hn' as <-.
  rewrite Hs, Hs' in Hshape. injection Hshape as Hc <-.
  symmetry. apply (ndarray_ext_columns arr arr' (plyfile.count e) m); try assumption.
  - rewrite Hs', Hc. reflexivity.
  - rewrite Hl', Hc. reflexivity.
  - intros j Hj. apply (Hcolumns j m); assumption.
Qed.

End SameColumns.

(** * The claims *)

Section Claims.

Context {scalar : Type}.
Variable zero : scalar.
Variable cast : scalar -> scalar.
Variable fs : plyfile.filesystem (scalar := scalar).
Variable inherited : list string.

(** C1: [get_data] without names returns the six arrays under the keys
    [xyz], [opacities], [direct_current], [higher_order], [scaling] and
    [rotation], but the call with these six names does not return them: the
    fourth array is stored in the attribute [higher_order_shs], no attribute
    is called [higher_order], and the call raises [AttributeError] on that
    name. *)
Theorem get_data_six_names_raises (w : PlyWrapper scalar) :
  ~ In "higher_order" inherited ->
  let all_six : gmap string (value scalar) :=
    <["rotation" := VArray (rotation w)]>
      (<["scaling" := VArray (scaling w)]>
         (<["higher_order" := VArray (higher_order_shs w)]>
            (<["direct_current" := VArray (direct_current w)]>
               (<["opacities" := VArray (opacities w)]>
                  (<["xyz" := VArray (xyz w)]> ∅))))) in
  get_data inherited w None = Ok all_six
  /\ get_data inherited w (Some []) = Ok all_six
  /\ get_data inherited w (Some known_fields)
     = Raise (AttributeError "'higher_order' is not a valid attribute of PlyWrapper.").
Proof.
  intros Hout all_six. split; [reflexivity|]. split; [reflexivity|].
  change known_fields
    with (["xyz"; "opacities"; "direct_current"] ++ "higher_order" :: ["scaling"; "rotation"])%list.
  rewrite get_data_nonempty by discriminate.
  apply get_data_loop_raises.
  - repeat constructor.
  - unfold hasattr, getattr.
    rewrite (existsb_eqb_false "higher_order" inherited Hout). reflexivity.
Qed.

(** C2: with a single row the squeeze of line 63 removes the axis of the
    rows as well: [direct_current] has shape [(3,)], so its leading
    dimension is 3 while the element has one row and [xyz] has length 1. *)
Theorem one_point_direct_current_shape (src : source scalar) (w : PlyWrapper scalar)
    (e : plyfile.PlyElement scalar) :
  init zero cast fs src = Ok w ->
  plyfile.elements0 (ply_data w) = Ok e ->
  plyfile.count e = 1 ->
  np.len (xyz w) = Ok 1
  /\ np.shape (direct_current w) = [3]
  /\ np.len (direct_current w) = Ok 3.
Proof.
  intros Hinit He Hn.
  destruct (decoded_shapes zero cast fs src w e Hinit He) as (Hx & _ & Hd & _).
  rewrite Hn in Hx, Hd. simpl in Hd. unfold np.len. rewrite Hx, Hd. auto.
Qed.

(** C3, as amended: for a non-empty list of names, [get_data] raises exactly
    when some name is not an attribute of the object, and the error names the
    first such name; otherwise it returns the attribute of each requested
    name and nothing else.  The attributes include the arrays [xyz],
    [opacities], [direct_current], [scaling], [rotation], and also
    [higher_order_shs], [ply_data] and the methods of the class. *)
Theorem get_data_names (w : PlyWrapper scalar) (names : list string) :
  names <> [] ->
  (Py.raises (get_data inherited w (Some names))
   <-> Exists (fun x => hasattr inherited w x = false) names)
  /\ (forall pre bad post,
        names = (pre ++ bad :: post)%list ->
        Forall (fun x => hasattr inherited w x = true) pre ->
        hasattr inherited w bad = false ->
        get_data inherited w (Some names)
        = Raise (AttributeError ("'" ++ bad ++ "' is not a valid attribute of PlyWrapper.")))
  /\ (forall m,
        get_data inherited w (Some names) = Ok m ->
        forall k, (In k names -> m !! k = getattr inherited w k)
                  /\ (~ In k names -> m !! k = None))
  /\ getattr inherited w "xyz" = Some (VArray (xyz w))
  /\ getattr inherited w "opacities" = Some (VArray (opacities w))
  /\ getattr inherited w "direct_current" = Some (VArray (direct_current w))
  /\ getattr inherited w "scaling" = Some (VArray (scaling w))
  /\ getattr inherited w "rotation" = Some (VArray (rotation w))
  /\ getattr inherited w "higher_order_shs" = Some (VArray (higher_order_shs w))
  /\ getattr inherited w "ply_data" = Some (VPlyData (ply_data w))
  /\ Forall (fun x => getattr inherited w x = Some (VMethod x)) methods.
Proof.
  intros Hne. rewrite (get_data_nonempty inherited w names Hne).
  split; [|split; [|split]].
  - split.
    + intros Hr.
      destruct (accepted_or_rejected inherited w names) as [Hall|Hex]; [|exact Hex].
      exfalso.
      destruct (get_data_loop_total inherited w names Hall ∅) as [m Hm].
      rewrite Hm in Hr. exact Hr.
    + intros Hex.
      destruct (first_rejected inherited w names Hex) as (pre & bad & post & -> & Hpre & Hbad).
      rewrite (get_data_loop_raises inherited w pre post bad Hpre Hbad). exact I.
  - intros pre bad post -> Hpre Hbad.
    apply get_data_loop_raises; assumption.
  - intros m Hm k.
    destruct (get_data_loop_Ok inherited w names ∅ m Hm) as [_ Hk].
    destruct (Hk k) as [Hin Hout]. split; [exact Hin|].
    intros Hn. rewrite (Hout Hn). apply lookup_empty.
  - repeat split. unfold methods. repeat constructor.
Qed.

(** C4, as amended: for a value that is neither a path nor a [PlyData],
    the constructor raises [ValueError] and [matching_dimensions] raises
    [TypeError]. *)
Theorem type_mismatch_errors (v : other_value) (w : PlyWrapper scalar) :
  init zero cast fs (SOther v)
  = Raise (ValueError "Either ply_path or ply_data must be provided.")
  /\ matching_dimensions zero fs w (SOther v)
     = Raise (TypeError "The 'other' parameter must be a file path (str or Path) or a PlyData object.").
Proof. split; reflexivity. Qed.

(** C5: the constructor raises [FileNotFoundError] on a path where there is
    no file, and on an input whose first element lacks one of [x], [y],
    [z], [opacity], [f_dc_0], [f_dc_1], [f_dc_2] it raises the
    [ValueError] of the access to the first of them that is missing. *)
Theorem decode_missing_file_or_property :
  (forall p, fs p = None ->
     init zero cast fs (SPath p) = Raise (FileNotFoundError ("File not found: " ++ p)))
  /\ (forall src ply e,
        loads fs src ply ->
        plyfile.elements0 ply = Ok e ->
        (exists k, In k required_properties /\ ~ In k (plyfile.properties e)) ->
        exists k, In k required_properties /\ ~ In k (plyfile.properties e)
                  /\ init zero cast fs src = Raise (ValueError ("no field of name " ++ k))).
Proof.
  split.
  - intros p Hp. simpl. unfold plyfile.path_exists. rewrite Hp. reflexivity.
  - intros src ply e Hl He Hmiss. rewrite (init_loads zero cast fs src ply Hl).
    apply capture_data_missing; assumption.
Qed.

(** C6, as amended: in a valid input the properties of the three groups
    (those whose name has no white space, as [plyfile] requires) have a
    base-10 integer suffix, the integer written after their last
    underscore; the input decodes, and in each of [higher_order_shs],
    [scaling] and [rotation] the columns are the properties of the group,
    each once, ordered by ascending base-10 integer suffix; the properties
    of one and the same suffix, as [scale_01] and [scale_1], keep the order
    of their declaration.  So the three arrays do not depend on the order of
    the declarations when the suffixes of each group are pairwise distinct:
    an input that holds the same columns, declared in another order, decodes
    to the same three arrays. *)
Theorem group_columns_sorted (src : source scalar) (ply : plyfile.PlyData scalar)
    (e : plyfile.PlyElement scalar) :
  loads fs src ply ->
  plyfile.elements0 ply = Ok e ->
  valid_element e = true ->
  (forall prefix name,
     In prefix group_prefixes -> In name (declared e prefix) ->
     no_white_space name = true ->
     exists k, base10_suffix name = Some k)
  /\ exists w,
    init zero cast fs src = Ok w
    /\ ordered_by_suffix zero cast e "f_rest_" (higher_order_shs w)
    /\ ordered_by_suffix zero cast e "scale_" (scaling w)
    /\ ordered_by_suffix zero cast e "rot" (rotation w)
    /\ forall src' ply' e',
         loads fs src' ply' ->
         plyfile.elements0 ply' = Ok e' ->
         same_columns zero e e' ->
         Forall (fun prefix => distinct_suffixes (declared e prefix) = true)
           group_prefixes ->
         exists w',
           init zero cast fs src' = Ok w'
           /\ higher_order_shs w' = higher_order_shs w
           /\ scaling w' = scaling w
           /\ rotation w' = rotation w.
Proof.
  intros Hl He Hv. rewrite (init_loads zero cast fs src ply Hl).
  split; [intros prefix name; apply valid_element_base10; exact Hv|].
  destruct (valid_element_total zero cast ply e He Hv) as [w Hrun].
  exists w. split; [exact Hrun|].
  destruct (capture_data_groups zero cast ply e w He Hrun) as (Hf & Hs & Hr).
  split; [exact (capture_group_ordered zero cast ply e _ _ He Hf)|].
  split; [exact (capture_group_ordered zero cast ply e _ _ He Hs)|].
  split; [exact (capture_group_ordered zero cast ply e _ _ He Hr)|].
  intros src' ply' e' Hl' He' Hsame Hd.
  rewrite (init_loads zero cast fs src' ply' Hl').
  assert (Hv' : valid_element e' = true)
    by (apply (valid_element_same_properties e e'); [apply Hsame | exact Hv]).
  destruct (valid_element_total zero cast ply' e' He' Hv') as [w' Hrun'].
  exists w'. split; [exact Hrun'|].
  destruct (capture_data_groups zero cast ply' e' w' He' Hrun') as (Hf' & Hs' & Hr').
  unfold group_prefixes in Hd.
  inversion Hd as [|? ? Hdf Hd1]; subst. inversion Hd1 as [|? ? Hds Hd2]; subst.
  inversion Hd2 as [|? ? Hdr _]; subst.
  split; [|split].
  - exact (group_array_determined zero cast ply ply' e e' _ _ _ He He' Hsame Hdf Hf Hf').
  - exact (group_array_determined zero cast ply ply' e e' _ _ _ He He' Hsame Hds Hs Hs').
  - exact (group_array_determined zero cast ply ply' e e' _ _ _ He He' Hsame Hdr Hr Hr').
Qed.

(** C7: comparing a decoded wrapper with its own source does not return a
    dictionary: the first comparison reads the attribute [count] of a numpy
    array, which has none, and [matching_dimensions] raises
    [AttributeError]. *)
Theorem matching_dimensions_own_source (src : source scalar) (w : PlyWrapper scalar) :
  init zero cast fs src = Ok w ->
  matching_dimensions zero fs w src
  = Raise (AttributeError "'numpy.ndarray' object has no attribute 'count'").
Proof.
  intros Hinit. destruct (init_Ok zero cast fs src w Hinit) as [Hl Hrun].
  destruct (capture_data_first_element zero cast _ w Hrun) as [e He].
  destruct (capture_data_Ok zero cast _ e He w Hrun) as (x & _ & _ & _ & _ & _ & _ & Hx & _).
  assert (Hcol : element0_column zero (ply_data w) "x" = Ok x)
    by (rewrite (element0_column_eq zero _ e He); exact Hx).
  unfold matching_dimensions.
  assert (Hother : match src with
                   | SPath p => plyfile.read fs p
                   | SPlyData d => Ok d
                   | SOther _ =>
                       Raise (TypeError "The 'other' parameter must be a file path (str or Path) or a PlyData object.")
                   end = Ok (ply_data w)).
  { destruct src as [p|d|v]; simpl in Hl.
    - unfold plyfile.read. rewrite Hl. reflexivity.
    - rewrite Hl. reflexivity.
    - contradiction. }
  rewrite Hother. cbn [Py.bind]. unfold and_then.
  rewrite (matching_dimensions_count zero w (ply_data w) "x" x Hcol). reflexivity.
Qed.

(** C8: with a single row, [get_sh_coeffs_standardized_format] returns no
    table: [direct_current] has one axis only, and concatenating it along
    axis 1 raises. *)
Theorem one_point_table_raises (src : source scalar) (w : PlyWrapper scalar)
    (e : plyfile.PlyElement scalar) :
  init zero cast fs src = Ok w ->
  plyfile.elements0 (ply_data w) = Ok e ->
  plyfile.count e = 1 ->
  get_sh_coeffs_standardized_format w
  = Raise (AxisError "axis 1 is out of bounds for array of dimension 1").
Proof.
  intros Hinit He Hn.
  destruct (decoded_shapes zero cast fs src w e Hinit He) as (Hx & _ & Hd & _).
  rewrite Hn in Hx, Hd. simpl in Hd.
  unfold get_sh_coeffs_standardized_format, np.iter, np.concatenate_axis1.
  rewrite Hx, Hd. reflexivity.
Qed.

(** C10: a valid input decodes, and its rotation array has exactly one
    column for every property whose name starts with [rot], whatever follows
    these three letters, holding the entries of that property; and the
    constructor raises [ValueError] when a property whose name starts with
    [f_rest_], [scale_] or [rot] has, after its last underscore, a text that
    [int] rejects. *)
Theorem rot_prefix_and_bad_suffix (src : source scalar) (ply : plyfile.PlyData scalar)
    (e : plyfile.PlyElement scalar) :
  loads fs src ply ->
  plyfile.elements0 ply = Ok e ->
  (valid_element e = true ->
   exists w names,
     init zero cast fs src = Ok w
     /\ Permutation names (declared e "rot")
     /\ columns_of zero cast e names (rotation w)
     /\ forall name,
          In name (plyfile.properties e) -> String.prefix "rot" name = true ->
          exists j col,
            names !! j = Some name
            /\ plyfile.getitem zero e name = Ok col
            /\ np.column (rotation w) j = List.map (fun v => Some (cast v)) (np.flat col))
  /\ (forall prefix name,
        In prefix group_prefixes ->
        In name (plyfile.properties e) ->
        String.prefix prefix name = true ->
        Py.parse_int (after_last_underscore name) = None ->
        exists msg, init zero cast fs src = Raise (ValueError msg)).
Proof.
  intros Hl He. rewrite (init_loads zero cast fs src ply Hl). split.
  - intros Hv. destruct (valid_element_total zero cast ply e He Hv) as [w Hrun].
    destruct (capture_data_groups zero cast ply e w He Hrun) as (_ & _ & Hr).
    destruct (capture_group_ordered zero cast ply e _ _ He Hr)
      as (names & Hperm & _ & _ & Hcols).
    exists w, names. split; [exact Hrun|]. split; [exact Hperm|]. split; [exact Hcols|].
    intros name Hin Hpre.
    assert (Hn : In name names).
    { eapply Permutation_in; [symmetry; exact Hperm|].
      apply filter_In. split; assumption. }
    apply list_elem_of_In, list_elem_of_lookup in Hn as [j Hj].
    destruct Hcols as [_ Hcols]. destruct (Hcols j name Hj) as (col & Hc & Hcol).
    exists j, col. auto.
  - intros prefix name Hp Hin Hpre Hbad.
    assert (Hr : Py.raises (capture_data zero cast ply)).
    { apply (capture_data_bad_suffix zero cast ply e He prefix name Hp Hin Hpre).
      unfold suffix_key, Py.int. rewrite last_split_underscore, Hbad. exact I. }
    destruct (capture_data zero cast ply) as [w|err] eqn:Hrun; [destruct Hr|].
    destruct (capture_data_Raise zero cast ply e err He Hrun)
      as [(k & _ & _ & ->)|(bad & _ & _ & Hkey)]; [eauto|].
    destruct (suffix_key_raise bad err Hkey) as [msg ->]. eauto.
Qed.

(** C9: the decoder reads the first element only.  Two inputs with the same
    first element, whatever their other elements, give the same six arrays
    or the same error, the same table, and the same answers of
    [matching_dimensions], on either side of the comparison. *)
Theorem other_elements_ignored (e : plyfile.PlyElement scalar)
    (rest rest' : list (plyfile.PlyElement scalar)) (src src' : source scalar) :
  loads fs src (plyfile.mk_PlyData (e :: rest)) ->
  loads fs src' (plyfile.mk_PlyData (e :: rest')) ->
  match init zero cast fs src, init zero cast fs src' with
  | Ok w, Ok w' =>
      arrays w = arrays w'
      /\ get_sh_coeffs_standardized_format w = get_sh_coeffs_standardized_format w'
      /\ forall other,
           matching_dimensions zero fs w other = matching_dimensions zero fs w' other
  | Raise err, Raise err' => err = err'
  | _, _ => False
  end
  /\ forall self,
       matching_dimensions zero fs self (SPlyData (plyfile.mk_PlyData (e :: rest)))
       = matching_dimensions zero fs self (SPlyData (plyfile.mk_PlyData (e :: rest'))).
Proof.
  intros Hl Hl'.
  assert (Hsame : plyfile.elements0 (plyfile.mk_PlyData (e :: rest))
                  = plyfile.elements0 (plyfile.mk_PlyData (e :: rest'))) by reflexivity.
  rewrite (init_loads zero cast fs src _ Hl), (init_loads zero cast fs src' _ Hl').
  rewrite (capture_data_ext zero cast _ _ Hsame). split.
  - destruct (capture_data zero cast (plyfile.mk_PlyData (e :: rest))) as [w|err] eqn:Hrun;
      cbn [Py.bind]; [|reflexivity].
    split; [reflexivity|]. split; [reflexivity|].
    intros other. unfold matching_dimensions.
    destruct (match other with
              | SPath q => plyfile.read fs q
              | SPlyData d => Ok d
              | SOther _ => _
              end) as [o|]; cbn [Py.bind]; [|reflexivity].
    rewrite !(same_count_ext zero _ _ Hsame w
                (mk_PlyWrapper (plyfile.mk_PlyData (e :: rest')) (xyz w) (opacities w)
                   (direct_current w) (higher_order_shs w) (scaling w) (rotation w))
                o _ (capture_data_ply_data zero cast _ w Hrun) eq_refl).
    reflexivity.
  - intros self. unfold matching_dimensions. cbn [Py.bind].
    rewrite !(same_count_other_ext zero _ _ Hsame self). reflexivity.
Qed.

End Claims.

(** * Further properties of the decoder *)

Section Further.

Context {scalar : Type}.
Variable zero : scalar.
Variable cast : scalar -> scalar.
Variable fs : plyfile.filesystem (scalar := scalar).

(** X1: the constructor returns exactly on the sources whose first element
    is valid: it has the seven properties read by name, and every property
    of the groups [f_rest_], [scale_], [rot] ends with an integer. *)
Theorem decode_succeeds_iff_valid (src : source scalar) (ply : plyfile.PlyData scalar)
    (e : plyfile.PlyElement scalar) :
  loads fs src ply ->
  plyfile.elements0 ply = Ok e ->
  ((exists w, init zero cast fs src = Ok w) <-> valid_element e = true).
Proof.
  intros Hl He. rewrite (init_loads zero cast fs src ply Hl). split.
  - intros [w Hw]. exact (decoded_is_valid zero cast ply e He w Hw).
  - apply valid_element_total. exact He.
Qed.

(** X2: on a source that loads, the constructor raises only two kinds of
    error: the [IndexError] of the index 0 into an empty tuple when the file
    has no element, and [ValueError] when its first element is not valid. *)
Theorem decode_errors (src : source scalar) (ply : plyfile.PlyData scalar) (err : exn) :
  loads fs src ply ->
  init zero cast fs src = Raise err ->
  (plyfile.elements ply = [] /\ err = IndexError "tuple index out of range")
  \/ (exists e msg, plyfile.elements0 ply = Ok e /\ valid_element e = false
                    /\ err = ValueError msg).
Proof.
  intros Hl. rewrite (init_loads zero cast fs src ply Hl). intros Hrun.
  destruct (plyfile.elements ply) as [|e rest] eqn:Hel.
  - left. split; [reflexivity|].
    unfold capture_data, capture_xyz, element0_column, plyfile.elements0 in Hrun.
    rewrite Hel in Hrun. cbn [Py.bind] in Hrun. congruence.
  - right. assert (He : plyfile.elements0 ply = Ok e)
      by (unfold plyfile.elements0; rewrite Hel; reflexivity).
    exists e.
    assert (Hv : valid_element e = false).
    { destruct (valid_element e) eqn:Hv; [|reflexivity].
      destruct (valid_element_total zero cast ply e He Hv) as [w Hw]. congruence. }
    destruct (capture_data_Raise zero cast ply e err He Hrun)
      as [(k & _ & _ & ->)|(name & _ & _ & Hname)].
    + eauto.
    + destruct (suffix_key_raise name err Hname) as [msg ->]. eauto.
Qed.

(** X3: the shapes of the six arrays of an element of [n] rows: [(n, 3)]
    for [xyz], [(n, 1)] for [opacities], [(n, 3)] for [direct_current]
    unless [n = 1], where it is [(3,)], and [n] rows with one column per
    property of the prefix for the three groups. *)
Theorem decoded_array_shapes (src : source scalar) (w : PlyWrapper scalar)
    (e : plyfile.PlyElement scalar) :
  init zero cast fs src = Ok w ->
  plyfile.elements0 (ply_data w) = Ok e ->
  let n := plyfile.count e in
  let columns prefix :=
    length (List.filter (String.prefix prefix) (plyfile.properties e)) in
  np.shape (xyz w) = [n; 3]
  /\ np.shape (opacities w) = [n; 1]
  /\ np.shape (direct_current w) = (if Nat.eqb n 1 then [3] else [n; 3])
  /\ np.shape (higher_order_shs w) = [n; columns "f_rest_"]
  /\ np.shape (scaling w) = [n; columns "scale_"]
  /\ np.shape (rotation w) = [n; columns "rot"].
Proof.
  intros Hinit He n columns. apply init_Ok in Hinit as [_ Hrun].
  destruct (capture_data_Ok zero cast _ e He w Hrun)
    as (x & y & z & op & f0 & f1 & f2 & _ & _ & _ & _ & _ & _ & _ & _
        & -> & -> & -> & Hf & Hs & Hr).
  destruct Hf as (fn & ? & Hfp & _ & _ & -> & _).
  destruct Hs as (sn & ? & Hsp & _ & _ & -> & _).
  destruct Hr as (rn & ? & Hrp & _ & _ & -> & _).
  unfold columns.
  rewrite <- (Permutation_length Hfp), <- (Permutation_length Hsp),
    <- (Permutation_length Hrp).
  cbn. fold n. destruct (Nat.eqb n 1); cbn; auto 10.
Qed.

Lemma group_arrays_equal (e e' : plyfile.PlyElement scalar) (prefix : string)
    (arr arr' : np.ndarray scalar) :
  Permutation (plyfile.properties e) (plyfile.properties e') ->
  plyfile.count e = plyfile.count e' ->
  (forall name, In name (plyfile.properties e) ->
                plyfile.getitem zero e name = plyfile.getitem zero e' name) ->
  List.NoDup (List.map suffix_value
                (List.filter (String.prefix prefix) (plyfile.properties e))) ->
  holds_group zero cast e prefix arr ->
  holds_group zero cast e' prefix arr' ->
  (exists n m, np.shape arr = [n; m] /\ length (np.flat arr) = n * m) ->
  (exists n m, np.shape arr' = [n; m] /\ length (np.flat arr') = n * m) ->
  arr = arr'.
Proof.
  intros Hperm Hcount Hcols Hnd Hg Hg' (n & m & Hs & Hl) (n' & m' & Hs' & Hl').
  destruct (declaration_order_irrelevant zero cast e e' prefix arr arr'
              Hperm Hcount Hcols Hnd Hg Hg') as [Hshape Hcolumns].
  assert (Hn : n = plyfile.count e).
  { destruct Hg as (? & ? & _ & _ & _ & Hsh & _). congruence. }
  subst n. rewrite Hs, Hs' in Hshape. injection Hshape as <- <-.
  apply (ndarray_ext_columns arr arr' (plyfile.count e) m); try assumption.
  intros j Hj. apply (Hcolumns j m); assumption.
Qed.

(** X5: two inputs that hold the same columns, declared in different
    orders, decode to the same six arrays when, in each of the three
    groups, the integer suffixes are pairwise distinct. *)
Theorem decode_declaration_order (src src' : source scalar) (w w' : PlyWrapper scalar)
    (e e' : plyfile.PlyElement scalar) :
  init zero cast fs src = Ok w ->
  init zero cast fs src' = Ok w' ->
  plyfile.elements0 (ply_data w) = Ok e ->
  plyfile.elements0 (ply_data w') = Ok e' ->
  Permutation (plyfile.properties e) (plyfile.properties e') ->
  plyfile.count e = plyfile.count e' ->
  Forall (fun name => plyfile.getitem zero e name = plyfile.getitem zero e' name)
    (plyfile.properties e) ->
  Forall (fun prefix =>
            List.NoDup (List.map suffix_value
                          (List.filter (String.prefix prefix) (plyfile.properties e))))
    group_prefixes ->
  arrays w = arrays w'.
Proof.
  intros Hinit Hinit' He He' Hperm Hcount Hcols Hnd.
  apply init_Ok in Hinit as [_ Hrun]. apply init_Ok in Hinit' as [_ Hrun'].
  rewrite List.Forall_forall in Hcols.
  pose proof (capture_data_group_sizes zero cast _ w Hrun) as Hsz.
  pose proof (capture_data_group_sizes zero cast _ w' Hrun') as Hsz'.
  destruct (capture_data_Ok zero cast _ e He w Hrun)
    as (x & y & z & op & f0 & f1 & f2 & Hx & Hy & Hz & Hop & H0 & H1 & H2 & _
        & Hxyz & Hops & Hdc & Hf & Hs & Hr).
  destruct (capture_data_Ok zero cast _ e' He' w' Hrun')
    as (x' & y' & z' & op' & f0' & f1' & f2' & Hx' & Hy' & Hz' & Hop' & H0' & H1' & H2' & _
        & Hxyz' & Hops' & Hdc' & Hf' & Hs' & Hr').
  assert (Hsame : forall key c c',
            plyfile.getitem zero e key = Ok c -> plyfile.getitem zero e' key = Ok c' -> c = c').
  { intros key c c' Hc Hc'.
    destruct (getitem_Ok zero e key c Hc) as (Hin & _).
    rewrite (Hcols key Hin) in Hc. congruence. }
  rewrite (Hsame _ _ _ Hx Hx'), (Hsame _ _ _ Hy Hy'), (Hsame _ _ _ Hz Hz') in Hxyz.
  rewrite (Hsame _ _ _ Hop Hop') in Hops.
  rewrite (Hsame _ _ _ H0 H0'), (Hsame _ _ _ H1 H1'), (Hsame _ _ _ H2 H2') in Hdc.
  rewrite Hcount in Hxyz, Hops, Hdc.
  unfold group_prefixes in Hnd.
  inversion Hnd as [|? ? Hndf Hnd1]; subst.
  inversion Hnd1 as [|? ? Hnds Hnd2]; subst.
  inversion Hnd2 as [|? ? Hndr _]; subst.
  inversion Hsz as [|? ? Zf Hsz1]; subst. inversion Hsz1 as [|? ? Zs Hsz2]; subst.
  inversion Hsz2 as [|? ? Zr _]; subst.
  inversion Hsz' as [|? ? Zf' Hsz1']; subst. inversion Hsz1' as [|? ? Zs' Hsz2']; subst.
  inversion Hsz2' as [|? ? Zr' _]; subst.
  unfold arrays.
  rewrite Hxyz, Hxyz', Hops, Hops', Hdc, Hdc'.
  rewrite (group_arrays_equal e e' "f_rest_" _ _ Hperm Hcount Hcols Hndf Hf Hf' Zf Zf').
  rewrite (group_arrays_equal e e' "scale_" _ _ Hperm Hcount Hcols Hnds Hs Hs' Zs Zs').
  rewrite (group_arrays_equal e e' "rot" _ _ Hperm Hcount Hcols Hndr Hr Hr' Zr Zr').
  reflexivity.
Qed.

Lemma capture_group_stable (ply : plyfile.PlyData scalar) (e : plyfile.PlyElement scalar)
    (prefix : string) (arr : np.ndarray scalar) :
  plyfile.elements0 ply = Ok e ->
  capture_group zero cast ply prefix (Ok (plyfile.count e)) = Ok arr ->
  holds_group_stably zero cast e prefix arr.
Proof.
  intros He Hg.
  destruct (capture_group_names zero cast ply e prefix arr He Hg)
    as (names & Hsort & Hshape & Hcols).
  exists names. split; [exact Hshape|]. split; [exact Hcols|].
  apply (sorted_stable suffix_key suffix_value); [exact suffix_key_value | exact Hsort].
Qed.

(** X6: the sort by suffix is stable.  In each of the three group arrays,
    the properties of one and the same integer suffix (as [scale_1] and
    [scale_01]) have their columns in the order of their declaration. *)
Theorem equal_suffixes_keep_declaration_order (src : source scalar)
    (w : PlyWrapper scalar) (e : plyfile.PlyElement scalar) :
  init zero cast fs src = Ok w ->
  plyfile.elements0 (ply_data w) = Ok e ->
  holds_group_stably zero cast e "f_rest_" (higher_order_shs w)
  /\ holds_group_stably zero cast e "scale_" (scaling w)
  /\ holds_group_stably zero cast e "rot" (rotation w).
Proof.
  intros Hinit He. apply init_Ok in Hinit as [_ Hrun].
  destruct (capture_data_groups zero cast _ e w He Hrun) as (Hf & Hs & Hr).
  repeat split; eapply capture_group_stable; eassumption.
Qed.


(** X8: [get_dims] of a decoded wrapper gives the shapes [(n, 3)] for
    [xyz], [(n, 1)] for [opacities] and, for [direct_current], [(n, 3)]
    or, with a single row, [(3,)]; it has no other key. *)
Theorem get_dims_decoded (src : source scalar) (w : PlyWrapper scalar)
    (e : plyfile.PlyElement scalar) :
  init zero cast fs src = Ok w ->
  plyfile.elements0 (ply_data w) = Ok e ->
  get_dims w
  = <["direct_current" := if Nat.eqb (plyfile.count e) 1 then [3] else [plyfile.count e; 3]]>
      (<["opacities" := [plyfile.count e; 1]]>
         (<["xyz" := [plyfile.count e; 3]]> ∅)).
Proof.
  intros Hinit He.
  destruct (decoded_shapes zero cast fs src w e Hinit He) as (Hx & Ho & Hd & _).
  unfold get_dims. rewrite Hx, Ho, Hd. cbn.
  destruct (Nat.eqb (plyfile.count e) 1); reflexivity.
Qed.

(** X10: the points keep their order and their values.  Row [i] of [xyz] is
    the position of row [i] of the element, entry [i] of [opacities] is its
    opacity, both as they are in the element, and row [i] of
    [direct_current] holds its three [f_dc] coefficients, converted; this
    holds with a single row too, where [direct_current] is that row. *)
Theorem decoded_entries (src : source scalar) (w : PlyWrapper scalar)
    (e : plyfile.PlyElement scalar) :
  init zero cast fs src = Ok w ->
  plyfile.elements0 (ply_data w) = Ok e ->
  forall i,
    (forall a b c,
       entry zero e "x" i = Some a -> entry zero e "y" i = Some b ->
       entry zero e "z" i = Some c ->
       np.block 3 i (np.flat (xyz w)) = [a; b; c])
    /\ np.flat (opacities w) !! i = entry zero e "opacity" i
    /\ (forall a b c,
          entry zero e "f_dc_0" i = Some a -> entry zero e "f_dc_1" i = Some b ->
          entry zero e "f_dc_2" i = Some c ->
          np.block 3 i (np.flat (direct_current w)) = [cast a; cast b; cast c]).
Proof.
  intros Hinit He i. apply init_Ok in Hinit as [_ Hrun].
  destruct (capture_data_Ok zero cast _ e He w Hrun)
    as (x & y & z & op & f0 & f1 & f2 & Hx & Hy & Hz & Hop & H0 & H1 & H2 & _
        & -> & -> & -> & _).
  destruct (getitem_Ok zero e _ x Hx) as (_ & _ & Lx).
  destruct (getitem_Ok zero e _ y Hy) as (_ & _ & Ly).
  destruct (getitem_Ok zero e _ z Hz) as (_ & _ & Lz).
  destruct (getitem_Ok zero e _ f0 H0) as (_ & _ & L0).
  cbn [np.flat np.squeeze]. split; [|split].
  - intros a b c Ha Hb Hc.
    rewrite (entry_getitem zero e _ x i Hx) in Ha.
    rewrite (entry_getitem zero e _ y i Hy) in Hb.
    rewrite (entry_getitem zero e _ z i Hz) in Hc.
    apply xyz_row; assumption.
  - rewrite (entry_getitem zero e _ op i Hop). reflexivity.
  - intros a b c Ha Hb Hc.
    rewrite (entry_getitem zero e _ f0 i H0) in Ha.
    rewrite (entry_getitem zero e _ f1 i H1) in Hb.
    rewrite (entry_getitem zero e _ f2 i H2) in Hc.
    apply direct_current_row; try assumption.
    apply lookup_lt_Some in Ha. lia.
Qed.

End Further.

(** X11: the dictionary of [get_data] depends on the set of the requested
    names only, not on their order nor on repetitions: two non-empty lists
    of attribute names with the same members give the same dictionary. *)
Theorem get_data_depends_on_name_set {scalar : Type} (inherited : list string)
    (w : PlyWrapper scalar) (names names' : list string) :
  names <> [] -> names' <> [] ->
  (forall k, In k names <-> In k names') ->
  Forall (fun x => hasattr inherited w x = true) names ->
  exists m, get_data inherited w (Some names) = Ok m
            /\ get_data inherited w (Some names') = Ok m.
Proof.
  intros Hne Hne' Hsame Hall.
  assert (Hall' : Forall (fun x => hasattr inherited w x = true) names').
  { rewrite List.Forall_forall in Hall. apply List.Forall_forall.
    intros x Hx. apply Hall, Hsame, Hx. }
  rewrite (get_data_nonempty inherited w names Hne).
  rewrite (get_data_nonempty inherited w names' Hne').
  destruct (get_data_loop_total inherited w names Hall ∅) as [m Hm].
  destruct (get_data_loop_total inherited w names' Hall' ∅) as [m' Hm'].
  exists m. split; [exact Hm|]. rewrite Hm'. f_equal. apply map_eq. intros k.
  destruct (get_data_loop_Ok inherited w names ∅ m Hm) as [_ Hk].
  destruct (get_data_loop_Ok inherited w names' ∅ m' Hm') as [_ Hk'].
  destruct (Hk k) as [Hin Hout]. destruct (Hk' k) as [Hin' Hout'].
  destruct (in_dec string_dec k names) as [Hi|Hn].
  - rewrite (Hin Hi). apply Hin', Hsame, Hi.
  - rewrite (Hout Hn). apply Hout'. intros Hi'. apply Hn, Hsame, Hi'.
Qed.

(** X9: the sort key of a property is the integer written after its last
    underscore, whatever comes before: a name that ends with an underscore
    and a text [b] without underscore has the key [int(b)], and so has a
    name [b] without any underscore. *)
Theorem suffix_key_after_last_underscore (a b : string) :
  no_separator "_"%char b = true ->
  suffix_key (a ++ String "_"%char b) = Py.int b
  /\ suffix_key b = Py.int b.
Proof.
  intros Hb. unfold suffix_key, Py.last_item.
  rewrite split_app, (split_no_separator _ b Hb).
  rewrite List.last_last. split; reflexivity.
Qed.

(** * The claims on the sample inputs *)

Ltac not_in_list :=
  let H := fresh in
  intros H; simpl in H;
  repeat (destruct H as [H|H]; [discriminate H|]); exact H.

(** Two sample elements hold the same entries under each of their names. *)
Ltac same_entries :=
  let name := fresh "name" in
  let H := fresh in
  intros name H; simpl in H;
  repeat (destruct H as [<-|H]; [reflexivity|]); destruct H.

(** The spec's scenario: three points with nine [f_rest], three [scale] and
    four [rot] properties. *)
Example scenario_shapes :
  exists w, Samples.decode (SPlyData Samples.scenario) = Ok w
            /\ np.shape (xyz w) = [3; 3]
            /\ np.shape (higher_order_shs w) = [3; 9]
            /\ np.shape (scaling w) = [3; 3]
            /\ np.shape (rotation w) = [3; 4].
Proof. eexists. split; [vm_compute; reflexivity|]. repeat split. Qed.

(** Properties declared as [scale_2], [scale_0], [scale_1] (the columns 9,
    10 and 11 of the sample) come out as [scale_0], [scale_1], [scale_2]. *)
Example scales_declared_out_of_order :
  np.column (scaling Samples.two_points) 0 = [Some 110%Z; Some 210%Z]
  /\ np.column (scaling Samples.two_points) 1 = [Some 111%Z; Some 211%Z]
  /\ np.column (scaling Samples.two_points) 2 = [Some 109%Z; Some 209%Z].
Proof. repeat split. Qed.

(** A property [rotor_0] is taken for a rotation, and sorts before [rot_1]. *)
Example rotor_is_collected :
  exists w, Samples.decode (SPlyData Samples.rotor) = Ok w
            /\ np.shape (rotation w) = [2; 2]
            /\ np.column (rotation w) 0 = [Some 9%Z; Some 19%Z]
            /\ np.column (rotation w) 1 = [Some 8%Z; Some 18%Z].
Proof. eexists. split; [vm_compute; reflexivity|]. repeat split. Qed.

(** The same two points with the properties declared in their order decode
    to the same six arrays. *)
Example declared_in_order_or_not :
  exists w, Samples.decode (SPlyData (plyfile.mk_PlyData [Samples.vertex_in_order])) = Ok w
            /\ arrays w = arrays Samples.two_points.
Proof. eexists. split; [vm_compute; reflexivity | reflexivity]. Qed.

(** The table of two points. *)
Example table_of_two_points :
  get_sh_coeffs_standardized_format Samples.two_points
  = Ok (mk_DataFrame ["x"; "y"; "z"]
          [[100%Z; 101%Z; 102%Z]; [200%Z; 201%Z; 202%Z]]
          (np.mk_ndarray [2; 5]
             [104%Z; 105%Z; 106%Z; 108%Z; 107%Z;
              204%Z; 205%Z; 206%Z; 208%Z; 207%Z])).
Proof. reflexivity. Qed.

(** Two points at the same position keep their two rows, under the same key. *)
Example coincident_points_keep_their_rows :
  exists w df,
    Samples.decode (SPlyData Samples.twins) = Ok w
    /\ get_sh_coeffs_standardized_format w = Ok df
    /\ index df = [[1%Z; 2%Z; 3%Z]; [1%Z; 2%Z; 3%Z]]
    /\ np.rows (values df) = [[5%Z; 6%Z; 7%Z; 8%Z]; [15%Z; 16%Z; 17%Z; 18%Z]].
Proof.
  eexists. eexists. split; [vm_compute; reflexivity|].
  split; [vm_compute; reflexivity|]. split; reflexivity.
Qed.

(** The empty call returns the six arrays by value. *)
Example get_data_default_keys :
  forall m, get_data Samples.inherited Samples.two_points None = Ok m ->
            m !! "higher_order" = Some (VArray (higher_order_shs Samples.two_points))
            /\ m !! "higher_order_shs" = None.
Proof.
  intros m Hm. unfold get_data in Hm. injection Hm as <-.
  split; [|reflexivity].
  rewrite lookup_insert_ne by discriminate.
  rewrite lookup_insert_ne by discriminate.
  apply lookup_insert_eq.
Qed.

Lemma get_data_six_names_raises_witness :
  ~ In "higher_order" Samples.inherited
  /\ get_data Samples.inherited Samples.two_points (Some known_fields)
     = Raise (AttributeError "'higher_order' is not a valid attribute of PlyWrapper.").
Proof.
  split; [not_in_list|].
  apply (get_data_six_names_raises Samples.inherited Samples.two_points).
  not_in_list.
Defined.

Lemma one_point_direct_current_shape_witness :
  Samples.decode (SPlyData (Samples.cloud 1)) = Ok Samples.one_point
  /\ plyfile.elements0 (ply_data Samples.one_point) = Ok (Samples.vertex 1)
  /\ plyfile.count (Samples.vertex 1) = 1
  /\ np.len (xyz Samples.one_point) = Ok 1
  /\ np.shape (direct_current Samples.one_point) = [3]
  /\ np.len (direct_current Samples.one_point) = Ok 3.
Proof.
  split; [reflexivity|]. split; [reflexivity|]. split; [reflexivity|].
  apply (one_point_direct_current_shape 0%Z (fun v => v) Samples.fs
           (SPlyData (Samples.cloud 1)) Samples.one_point (Samples.vertex 1));
    reflexivity.
Defined.

(** C3, as stated, fails: [ply_data] is none of the six fields, and
    [get_data] returns it. *)
Lemma get_data_accepts_ply_data :
  ~ (forall names : list string,
       names <> [] ->
       (Py.raises (get_data Samples.inherited Samples.two_points (Some names))
        <-> exists x, In x names /\ ~ In x known_fields)).
Proof.
  intros H. specialize (H ["ply_data"]).
  destruct H as [_ H]; [discriminate|].
  assert (Hr : Py.raises (get_data Samples.inherited Samples.two_points (Some ["ply_data"]))).
  { apply H. exists "ply_data". split; [left; reflexivity | not_in_list]. }
  destruct (get_data_loop_total Samples.inherited Samples.two_points ["ply_data"]) with (acc := (∅ : gmap string (value Z)))
    as [m Hm].
  { repeat constructor. }
  change (get_data Samples.inherited Samples.two_points (Some ["ply_data"]))
    with (Py.for_each (get_data_body Samples.inherited Samples.two_points) ["ply_data"] ∅) in Hr.
  rewrite Hm in Hr. exact Hr.
Qed.

Lemma get_data_names_witness :
  ["xyz"; "scaling"] <> []
  /\ forall m,
       get_data Samples.inherited Samples.two_points (Some ["xyz"; "scaling"]) = Ok m ->
       m !! "xyz" = Some (VArray (xyz Samples.two_points))
       /\ m !! "opacities" = None.
Proof.
  split; [discriminate|]. intros m Hm.
  destruct (get_data_names Samples.inherited Samples.two_points ["xyz"; "scaling"])
    as (_ & _ & Hsub & _); [discriminate|].
  split.
  - apply (Hsub m Hm "xyz"). left. reflexivity.
  - apply (Hsub m Hm "opacities"). not_in_list.
Defined.

(** C4, as stated, fails: on [None] the two operations raise errors of
    different classes. *)
Lemma type_mismatch_classes_differ :
  ~ (exists c : string,
       (exists err, Samples.decode (SOther PyNone) = Raise err /\ class_of err = c)
       /\ (exists err, matching_dimensions 0%Z Samples.fs Samples.two_points (SOther PyNone)
                       = Raise err /\ class_of err = c)).
Proof.
  intros (c & (e1 & H1 & C1) & (e2 & H2 & C2)).
  unfold Samples.decode, init in H1. unfold matching_dimensions in H2.
  cbn [Py.bind] in H2.
  injection H1 as <-. injection H2 as <-. simpl in C1, C2. congruence.
Qed.

Lemma decode_missing_file_or_property_witness :
  Samples.decode (SPath "/nonexistent/path.ply")
  = Raise (FileNotFoundError "File not found: /nonexistent/path.ply")
  /\ exists k, In k required_properties
               /\ Samples.decode (SPlyData Samples.no_opacity)
                  = Raise (ValueError ("no field of name " ++ k)).
Proof.
  destruct (decode_missing_file_or_property 0%Z (fun v => v) Samples.fs) as [Hfile Hprop].
  split.
  - apply (Hfile "/nonexistent/path.ply"). reflexivity.
  - destruct (Hprop (SPlyData Samples.no_opacity) Samples.no_opacity
                (plyfile.mk_PlyElement "vertex" ["x"; "y"; "z"; "f_dc_0"; "f_dc_1"; "f_dc_2"]
                   [[1%Z; 2%Z; 3%Z; 4%Z; 5%Z; 6%Z]]))
      as (k & Hk & _ & Hr).
    + reflexivity.
    + reflexivity.
    + exists "opacity". split; [simpl; auto 10 | not_in_list].
    + exists k. split; assumption.
Defined.

(** C6, as stated, fails: [scale_01] and [scale_1] have the same integer
    suffix, and two inputs that hold the same columns, with these two
    declared in the one and in the other order, decode to different
    [scaling] arrays. *)
Lemma equal_suffixes_follow_declaration :
  ~ (forall (e e' : plyfile.PlyElement Z) (w w' : PlyWrapper Z),
       valid_element e = true ->
       valid_element e' = true ->
       same_columns 0%Z e e' ->
       Samples.decode (SPlyData (plyfile.mk_PlyData [e])) = Ok w ->
       Samples.decode (SPlyData (plyfile.mk_PlyData [e'])) = Ok w' ->
       scaling w = scaling w').
Proof.
  intros H.
  specialize (H Samples.padded_vertex Samples.padded_swapped_vertex
                Samples.padded_wrapper Samples.padded_swapped_wrapper
                eq_refl eq_refl).
  assert (Hsame : same_columns 0%Z Samples.padded_vertex Samples.padded_swapped_vertex).
  { split; [|split; [reflexivity | same_entries]].
    apply (bool_decide_unpack _). vm_compute. exact I. }
  specialize (H Hsame eq_refl eq_refl). vm_compute in H. discriminate H.
Qed.

Lemma group_columns_sorted_witness :
  loads Samples.fs (SPlyData (Samples.cloud 2)) (Samples.cloud 2)
  /\ plyfile.elements0 (Samples.cloud 2) = Ok (Samples.vertex 2)
  /\ valid_element (Samples.vertex 2) = true
  /\ same_columns 0%Z (Samples.vertex 2) Samples.vertex_in_order
  /\ Forall (fun prefix => distinct_suffixes (declared (Samples.vertex 2) prefix) = true)
       group_prefixes
  /\ no_white_space "scale_2" = true
  /\ (exists k, base10_suffix "scale_2" = Some k)
  /\ exists w,
       Samples.decode (SPlyData (Samples.cloud 2)) = Ok w
       /\ ordered_by_suffix 0%Z (fun v => v) (Samples.vertex 2) "f_rest_" (higher_order_shs w)
       /\ ordered_by_suffix 0%Z (fun v => v) (Samples.vertex 2) "scale_" (scaling w)
       /\ ordered_by_suffix 0%Z (fun v => v) (Samples.vertex 2) "rot" (rotation w)
       /\ np.column (scaling w) 0 = [Some 110%Z; Some 210%Z]
       /\ np.column (scaling w) 1 = [Some 111%Z; Some 211%Z]
       /\ np.column (scaling w) 2 = [Some 109%Z; Some 209%Z]
       /\ exists w',
            Samples.decode (SPlyData (plyfile.mk_PlyData [Samples.vertex_in_order])) = Ok w'
            /\ higher_order_shs w' = higher_order_shs w
            /\ scaling w' = scaling w
            /\ rotation w' = rotation w.
Proof.
  assert (Hsame : same_columns 0%Z (Samples.vertex 2) Samples.vertex_in_order).
  { split; [|split; [reflexivity | same_entries]].
    apply (bool_decide_unpack _). vm_compute. exact I. }
  assert (Hd : Forall (fun prefix =>
                         distinct_suffixes (declared (Samples.vertex 2) prefix) = true)
                 group_prefixes)
    by (repeat constructor).
  split; [reflexivity|]. split; [reflexivity|]. split; [reflexivity|].
  split; [exact Hsame|]. split; [exact Hd|]. split; [reflexivity|].
  destruct (group_columns_sorted 0%Z (fun v => v) Samples.fs
              (SPlyData (Samples.cloud 2)) (Samples.cloud 2) (Samples.vertex 2)
              eq_refl eq_refl eq_refl)
    as (Hnum & w & Hw & Hf & Hs & Hr & Hother).
  split.
  { apply (Hnum "scale_" "scale_2"); [simpl; auto | simpl; auto 10 | reflexivity]. }
  exists w. split; [exact Hw|]. split; [exact Hf|]. split; [exact Hs|].
  split; [exact Hr|].
  assert (Hcols : np.column (scaling w) 0 = [Some 110%Z; Some 210%Z]
                  /\ np.column (scaling w) 1 = [Some 111%Z; Some 211%Z]
                  /\ np.column (scaling w) 2 = [Some 109%Z; Some 209%Z]).
  { vm_compute in Hw. injection Hw as <-. repeat split. }
  destruct Hcols as (H0 & H1 & H2).
  split; [exact H0|]. split; [exact H1|]. split; [exact H2|].
  exact (Hother (SPlyData (plyfile.mk_PlyData [Samples.vertex_in_order]))
           (plyfile.mk_PlyData [Samples.vertex_in_order]) Samples.vertex_in_order
           eq_refl eq_refl Hsame Hd).
Defined.

Lemma matching_dimensions_own_source_witness :
  Samples.decode (SPath "cloud.ply") = Ok Samples.two_points
  /\ matching_dimensions 0%Z Samples.fs Samples.two_points (SPath "cloud.ply")
     = Raise (AttributeError "'numpy.ndarray' object has no attribute 'count'").
Proof.
  split; [reflexivity|].
  apply (matching_dimensions_own_source 0%Z (fun v => v) Samples.fs
           (SPath "cloud.ply") Samples.two_points).
  reflexivity.
Defined.

Lemma one_point_table_raises_witness :
  Samples.decode (SPlyData (Samples.cloud 1)) = Ok Samples.one_point
  /\ plyfile.elements0 (ply_data Samples.one_point) = Ok (Samples.vertex 1)
  /\ plyfile.count (Samples.vertex 1) = 1
  /\ get_sh_coeffs_standardized_format Samples.one_point
     = Raise (AxisError "axis 1 is out of bounds for array of dimension 1").
Proof.
  split; [reflexivity|]. split; [reflexivity|]. split; [reflexivity|].
  apply (one_point_table_raises 0%Z (fun v => v) Samples.fs
           (SPlyData (Samples.cloud 1)) Samples.one_point (Samples.vertex 1));
    reflexivity.
Defined.

Lemma other_elements_ignored_witness :
  loads Samples.fs (SPlyData (plyfile.mk_PlyData [Samples.vertex 2; Samples.face]))
    (plyfile.mk_PlyData [Samples.vertex 2; Samples.face])
  /\ loads Samples.fs (SPath "cloud.ply") (plyfile.mk_PlyData [Samples.vertex 2])
  /\ match Samples.decode (SPlyData (plyfile.mk_PlyData [Samples.vertex 2; Samples.face])),
           Samples.decode (SPath "cloud.ply") with
     | Ok w, Ok w' =>
         arrays w = arrays w'
         /\ get_sh_coeffs_standardized_format w = get_sh_coeffs_standardized_format w'
         /\ forall other,
              matching_dimensions 0%Z Samples.fs w other
              = matching_dimensions 0%Z Samples.fs w' other
     | Raise err, Raise err' => err = err'
     | _, _ => False
     end.
Proof.
  split; [reflexivity|]. split; [reflexivity|].
  apply (other_elements_ignored 0%Z (fun v => v) Samples.fs (Samples.vertex 2)
           [Samples.face] []
           (SPlyData (plyfile.mk_PlyData [Samples.vertex 2; Samples.face]))
           (SPath "cloud.ply"));
    reflexivity.
Defined.

Lemma rot_prefix_and_bad_suffix_witness :
  loads Samples.fs (SPlyData Samples.rotor) Samples.rotor
  /\ plyfile.elements0 Samples.rotor = Ok Samples.rotor_vertex
  /\ valid_element Samples.rotor_vertex = true
  /\ In "rotor_0" (plyfile.properties Samples.rotor_vertex)
  /\ String.prefix "rot" "rotor_0" = true
  /\ (exists w j,
        Samples.decode (SPlyData Samples.rotor) = Ok w
        /\ np.shape (rotation w) = [2; 2]
        /\ j < 2
        /\ np.column (rotation w) j = [Some 9%Z; Some 19%Z])
  /\ loads Samples.fs (SPlyData Samples.named_rotation) Samples.named_rotation
  /\ In "rotation" ["x"; "y"; "z"; "opacity"; "f_dc_0"; "f_dc_1"; "f_dc_2"; "rotation"]
  /\ String.prefix "rot" "rotation" = true
  /\ Py.parse_int (after_last_underscore "rotation") = None
  /\ exists msg, Samples.decode (SPlyData Samples.named_rotation) = Raise (ValueError msg).
Proof.
  assert (Hin : In "rotor_0" (plyfile.properties Samples.rotor_vertex))
    by (simpl; auto 10).
  split; [reflexivity|]. split; [reflexivity|]. split; [reflexivity|].
  split; [exact Hin|]. split; [reflexivity|]. split.
  - destruct (rot_prefix_and_bad_suffix 0%Z (fun v => v) Samples.fs
                (SPlyData Samples.rotor) Samples.rotor Samples.rotor_vertex
                eq_refl eq_refl)
      as [Hcollect _].
    destruct (Hcollect eq_refl) as (w & names & Hw & Hperm & [Hshape _] & Hall).
    destruct (Hall "rotor_0" Hin eq_refl) as (j & col & Hj & Hcol & Hcolumn).
    exists w, j. split; [exact Hw|]. split; [|split].
    + rewrite Hshape, (Permutation_length Hperm). reflexivity.
    + apply lookup_lt_Some in Hj. rewrite (Permutation_length Hperm) in Hj. exact Hj.
    + rewrite Hcolumn. vm_compute in Hcol. injection Hcol as <-. reflexivity.
  - split; [reflexivity|]. split; [simpl; auto 10|]. split; [reflexivity|].
    split; [reflexivity|].
    destruct (rot_prefix_and_bad_suffix 0%Z (fun v => v) Samples.fs
                (SPlyData Samples.named_rotation) Samples.named_rotation
                (plyfile.mk_PlyElement "vertex"
                   ["x"; "y"; "z"; "opacity"; "f_dc_0"; "f_dc_1"; "f_dc_2"; "rotation"]
                   [[1%Z; 2%Z; 3%Z; 4%Z; 5%Z; 6%Z; 7%Z; 8%Z]])
                eq_refl eq_refl)
      as [_ Hbad].
    apply (Hbad "rot" "rotation");
      [simpl; auto | simpl; auto 10 | reflexivity | reflexivity].
Defined.

(** * The further properties on the sample inputs *)

(** [scale_01] is declared before [scale_1] and both have the suffix 1: their
    columns keep that order, after the column of [scale_0]. *)
Example equal_suffixes_example :
  np.column (scaling Samples.padded_wrapper) 0 = [Some 10%Z; Some 20%Z]
  /\ np.column (scaling Samples.padded_wrapper) 1 = [Some 8%Z; Some 18%Z]
  /\ np.column (scaling Samples.padded_wrapper) 2 = [Some 9%Z; Some 19%Z].
Proof. repeat split. Qed.

Lemma decode_succeeds_iff_valid_witness :
  loads Samples.fs (SPath "cloud.ply") (Samples.cloud 2)
  /\ plyfile.elements0 (Samples.cloud 2) = Ok (Samples.vertex 2)
  /\ ((exists w, Samples.decode (SPath "cloud.ply") = Ok w)
      <-> valid_element (Samples.vertex 2) = true).
Proof.
  split; [reflexivity|]. split; [reflexivity|].
  apply (decode_succeeds_iff_valid 0%Z (fun v => v) Samples.fs
           (SPath "cloud.ply") (Samples.cloud 2) (Samples.vertex 2));
    reflexivity.
Defined.

Lemma decode_errors_witness :
  loads Samples.fs (SPlyData Samples.no_element) Samples.no_element
  /\ Samples.decode (SPlyData Samples.no_element)
     = Raise (IndexError "tuple index out of range")
  /\ loads Samples.fs (SPlyData Samples.named_rotation) Samples.named_rotation
  /\ Samples.decode (SPlyData Samples.named_rotation)
     = Raise (ValueError "invalid literal for int() with base 10: 'rotation'")
  /\ exists e msg,
       plyfile.elements0 Samples.named_rotation = Ok e
       /\ valid_element e = false
       /\ ValueError "invalid literal for int() with base 10: 'rotation'"
          = ValueError msg.
Proof.
  split; [reflexivity|].
  assert (Hnone : Samples.decode (SPlyData Samples.no_element)
                  = Raise (IndexError "tuple index out of range")).
  { destruct (Samples.decode (SPlyData Samples.no_element)) as [w|err] eqn:Hrun;
      [vm_compute in Hrun; discriminate Hrun|].
    destruct (decode_errors 0%Z (fun v => v) Samples.fs
                (SPlyData Samples.no_element) Samples.no_element err eq_refl Hrun)
      as [[_ ->]|(e & msg & He & _)]; [reflexivity | discriminate He]. }
  split; [exact Hnone|]. split; [reflexivity|]. split; [reflexivity|].
  destruct (decode_errors 0%Z (fun v => v) Samples.fs
              (SPlyData Samples.named_rotation) Samples.named_rotation
              (ValueError "invalid literal for int() with base 10: 'rotation'")
              eq_refl eq_refl)
    as [[Hel _]|Hvalid]; [discriminate Hel | exact Hvalid].
Defined.

Lemma decoded_array_shapes_witness :
  Samples.decode (SPlyData (Samples.cloud 2)) = Ok Samples.two_points
  /\ plyfile.elements0 (ply_data Samples.two_points) = Ok (Samples.vertex 2)
  /\ np.shape (xyz Samples.two_points) = [2; 3]
  /\ np.shape (opacities Samples.two_points) = [2; 1]
  /\ np.shape (direct_current Samples.two_points) = [2; 3]
  /\ np.shape (higher_order_shs Samples.two_points) = [2; 2]
  /\ np.shape (scaling Samples.two_points) = [2; 3]
  /\ np.shape (rotation Samples.two_points) = [2; 2].
Proof.
  split; [reflexivity|]. split; [reflexivity|].
  exact (decoded_array_shapes 0%Z (fun v => v) Samples.fs
           (SPlyData (Samples.cloud 2)) Samples.two_points (Samples.vertex 2)
           eq_refl eq_refl).
Defined.

Lemma table_of_points_witness :
  Samples.decode (SPlyData (Samples.cloud 2)) = Ok Samples.two_points
  /\ plyfile.elements0 (ply_data Samples.two_points) = Ok (Samples.vertex 2)
  /\ plyfile.count (Samples.vertex 2) <> 1
  /\ exists df,
       get_sh_coeffs_standardized_format Samples.two_points = Ok df
       /\ length (index df) = 2
       /\ np.shape (values df) = [2; 5].
Proof.
  split; [reflexivity|]. split; [reflexivity|]. split; [discriminate|].
  destruct (table_of_points 0%Z (fun v => v) Samples.fs
              (SPlyData (Samples.cloud 2)) Samples.two_points (Samples.vertex 2))
    as (df & m & Hdf & _ & Hlen & Hm & Hshape & _);
    [reflexivity | reflexivity | discriminate |].
  exists df. split; [exact Hdf|]. split; [exact Hlen|].
  injection Hm as <-. exact Hshape.
Defined.

Lemma decode_declaration_order_witness :
  Samples.decode (SPlyData (Samples.cloud 2)) = Ok Samples.two_points
  /\ Samples.decode (SPlyData (plyfile.mk_PlyData [Samples.vertex_in_order]))
     = Ok Samples.two_points_in_order
  /\ Permutation Samples.props Samples.props_in_order
  /\ plyfile.count (Samples.vertex 2) = plyfile.count Samples.vertex_in_order
  /\ arrays Samples.two_points = arrays Samples.two_points_in_order.
Proof.
  assert (Hperm : Permutation Samples.props Samples.props_in_order)
    by (apply (bool_decide_unpack _); vm_compute; exact I).
  split; [reflexivity|]. split; [reflexivity|]. split; [exact Hperm|].
  split; [reflexivity|].
  apply (decode_declaration_order 0%Z (fun v => v) Samples.fs
           (SPlyData (Samples.cloud 2))
           (SPlyData (plyfile.mk_PlyData [Samples.vertex_in_order]))
           Samples.two_points Samples.two_points_in_order
           (Samples.vertex 2) Samples.vertex_in_order);
    try reflexivity.
  - exact Hperm.
  - repeat constructor.
  - unfold group_prefixes.
    repeat (apply List.Forall_cons;
            [vm_compute; repeat (apply List.NoDup_cons; [not_in_list|]); apply List.NoDup_nil|]).
    apply List.Forall_nil.
Defined.

Lemma equal_suffixes_keep_declaration_order_witness :
  Samples.decode (SPlyData Samples.padded) = Ok Samples.padded_wrapper
  /\ holds_group_stably 0%Z (fun v => v)
       (plyfile.mk_PlyElement "vertex"
          ["x"; "y"; "z"; "opacity"; "f_dc_0"; "f_dc_1"; "f_dc_2";
           "scale_01"; "scale_1"; "scale_0"]
          [[1%Z; 2%Z; 3%Z; 4%Z; 5%Z; 6%Z; 7%Z; 8%Z; 9%Z; 10%Z];
           [11%Z; 12%Z; 13%Z; 14%Z; 15%Z; 16%Z; 17%Z; 18%Z; 19%Z; 20%Z]])
       "scale_" (scaling Samples.padded_wrapper).
Proof.
  split; [reflexivity|].
  apply (equal_suffixes_keep_declaration_order 0%Z (fun v => v) Samples.fs
           (SPlyData Samples.padded) Samples.padded_wrapper);
    reflexivity.
Defined.


Lemma get_dims_decoded_witness :
  Samples.decode (SPlyData (Samples.cloud 1)) = Ok Samples.one_point
  /\ plyfile.elements0 (ply_data Samples.one_point) = Ok (Samples.vertex 1)
  /\ get_dims Samples.one_point
     = <["direct_current" := [3]]> (<["opacities" := [1; 1]]> (<["xyz" := [1; 3]]> ∅)).
Proof.
  split; [reflexivity|]. split; [reflexivity|].
  exact (get_dims_decoded 0%Z (fun v => v) Samples.fs
           (SPlyData (Samples.cloud 1)) Samples.one_point (Samples.vertex 1)
           eq_refl eq_refl).
Defined.

Lemma suffix_key_after_last_underscore_witness :
  no_separator "_"%char "12" = true
  /\ suffix_key "f_rest_12" = Py.int "12"
  /\ suffix_key "12" = Py.int "12".
Proof.
  split; [reflexivity|].
  apply (suffix_key_after_last_underscore "f_rest" "12"). reflexivity.
Defined.

Lemma decoded_entries_witness :
  Samples.decode (SPlyData (Samples.cloud 2)) = Ok Samples.two_points
  /\ plyfile.elements0 (ply_data Samples.two_points) = Ok (Samples.vertex 2)
  /\ np.block 3 1 (np.flat (xyz Samples.two_points)) = [200%Z; 201%Z; 202%Z]
  /\ np.flat (opacities Samples.two_points) !! 1 = Some 203%Z
  /\ np.block 3 1 (np.flat (direct_current Samples.two_points)) = [204%Z; 205%Z; 206%Z].
Proof.
  split; [reflexivity|]. split; [reflexivity|].
  destruct (decoded_entries 0%Z (fun v => v) Samples.fs
              (SPlyData (Samples.cloud 2)) Samples.two_points (Samples.vertex 2)
              eq_refl eq_refl 1) as (Hxyz & Hop & Hdc).
  split; [apply Hxyz; reflexivity|]. split; [exact Hop|].
  apply (Hdc 204%Z 205%Z 206%Z); reflexivity.
Defined.

Lemma get_data_depends_on_name_set_witness :
  ["xyz"; "scaling"; "xyz"] <> [] /\ ["scaling"; "xyz"] <> []
  /\ exists m,
       get_data Samples.inherited Samples.two_points (Some ["xyz"; "scaling"; "xyz"]) = Ok m
       /\ get_data Samples.inherited Samples.two_points (Some ["scaling"; "xyz"]) = Ok m.
Proof.
  split; [discriminate|]. split; [discriminate|].
  apply (get_data_depends_on_name_set Samples.inherited Samples.two_points
           ["xyz"; "scaling"; "xyz"] ["scaling"; "xyz"]).
  - discriminate.
  - discriminate.
  - intros k. simpl. split; intros [H|[H|H]]; auto; destruct H as [H|[]]; auto.
  - repeat constructor.
Defined.
